(** * market-sitemaps: the signed app-proxy relay

    A shallow embedding of the relay's two authenticated revisions,
    [src/server.js] (first document: [verifyProxySignature] and its
    [/proxy/sitemaps/:market] handler) and [src/unnamed/part_001]
    ([verifyShopifySignature] and its handler), and of the routes that
    answer without a signature, together with the specification of the
    primitives they call: JavaScript strings, values and objects, the
    conversion of a value to a string, [Array.prototype.sort], Node's
    [crypto.createHmac('sha256', key).update(msg).digest('hex')], and what
    Express makes of [res.type], [res.set] and [res.send]. *)

From Stdlib Require Import NArith Lia Ascii String.
From stdpp Require Import base option list sorting strings.

(** * The model *)

Local Open Scope N_scope.
Set Warnings "-register-all".

(** ** JavaScript strings

    A JavaScript string is a sequence of UTF-16 code units; comparison
    ([<], used by the default [sort]) and equality ([===]) work on that
    sequence. *)

Abbreviation jsstring := (list N).

Module JsString.

Abbreviation t := jsstring.

(** An ASCII literal of the source, as code units. *)
Definition js (s : string) : t :=
  (fun a => N_of_ascii a) <$> list_ascii_of_string s.

Definition eqb (s1 s2 : t) : bool := bool_decide (s1 = s2).

(** [x < y] on strings: code unit by code unit, a proper prefix first. *)
Fixpoint ltb (x y : t) : bool :=
  match x, y with
  | [], [] => false
  | [], _ :: _ => true
  | _ :: _, [] => false
  | a :: x', b :: y' =>
      if a <? b then true else if b <? a then false else ltb x' y'
  end.

(** The order [sort()] arranges by when no comparator is passed:
    [x] stays before [y] unless [y < x]. *)
Definition le (x y : t) : Prop := ltb y x = false.

#[global] Instance le_dec x y : Decision (le x y).
Proof. unfold le. apply _. Defined.

(** [Array.prototype.join]. *)
Fixpoint join (sep : t) (parts : list t) : t :=
  match parts with
  | [] => []
  | [p] => p
  | p :: rest => p ++ sep ++ join sep rest
  end.

(** What [Buffer.from(s, 'utf8')] yields: the UTF-8 bytes of the string,
    a surrogate pair as one four-byte sequence and an unpaired surrogate as
    U+FFFD. *)
Definition utf8_cp (cp : N) : list N :=
  if cp <? 0x80 then [cp]
  else if cp <? 0x800 then
    [N.lor 0xC0 (N.shiftr cp 6); N.lor 0x80 (N.land cp 0x3F)]
  else if cp <? 0x10000 then
    [N.lor 0xE0 (N.shiftr cp 12);
     N.lor 0x80 (N.land (N.shiftr cp 6) 0x3F);
     N.lor 0x80 (N.land cp 0x3F)]
  else
    [N.lor 0xF0 (N.shiftr cp 18);
     N.lor 0x80 (N.land (N.shiftr cp 12) 0x3F);
     N.lor 0x80 (N.land (N.shiftr cp 6) 0x3F);
     N.lor 0x80 (N.land cp 0x3F)].

Definition is_high (c : N) : bool := (0xD800 <=? c) && (c <? 0xDC00).
Definition is_low (c : N) : bool := (0xDC00 <=? c) && (c <? 0xE000).

Fixpoint utf8 (s : t) : list N :=
  match s with
  | [] => []
  | c :: rest =>
      if is_high c then
        match rest with
        | d :: rest' =>
            if is_low d then
              utf8_cp (0x10000 + N.shiftl (c - 0xD800) 10 + (d - 0xDC00))
                ++ utf8 rest'
            else utf8_cp 0xFFFD ++ utf8 rest
        | [] => utf8_cp 0xFFFD
        end
      else if is_low c then utf8_cp 0xFFFD ++ utf8 rest
      else utf8_cp c ++ utf8 rest
  end.

End JsString.

Abbreviation js := JsString.js.

(** ** SHA-256 (FIPS 180-4) and HMAC (RFC 2104)

    The model of [crypto.createHmac('sha256', key)]: 32-bit words are [N]
    with the wrap-around written out, bytes are [N] below 256. *)

Module Sha256.

Definition mask32 : N := 0xFFFFFFFF.
Definition add32 (x y : N) : N := N.land (x + y) mask32.
Definition rotr (n x : N) : N :=
  N.lor (N.shiftr x n) (N.land (N.shiftl x (32 - n)) mask32).
Definition not32 (x : N) : N := N.lxor x mask32.

Definition Ch (x y z : N) : N := N.lxor (N.land x y) (N.land (not32 x) z).
Definition Maj (x y z : N) : N :=
  N.lxor (N.lxor (N.land x y) (N.land x z)) (N.land y z).
Definition bsig0 (x : N) : N :=
  N.lxor (N.lxor (rotr 2 x) (rotr 13 x)) (rotr 22 x).
Definition bsig1 (x : N) : N :=
  N.lxor (N.lxor (rotr 6 x) (rotr 11 x)) (rotr 25 x).
Definition ssig0 (x : N) : N :=
  N.lxor (N.lxor (rotr 7 x) (rotr 18 x)) (N.shiftr x 3).
Definition ssig1 (x : N) : N :=
  N.lxor (N.lxor (rotr 17 x) (rotr 19 x)) (N.shiftr x 10).

(** The constants of the standard are given by rule: the first 32 bits
    of the fractional parts of the cube roots (for the round constants) and
    of the square roots (for the initial hash value) of the first primes. *)
Definition is_prime (n : N) : bool :=
  (1 <? n)
  && forallb (λ d, negb (n mod d =? 0))
             (N.of_nat <$> seq 2 (N.to_nat (N.sqrt n) - 1)).

Definition primes (count : nat) : list N :=
  take count (filter (λ n, is_prime n = true) (N.of_nat <$> seq 2 400)).

(** The integer cube root, bit by bit from the top. *)
Fixpoint cube_root (bits : nat) (r n : N) : N :=
  match bits with
  | O => r
  | S bits' =>
      let r' := r + 2 ^ N.of_nat bits' in
      if r' * r' * r' <=? n then cube_root bits' r' n else cube_root bits' r n
  end.

Definition frac_cube_root (p : N) : N :=
  N.land (cube_root 40 0 (p * 2 ^ 96)) mask32.

Definition frac_square_root (p : N) : N :=
  N.land (N.sqrt (p * 2 ^ 64)) mask32.

Definition K256 : list N :=
  Eval vm_compute in frac_cube_root <$> primes 64.

(** The eight working variables, and the hash value between blocks. *)
Record regs := Regs { ra : N; rb : N; rc : N; rd : N;
                      re : N; rf : N; rg : N; rh : N }.

Definition H0 : regs :=
  Eval vm_compute in
    match frac_square_root <$> primes 8 with
    | [a; b; c; d; e; f; g; h] => Regs a b c d e f g h
    | _ => Regs 0 0 0 0 0 0 0 0
    end.

(** Big-endian packing. *)
Definition word_of_bytes (b0 b1 b2 b3 : N) : N :=
  N.lor (N.lor (N.shiftl b0 24) (N.shiftl b1 16)) (N.lor (N.shiftl b2 8) b3).

Definition bytes_of_word (w : N) : list N :=
  [N.land (N.shiftr w 24) 0xFF; N.land (N.shiftr w 16) 0xFF;
   N.land (N.shiftr w 8) 0xFF; N.land w 0xFF].

Fixpoint words_of_bytes (bs : list N) : list N :=
  match bs with
  | b0 :: b1 :: b2 :: b3 :: rest =>
      word_of_bytes b0 b1 b2 b3 :: words_of_bytes rest
  | _ => []
  end.

(** Padding: a one bit, zeros up to 56 mod 64, the bit length on 64 bits. *)
Definition pad (msg : list N) : list N :=
  let len := N.of_nat (length msg) in
  let zeros := N.to_nat ((119 - len mod 64) mod 64) in
  let bits := 8 * len in
  msg ++ [0x80] ++ replicate zeros 0
      ++ bytes_of_word (N.land (N.shiftr bits 32) mask32)
      ++ bytes_of_word (N.land bits mask32).

(** The message schedule, through a window of the last sixteen words. *)
Fixpoint schedule (n : nat) (win : list N) : list N :=
  match n with
  | O => []
  | S n' =>
      let w := add32 (add32 (ssig1 (nth 14 win 0)) (nth 9 win 0))
                     (add32 (ssig0 (nth 1 win 0)) (nth 0 win 0)) in
      w :: schedule n' (tail win ++ [w])
  end.

Definition round (s : regs) (kw : N * N) : regs :=
  let t1 := add32 (add32 (add32 (rh s) (bsig1 (re s)))
                         (add32 (Ch (re s) (rf s) (rg s)) (fst kw)))
                  (snd kw) in
  let t2 := add32 (bsig0 (ra s)) (Maj (ra s) (rb s) (rc s)) in
  Regs (add32 t1 t2) (ra s) (rb s) (rc s) (add32 (rd s) t1) (re s) (rf s) (rg s).

Definition compress (h : regs) (block : list N) : regs :=
  let w := block ++ schedule 48 block in
  let s := fold_left round (combine K256 w) h in
  Regs (add32 (ra h) (ra s)) (add32 (rb h) (rb s))
       (add32 (rc h) (rc s)) (add32 (rd h) (rd s))
       (add32 (re h) (re s)) (add32 (rf h) (rf s))
       (add32 (rg h) (rg s)) (add32 (rh h) (rh s)).

(** Sixteen-word blocks; [n] bounds their number. *)
Fixpoint blocks (n : nat) (ws : list N) : list (list N) :=
  match n with
  | O => []
  | S n' =>
      match ws with
      | [] => []
      | _ => take 16 ws :: blocks n' (drop 16 ws)
      end
  end.

Definition sha256_regs (msg : list N) : regs :=
  let ws := words_of_bytes (pad msg) in
  fold_left compress (blocks (length ws) ws) H0.

Definition regs_words (s : regs) : list N :=
  [ra s; rb s; rc s; rd s; re s; rf s; rg s; rh s].

Definition sha256 (msg : list N) : list N :=
  regs_words (sha256_regs msg) ≫= bytes_of_word.

(** HMAC with block size 64: a longer key is hashed first. *)
Definition hmac_key (key : list N) : list N :=
  let k := if decide (64 < length key)%nat then sha256 key else key in
  k ++ replicate (64 - length k) 0.

Definition hmac_regs (key msg : list N) : regs :=
  let k0 := hmac_key key in
  let inner := sha256 ((N.lxor 0x36 <$> k0) ++ msg) in
  sha256_regs ((N.lxor 0x5c <$> k0) ++ inner).

(** [digest('hex')]: two lowercase hexadecimal digits per byte. *)
Definition hex_digit (n : N) : N :=
  if n <? 10 then 48 + n else 87 + n.

Definition hex_word (w : N) : jsstring :=
  [hex_digit (N.land (N.shiftr w 28) 0xF); hex_digit (N.land (N.shiftr w 24) 0xF);
   hex_digit (N.land (N.shiftr w 20) 0xF); hex_digit (N.land (N.shiftr w 16) 0xF);
   hex_digit (N.land (N.shiftr w 12) 0xF); hex_digit (N.land (N.shiftr w 8) 0xF);
   hex_digit (N.land (N.shiftr w 4) 0xF); hex_digit (N.land w 0xF)].

Definition hex_regs (s : regs) : jsstring :=
  hex_word (ra s) ++ hex_word (rb s) ++ hex_word (rc s) ++ hex_word (rd s)
    ++ hex_word (re s) ++ hex_word (rf s) ++ hex_word (rg s) ++ hex_word (rh s).

Definition sha256_hex (msg : jsstring) : jsstring :=
  hex_regs (sha256_regs (JsString.utf8 msg)).

(** [createHmac('sha256', key).update(msg).digest('hex')] for string
    arguments, both taken as UTF-8. *)
Definition hmac_sha256_hex (key msg : jsstring) : jsstring :=
  hex_regs (hmac_regs (JsString.utf8 key) (JsString.utf8 msg)).

End Sha256.

(** ** String methods *)

Module Str.

(** The letters of ASCII in lower case, and what [toLowerCase] comes to on
    a string that holds nothing but ASCII. *)
Definition lower_unit (c : N) : N :=
  if (65 <=? c) && (c <=? 90) then c + 32 else c.

Definition lower_ascii (s : jsstring) : jsstring := lower_unit <$> s.

Definition is_ascii (s : jsstring) : bool := forallb (λ c, c <? 128) s.

Fixpoint startsWith (s pat : jsstring) : bool :=
  match pat, s with
  | [], _ => true
  | _ :: _, [] => false
  | p :: pat', c :: s' => (c =? p) && startsWith s' pat'
  end.

(** [s.replace(pat, by)] for a string pattern: the first occurrence,
    from the left, and no other. *)
Fixpoint replace (s pat by_ : jsstring) : jsstring :=
  if startsWith s pat then by_ ++ drop (length pat) s
  else match s with
       | [] => []
       | c :: s' => c :: replace s' pat by_
       end.

Definition endsWith (s suffix : jsstring) : bool :=
  startsWith (reverse s) (reverse suffix).

(** [a === b] where [a] may be [undefined]. *)
Definition strict_eq (a : option jsstring) (b : jsstring) : bool :=
  match a with
  | Some a => JsString.eqb a b
  | None => false
  end.

(** [a || b] on strings. *)
Definition or_else (a : option jsstring) (b : jsstring) : jsstring :=
  match a with
  | Some a => if JsString.eqb a [] then b else a
  | None => b
  end.

(** [`${a}`] where [a] is a string or [undefined]. *)
Definition template (a : option jsstring) : jsstring :=
  match a with
  | Some a => a
  | None => js "undefined"
  end.

End Str.

(** ** JavaScript values and objects

    What [req.query] holds: a parameter given once is a string, a parameter
    repeated in the query string is an array, and a bracketed name
    ([a[b]=1]) makes, under the extended query parser, a nested object: an
    ordinary object with own data properties, whose prototype is
    [Object.prototype].  A property that is absent reads as [undefined],
    here [None]. *)

Module Js.

Inductive value :=
| VStr (s : jsstring)
| VArr (elems : list value)
| VObj (props : list (jsstring * value)).

(** [String(v)], the conversion a template literal applies; [None] when it
    throws.  An array is its elements joined by commas.  An object is asked
    for its [toString]: the one it inherits answers [[object Object]]; an
    own property of that name hides it, and since it holds data, not a
    function, and [valueOf] gives no primitive either, the conversion ends
    in a [TypeError]. *)
Fixpoint to_string (v : value) : option jsstring :=
  match v with
  | VStr s => Some s
  | VArr elems => JsString.join (js ",") <$> mapM to_string elems
  | VObj props =>
      if bool_decide (js "toString" ∈ props.*1) then None
      else Some (js "[object Object]")
  end.

Definition to_string_opt (v : option value) : option jsstring :=
  match v with
  | Some v => to_string v
  | None => Some (js "undefined")
  end.

(** Truthiness, as [!v] tests it: [undefined] and the empty string are
    falsy, every array and every object is truthy. *)
Definition truthy (v : option value) : bool :=
  match v with
  | None => false
  | Some (VStr s) => negb (JsString.eqb s [])
  | Some (VArr _) | Some (VObj _) => true
  end.

Definition truthy_str (s : option jsstring) : bool :=
  match s with
  | None => false
  | Some s => negb (JsString.eqb s [])
  end.

(** [s === v] for a string [s]: no conversion, so only a string can be
    equal to it. *)
Definition strict_eq_str (s : jsstring) (v : option value) : bool :=
  match v with
  | Some (VStr s') => JsString.eqb s s'
  | _ => false
  end.

(** An object: its own properties in creation order, each name once. *)
Abbreviation object := (list (jsstring * value)).

Definition wf (o : object) : Prop := NoDup o.*1.

(** [o[key]]. *)
Fixpoint get (o : object) (key : jsstring) : option value :=
  match o with
  | [] => None
  | (k, v) :: rest => if JsString.eqb k key then Some v else get rest key
  end.

(** [o[key] = v]: an existing property keeps its place, a new one comes
    last. *)
Fixpoint set (o : object) (key : jsstring) (v : value) : object :=
  match o with
  | [] => [(key, v)]
  | (k, v') :: rest =>
      if JsString.eqb k key then (k, v) :: rest else (k, v') :: set rest key v
  end.

(** An array index is the decimal form, without leading zero, of an
    integer below 2^32 - 1. *)
Fixpoint decimal (acc : N) (s : jsstring) : option N :=
  match s with
  | [] => Some acc
  | c :: rest =>
      if (48 <=? c) && (c <=? 57) then decimal (10 * acc + (c - 48)) rest
      else None
  end.

Definition array_index (key : jsstring) : option N :=
  match key with
  | [] => None
  | c :: rest =>
      if (c =? 48) && negb (bool_decide (rest = [])) then None
      else match decimal 0 key with
           | Some n => if n <? 2 ^ 32 - 1 then Some n else None
           | None => None
           end
  end.

Definition index_le (x y : N * (jsstring * value)) : Prop := x.1 <= y.1.

#[global] Instance index_le_dec x y : Decision (index_le x y).
Proof. unfold index_le. apply _. Defined.

Definition indexed (o : object) : list (N * (jsstring * value)) :=
  omap (fun kv => (fun n => (n, kv)) <$> array_index kv.1) o.

(** The order in which an object enumerates its own properties: array
    indices first, by value, then the other names in creation order. *)
Definition own_entries (o : object) : object :=
  (merge_sort index_le (indexed o)).*2
    ++ filter (fun kv => array_index kv.1 = None) o.

(** [Object.keys(o)]. *)
Definition keys (o : object) : list jsstring := (own_entries o).*1.

(** [const { k, ...rest } = o]: the new object [rest] receives, in
    enumeration order, every own property of [o] but those named. *)
Definition rest (o : object) (excluded : list jsstring) : object :=
  filter (fun kv => kv.1 ∉ excluded) (own_entries o).

(** [names.sort()]: ascending in the order of [<] on strings. *)
Definition sort (names : list jsstring) : list jsstring :=
  merge_sort JsString.le names.

End Js.

(** ** The world a request runs in

    The heap of objects (the query object of the request and the objects
    the code creates), the trace of what the code does to the console and
    to the file system, and the response under construction.  A computation
    either returns or throws. *)

Inductive exn :=
| TypeError (what : string)
| FsError (path : jsstring).

Inductive outcome (A : Type) :=
| Returned (a : A)
| Thrown (e : exn).
Arguments Returned {A} a.
Arguments Thrown {A} e.

(** A line on the console: [console.log] or [console.error], the text the
    source writes first (without its pictograph) and the values passed
    after it, as they are; an error or its message is left out. *)
Inductive level := Log | Error.

Inductive event :=
| Console (l : level) (label : string) (data : list (option Js.value))
| FsAccess (path : jsstring)
| FsReadFile (path : jsstring)
| FsReaddir (path : jsstring).

(** The response as it goes out: the status code, the [Content-Type] and
    [Cache-Control] headers, and the body. *)
Record response := Response {
  statusCode : N;
  contentType : option jsstring;
  cacheControl : option jsstring;
  body : option jsstring
}.

Definition fresh_response : response := Response 200 None None None.

Record world := World {
  heap : list Js.object;
  trace : list event;
  res : response
}.

Definition M (A : Type) : Type := world → outcome A * world.

#[global] Instance M_ret : MRet M := λ A a w, (Returned a, w).
#[global] Instance M_bind : MBind M := λ A B k m w,
  match m w with
  | (Returned a, w') => k a w'
  | (Thrown e, w') => (Thrown e, w')
  end.

Definition throw {A} (e : exn) : M A := λ w, (Thrown e, w).

Definition try_catch {A} (m : M A) (handler : exn → M A) : M A := λ w,
  match m w with
  | (Returned a, w') => (Returned a, w')
  | (Thrown e, w') => handler e w'
  end.

Definition emit (e : event) : M unit := λ w,
  (Returned tt, World (heap w) (trace w ++ [e]) (res w)).

Definition console_log (label : string) (data : list (option Js.value))
  : M unit :=
  emit (Console Log label data).
Definition console_error (label : string) (data : list (option Js.value))
  : M unit :=
  emit (Console Error label data).

(** A string among the values printed. *)
Definition text (s : jsstring) : option Js.value := Some (Js.VStr s).

(** The conversion of a value to a string, where it may throw. *)
Definition to_primitive (converted : option jsstring) : M jsstring :=
  match converted with
  | Some s => mret s
  | None => throw (TypeError "Cannot convert object to primitive value")
  end.

(** Reading through a reference; one that denotes no object is [undefined],
    whose properties cannot be read. *)
Definition read_object (r : nat) : M Js.object := λ w,
  match heap w !! r with
  | Some o => (Returned o, w)
  | None => (Thrown (TypeError "Cannot read properties of undefined"), w)
  end.

(** A reference passed on as a value: the object it denotes, or
    [undefined]. *)
Definition value_of (r : nat) : M (option Js.value) := λ w,
  (Returned (Js.VObj <$> heap w !! r), w).

Definition new_object (o : Js.object) : M nat := λ w,
  (Returned (length (heap w)), World (heap w ++ [o]) (trace w) (res w)).

(** [delete o[key]] through a reference: the object itself changes, for
    everyone who holds it. *)
Definition delete_property (r : nat) (key : jsstring) : M unit := λ w,
  match heap w !! r with
  | Some o =>
      (Returned tt,
       World (<[r := filter (λ kv, kv.1 ≠ key) o]> (heap w)) (trace w) (res w))
  | None => (Thrown (TypeError "Cannot convert undefined to object"), w)
  end.

Definition update_res (f : response → response) : M unit := λ w,
  (Returned tt, World (heap w) (trace w) (f (res w))).

(** What Express (4.x: [response.js], [utils.js]) does to the
    [Content-Type] header. *)
Module Express.

(** [\s] of a regular expression. *)
Definition is_space (c : N) : bool :=
  bool_decide (c ∈ [9; 10; 11; 12; 13; 32; 160; 0x1680; 0x2028; 0x2029;
                     0x202F; 0x205F; 0x3000; 0xFEFF])
  || ((0x2000 <=? c) && (c <=? 0x200A)).

Fixpoint skip_space (s : jsstring) : jsstring :=
  match s with
  | c :: s' => if is_space c then skip_space s' else s
  | [] => []
  end.

(** [/;\s*charset\s*=/.test(v)]: the expression matched at the head of
    the string, then anywhere in it. *)
Definition charset_here (s : jsstring) : bool :=
  match s with
  | c :: s' =>
      (c =? 59)
      && Str.startsWith (skip_space s') (js "charset")
      && Str.startsWith (skip_space (drop 7 (skip_space s'))) (js "=")
  | [] => false
  end.

Fixpoint has_charset (s : jsstring) : bool :=
  charset_here s
  || match s with
     | _ :: s' => has_charset s'
     | [] => false
     end.

(** [v.split(';')[0]]. *)
Fixpoint media_type (v : jsstring) : jsstring :=
  match v with
  | c :: v' => if c =? 59 then [] else c :: media_type v'
  | [] => []
  end.

(** [mime.charsets.lookup]: the types that are text. *)
Definition text_like (type : jsstring) : bool :=
  Str.startsWith type (js "text/")
  || Str.startsWith type (js "application/javascript")
  || Str.startsWith type (js "application/json").

(** [res.set('Content-Type', v)] stores [v], with the charset of a text
    type added when [v] names none. *)
Definition content_type (v : jsstring) : jsstring :=
  if has_charset v then v
  else if text_like (media_type v) then v ++ js "; charset=utf-8"
  else v.

(** [setCharset(type, 'utf-8')], by which [res.send] marks a string body:
    the header is parsed, its charset set, and formatted again.  Written
    for a header that is a media type in lower case, alone or followed by
    a charset, which is what the handlers set. *)
Definition setCharset (type : jsstring) : jsstring :=
  media_type type ++ js "; charset=utf-8".

End Express.

Definition res_status (code : N) : M unit :=
  update_res (λ r, Response code (contentType r) (cacheControl r) (body r)).
Definition res_set_content_type (v : jsstring) : M unit :=
  update_res (λ r, Response (statusCode r) (Some (Express.content_type v))
                            (cacheControl r) (body r)).
(** [res.type(t)] for a [t] with a slash in it: the header is set to it. *)
Definition res_type (t : jsstring) : M unit := res_set_content_type t.
Definition res_set_cache_control (v : jsstring) : M unit :=
  update_res (λ r, Response (statusCode r) (contentType r) (Some v) (body r)).
(** [res.send(text)] for a string: a response that names no type is
    given [text/html], and the charset of the header becomes [utf-8].  The
    request is one without validators ([If-None-Match],
    [If-Modified-Since]), so that the body is sent. *)
Definition res_send (text : jsstring) : M unit :=
  update_res (λ r,
    let type := default (Express.content_type (js "text/html")) (contentType r) in
    Response (statusCode r) (Some (Express.setCharset type)) (cacheControl r)
             (Some text)).

(** What the process is started with and runs on: the environment
    variables the code reads, the module's directory, [path.join], the
    read-only file system behind [fs.access], [fs.readFile] and
    [fs.readdir], and the engine's case conversion for strings that reach
    beyond ASCII. *)
Record host := Host {
  env_SHOPIFY_APP_SECRET : option jsstring;
  env_SKIP_VERIFICATION : option jsstring;
  env_NODE_ENV : option jsstring;
  dirname : jsstring;
  path_join : list jsstring → jsstring;
  fs_access : jsstring → bool;
  fs_readFile : jsstring → option jsstring;
  fs_readdir : jsstring → option (list jsstring);
  toLowerCase_unicode : jsstring → jsstring
}.

(** [s.toLowerCase()].  On a string of ASCII it puts the letters [A] to
    [Z] in lower case and leaves the rest.  Beyond ASCII the result is that
    of the Unicode tables and rules of the engine (one of which looks at
    what surrounds a capital sigma), taken as given. *)
Definition toLowerCase (h : host) (s : jsstring) : jsstring :=
  if Str.is_ascii s then Str.lower_ascii s else toLowerCase_unicode h s.

Definition access (h : host) (path : jsstring) : M unit :=
  emit (FsAccess path);;
  if fs_access h path then mret tt else throw (FsError path).

Definition readFile (h : host) (path : jsstring) : M jsstring :=
  emit (FsReadFile path);;
  match fs_readFile h path with
  | Some content => mret content
  | None => throw (FsError path)
  end.

Definition readdir (h : host) (path : jsstring) : M (list jsstring) :=
  emit (FsReaddir path);;
  match fs_readdir h path with
  | Some names => mret names
  | None => throw (FsError path)
  end.

(** [crypto.createHmac('sha256', key).update(msg).digest('hex')]; the
    constructor refuses a key that is [undefined]. *)
Definition createHmac_sha256_hex (key : option jsstring) (msg : jsstring)
  : M jsstring :=
  match key with
  | Some k => mret (Sha256.hmac_sha256_hex k msg)
  | None => throw (TypeError "The key argument must be of type string")
  end.

(** ** The signature verifier *)

(** [Object.keys(params).sort().map(key => `${key}=${params[key]}`).join('')],
    lines 41-44 of [server.js] and 35-38 of [part_001]; [name_value] is the
    arrow function. *)
Definition name_value (params : Js.object) (key : jsstring)
  : option jsstring :=
  (λ value, key ++ js "=" ++ value) <$> Js.to_string_opt (Js.get params key).

(** [None] when the conversion of a value throws. *)
Definition canonical_message (params : Js.object) : option jsstring :=
  JsString.join [] <$> mapM (name_value params) (Js.sort (Js.keys params)).

(** [verifyProxySignature] of [server.js]: the signature is looked at
    first, the secret second. *)
Definition verifyProxySignature (h : host) (query : nat) : M bool :=
  q ← read_object query;
  let signature := Js.get q (js "signature") in
  params ← new_object (Js.rest q [js "signature"]);
  if negb (Js.truthy signature) then
    console_log "No signature in request" [];;
    mret false
  else if negb (Js.truthy_str (env_SHOPIFY_APP_SECRET h)) then
    console_error "SHOPIFY_APP_SECRET not configured!" [];;
    mret false
  else
    p ← read_object params;
    message ← to_primitive (canonical_message p);
    calculated ← createHmac_sha256_hex (env_SHOPIFY_APP_SECRET h) message;
    let valid := Js.strict_eq_str calculated signature in
    (if negb valid then
       console_log "Signature mismatch!" [];;
       console_log "  Expected:" [text calculated];;
       console_log "  Received:" [signature]
     else
       console_log "Signature valid" []);;
    mret valid.

(** [verifyShopifySignature] of [part_001]: the secret is looked at before
    the query is taken apart. *)
Definition verifyShopifySignature (h : host) (query : nat) : M bool :=
  if negb (Js.truthy_str (env_SHOPIFY_APP_SECRET h)) then
    console_error "SHOPIFY_APP_SECRET is not set!" [];;
    mret false
  else
    q ← read_object query;
    let signature := Js.get q (js "signature") in
    params ← new_object (Js.rest q [js "signature"]);
    if negb (Js.truthy signature) then
      console_log "No signature provided" [];;
      mret false
    else
      p ← read_object params;
      sortedParams ← to_primitive (canonical_message p);
      calculatedSignature ←
        createHmac_sha256_hex (env_SHOPIFY_APP_SECRET h) sortedParams;
      let isValid := Js.strict_eq_str calculatedSignature signature in
      (if negb isValid then
         console_log "Signature verification failed" [];;
         console_log "Expected:" [text calculatedSignature];;
         console_log "Received:" [signature]
       else mret tt);;
      mret isValid.

(** ** The proxy route *)

(** What a handler reads of a request: its path, the path parameter
    [market], which the route pattern may leave [undefined], and the
    reference to its query object. *)
Record request := Request {
  req_path : jsstring;
  params_market : option jsstring;
  query : nat
}.

(** [req.params.market.toLowerCase()]: a method call on [undefined]
    throws. *)
Definition market_toLowerCase (h : host) (market : option jsstring)
  : M jsstring :=
  match market with
  | Some m => mret (toLowerCase h m)
  | None => throw (TypeError "Cannot read properties of undefined")
  end.

(** Lines 81-96 of [server.js]: the resolver, inside its [try]. *)
Definition serve_server (h : host) (req : request) : M unit :=
  try_catch
    (lowered ← market_toLowerCase h (params_market req);
     let market := Str.replace lowered (js ".xml") [] in
     let filePath :=
       path_join h [dirname h; js "public"; js "sitemaps"; market ++ js ".xml"] in
     console_log "Looking for file:" [text filePath];;
     xmlContent ← readFile h filePath;
     console_log "Sending XML for market:" [text market];;
     res_set_content_type (js "application/xml; charset=utf-8");;
     res_send xmlContent)
    (λ error,
       console_error "Error:" [];;
       res_status 404;;
       res_send (js "Sitemap not found for market: "
                   ++ Str.template (params_market req))).

(** The handler of [/proxy/sitemaps/:market] in [server.js], lines 66-97. *)
Definition proxy_server (h : host) (req : request) : M unit :=
  console_log "Proxy request for market:" [Js.VStr <$> params_market req];;
  let skipVerification := Str.strict_eq (env_SKIP_VERIFICATION h) (js "true") in
  if negb skipVerification then
    valid ← verifyProxySignature h (query req);
    if negb valid then
      console_log "Request rejected - invalid signature" [];;
      res_status 403;;
      res_send (js "Forbidden")
    else serve_server h req
  else
    console_log "Signature verification skipped (testing mode)" [];;
    serve_server h req.

(** [sendXml] of [part_001], lines 58-69. *)
Definition sendXml (h : host) (filePath : jsstring) : M unit :=
  res_set_content_type (js "application/xml; charset=utf-8");;
  res_set_cache_control (js "public, max-age=3600");;
  try_catch
    (xmlContent ← readFile h filePath;
     res_send xmlContent)
    (λ err,
       console_error "Error reading file:" [];;
       res_status 404;;
       res_type (js "text/plain");;
       res_send (js "Sitemap not found")).

(** Lines 89-117 of [part_001]: the resolver. *)
Definition serve_part_001 (h : host) (req : request) : M unit :=
  let market :=
    Str.replace (toLowerCase h (Str.or_else (params_market req) []))
                (js ".xml") [] in
  if JsString.eqb market [] then
    res_status 400;;
    res_type (js "text/plain");;
    res_send (js "Market is required")
  else
    let fileName := market ++ js ".xml" in
    let filePath :=
      path_join h [dirname h; js "public"; js "sitemaps"; fileName] in
    console_log "Looking for file:" [text filePath];;
    try_catch
      (access h filePath;;
       console_log "File found, sending XML" [];;
       sendXml h filePath)
      (λ _,
         console_error "File not found:" [text filePath];;
         let sitemapsDir :=
           path_join h [dirname h; js "public"; js "sitemaps"] in
         try_catch
           (files ← readdir h sitemapsDir;
            console_log "Available sitemap files:"
              [Some (Js.VArr (Js.VStr <$> files))])
           (λ e, console_error "Cannot read sitemaps directory:" []);;
         res_status 404;;
         res_type (js "text/plain");;
         res_send (js "Sitemap not found for market: " ++ market)).

(** The handler of [/proxy/sitemaps/:market] and [/proxy/sitemaps/:market.xml]
    in [part_001], lines 73-122. *)
Definition proxy_part_001 (h : host) (req : request) : M unit :=
  console_log "Proxy request received:" [];;
  console_log "  Path:" [text (req_path req)];;
  console_log "  Market:" [Js.VStr <$> params_market req];;
  query_value ← value_of (query req);
  console_log "  Query:" [query_value];;
  try_catch
    (let isDevelopment := Str.strict_eq (env_NODE_ENV h) (js "development") in
     rejected ←
       (if negb isDevelopment then
          valid ← verifyShopifySignature h (query req);
          mret (negb valid)
        else mret false);
     if rejected : bool then
       console_error "Invalid signature - request rejected" [];;
       res_status 403;;
       res_type (js "text/plain");;
       res_send (js "Forbidden")
     else serve_part_001 h req)
    (λ error,
       console_error "Error processing request:" [];;
       res_status 500;;
       res_type (js "text/plain");;
       res_send (js "Internal server error")).

(** ** The other routes

    The routes that answer without a signature, and the two earlier
    revisions of the proxy route: [part_000] and the second document of
    [server.js], which hand the file to [res.sendFile]. *)

(** What [res.sendFile(path, callback)] comes to: the file goes out as the
    body, with the type its extension stands for, if any; or the callback
    receives an error, which may carry a status code. *)
Inductive sent :=
| Sent (type : option jsstring) (content : jsstring)
| SendError (statusCode : option N).

(** [err.statusCode || fallback]: a code that is absent or zero is falsy. *)
Definition status_or (statusCode : option N) (fallback : N) : N :=
  match statusCode with
  | Some code => if code =? 0 then fallback else code
  | None => fallback
  end.

(** The file is streamed as it is: a [Content-Type] or [Cache-Control]
    the response has already is kept, one that is missing is filled in with
    the type of the file and with [public, max-age=0]. *)
Definition res_sendFile (sendFile : jsstring → sent) (path : jsstring)
    (callback : option N → M unit) : M unit :=
  emit (FsReadFile path);;
  match sendFile path with
  | Sent type content =>
      update_res (λ r,
        Response (statusCode r)
                 (match contentType r with Some t => Some t | None => type end)
                 (Some (default (js "public, max-age=0") (cacheControl r)))
                 (Some content))
  | SendError statusCode => callback statusCode
  end.

(** The handler of [/proxy/sitemaps/:market.xml] in [part_000], lines
    16-25. *)
Definition proxy_part_000 (h : host) (sendFile : jsstring → sent)
    (req : request) : M unit :=
  let market := Str.template (params_market req) in
  let filePath :=
    path_join h [dirname h; js "public"; js "sitemaps"; market ++ js ".xml"] in
  res_set_content_type (js "application/xml; charset=utf-8");;
  res_sendFile sendFile filePath
    (λ statusCode,
       res_status (status_or statusCode 404);;
       res_type (js "text/plain");;
       res_send (js "Sitemap not found")).

(** [sendXml] of the second document of [server.js], lines 169-181. *)
Definition sendXml_sendFile (sendFile : jsstring → sent) (filePath : jsstring)
  : M unit :=
  res_set_content_type (js "application/xml; charset=utf-8");;
  res_set_cache_control (js "public, max-age=3600");;
  res_sendFile sendFile filePath
    (λ statusCode,
       res_status (status_or statusCode 404);;
       res_type (js "text/plain");;
       res_send (js "Sitemap not found")).

(** [market.endsWith(".xml") ? market : `${market}.xml`], line 192 of
    [server.js]. *)
Definition fileName_of (market : jsstring) : jsstring :=
  if Str.endsWith market (js ".xml") then market else market ++ js ".xml".

(** The handler of [/proxy/sitemaps/:market] and
    [/proxy/sitemaps/:market.xml] in the second document of [server.js],
    lines 185-201. *)
Definition proxy_server_2 (h : host) (sendFile : jsstring → sent)
    (req : request) : M unit :=
  try_catch
    (let market := toLowerCase h (Str.or_else (params_market req) []) in
     if JsString.eqb market [] then
       res_status 400;;
       res_type (js "text/plain");;
       res_send (js "Market is required")
     else
       let fileName := fileName_of market in
       let filePath :=
         path_join h [dirname h; js "public"; js "sitemaps"; fileName] in
       access h filePath;;
       sendXml_sendFile sendFile filePath)
    (λ _,
       res_status 404;;
       res_type (js "text/plain");;
       res_send (js "Sitemap not found")).

(** The handler of [/direct/:market.xml] in [server.js], lines 127-139. *)
Definition direct_server (h : host) (req : request) : M unit :=
  let market := Str.template (params_market req) in
  console_log "Direct access test for:" [Js.VStr <$> params_market req];;
  try_catch
    (let filePath :=
       path_join h [dirname h; js "public"; js "sitemaps"; market ++ js ".xml"] in
     xmlContent ← readFile h filePath;
     res_set_content_type (js "application/xml");;
     res_send xmlContent)
    (λ error,
       res_status 404;;
       res_send (js "Not found")).

(** The handler of [/sitemaps/:market.xml] in [part_001], lines 150-161. *)
Definition sitemaps_part_001 (h : host) (req : request) : M unit :=
  console_log "Direct sitemap access:" [Js.VStr <$> params_market req];;
  market ← market_toLowerCase h (params_market req);
  let filePath :=
    path_join h [dirname h; js "public"; js "sitemaps"; market ++ js ".xml"] in
  try_catch
    (access h filePath;;
     sendXml h filePath)
    (λ _,
       res_status 404;;
       res_type (js "text/plain");;
       res_send (js "Sitemap not found")).

(** ** The specification's notions *)

(** Lexicographic order, as a relation: a proper prefix comes first, and
    otherwise the first differing code unit decides. *)
Inductive lex_lt : jsstring → jsstring → Prop :=
| lex_prefix b y : lex_lt [] (b :: y)
| lex_head a b x y : a < b → lex_lt (a :: x) (b :: y)
| lex_tail a x y : lex_lt x y → lex_lt (a :: x) (a :: y).

(** The message as the specification words it: the names of all parameters
    but [signature], in ascending lexicographic order, each followed by [=]
    and its value, with nothing between the pairs. *)
Definition spec_names (q : Js.object) : list jsstring :=
  filter (λ k, k ≠ js "signature") q.*1.

Definition spec_message (q : Js.object) (m : jsstring) : Prop :=
  ∃ names values,
    names ≡ₚ spec_names q ∧
    Sorted lex_lt names ∧
    Forall2 (λ n value, Js.to_string_opt (Js.get q n) = Some value)
            names values ∧
    m = mjoin (zip_with (λ n value, n ++ js "=" ++ value) names values).

(** A digit, or a letter from [a] to [f]. *)
Definition lower_hex (c : N) : Prop := 48 ≤ c ≤ 57 ∨ 97 ≤ c ≤ 102.

(** An event that is console output, not file system access. *)
Definition is_console (e : event) : Prop :=
  match e with
  | Console _ _ _ => True
  | _ => False
  end.

(** The verdict, as a function of the secret and of the query object:
    [false] without a signature or a secret, else the comparison with the
    digest of the message, or the error of a value that has no text. *)
Definition verdict (h : host) (q : Js.object) : outcome bool :=
  let signature := Js.get q (js "signature") in
  match env_SHOPIFY_APP_SECRET h with
  | Some secret =>
      if Js.truthy signature && negb (JsString.eqb secret []) then
        match canonical_message (Js.rest q [js "signature"]) with
        | Some message =>
            Returned (Js.strict_eq_str
                        (Sha256.hmac_sha256_hex secret message) signature)
        | None => Thrown (TypeError "Cannot convert object to primitive value")
        end
      else Returned false
  | None => Returned false
  end.

(** Acceptance as the specification words it: a [signature] parameter is
    there, the secret is configured, and the signature is the lowercase
    hexadecimal HMAC-SHA-256, under the secret, of the canonical message. *)
Definition spec_accepts (h : host) (q : Js.object) : Prop :=
  ∃ secret m,
    js "signature" ∈ q.*1 ∧
    env_SHOPIFY_APP_SECRET h = Some secret ∧ secret ≠ [] ∧
    spec_message q m ∧
    Js.get q (js "signature") = Some (Js.VStr (Sha256.hmac_sha256_hex secret m)).

(** A query whose parameters all have a text: [String(v)] does not throw
    for the value [v] of any parameter but [signature]. *)
Definition has_texts (q : Js.object) : Prop :=
  ∀ k v, (k, v) ∈ q → k ≠ js "signature" → is_Some (Js.to_string v).

(** When the verifier has to return [false]: no signature, no secret (unset
    or empty), or a signature other than the digest it computes. *)
Definition must_reject (h : host) (q : Js.object) : Prop :=
  js "signature" ∉ q.*1
  ∨ env_SHOPIFY_APP_SECRET h = None
  ∨ env_SHOPIFY_APP_SECRET h = Some []
  ∨ ∃ secret message,
      env_SHOPIFY_APP_SECRET h = Some secret ∧
      canonical_message (Js.rest q [js "signature"]) = Some message ∧
      Js.get q (js "signature")
        ≠ Some (Js.VStr (Sha256.hmac_sha256_hex secret message)).

(** Two strings that differ, and only in the case of ASCII letters. *)
Definition differs_only_in_case (s1 s2 : jsstring) : Prop :=
  s1 ≠ s2 ∧ Str.lower_ascii s1 = Str.lower_ascii s2.

(** Tamper evidence at its strongest: once a query verifies, changing the
    value of any single parameter other than [signature] makes it fail. *)
Definition every_change_invalidates (verify : host → nat → M bool) : Prop :=
  ∀ h r r' q w w' k v v',
    heap w !! r = Some q → Js.wf q →
    (verify h r w).1 = Returned true →
    k ≠ js "signature" → Js.get q k = Some v → v' ≠ v →
    heap w' !! r' = Some (Js.set q k v') →
    (verify h r' w').1 = Returned false.

(** What was done on behalf of a request. *)
Definition new_events (before : world) (run : outcome () * world) : list event :=
  drop (length (trace before)) (trace run.2).

(** The identifier as the specification words it: the path parameter in
    lower case, without a trailing [.xml]. *)
Definition spec_market_id (h : host) (param : jsstring) : jsstring :=
  let lowered := toLowerCase h param in
  if Str.endsWith lowered (js ".xml")
  then take (length lowered - 4) lowered
  else lowered.

(** The paths handed to the file system. *)
Definition fs_paths (events : list event) : list jsstring :=
  omap (λ e, match e with
             | Console _ _ _ => None
             | FsAccess p | FsReadFile p | FsReaddir p => Some p
             end) events.

(** The events between two worlds of one run. *)
Definition events_since (before after : world) : list event :=
  drop (length (trace before)) (trace after).

(** A signature as [digest('hex')] writes one: a string of sixty-four
    digits and letters from [a] to [f]. *)
Definition digest_shaped (v : option Js.value) : Prop :=
  ∃ s, v = Some (Js.VStr s) ∧ length s = 64%nat ∧ Forall lower_hex s.

(** [path.join(__dirname, "public", "sitemaps", fileName)]. *)
Definition sitemap_path (h : host) (fileName : jsstring) : jsstring :=
  path_join h [dirname h; js "public"; js "sitemaps"; fileName].

(** [market.toLowerCase().replace('.xml', '')], the identifier both proxy
    handlers compute. *)
Definition market_id (h : host) (market : jsstring) : jsstring :=
  Str.replace (toLowerCase h market) (js ".xml") [].

(** A request that gets past the gate of [server.js]: the bypass is on, or
    the verifier returns [true]. *)
Definition let_through_server (h : host) (req : request) (w : world) : Prop :=
  Str.strict_eq (env_SKIP_VERIFICATION h) (js "true") = true
  ∨ (Str.strict_eq (env_SKIP_VERIFICATION h) (js "true") = false
     ∧ (verifyProxySignature h (query req) w).1 = Returned true).

(** The same for [part_001]. *)
Definition let_through_part_001 (h : host) (req : request) (w : world) : Prop :=
  Str.strict_eq (env_NODE_ENV h) (js "development") = true
  ∨ (Str.strict_eq (env_NODE_ENV h) (js "development") = false
     ∧ (verifyShopifySignature h (query req) w).1 = Returned true).

(** What [part_001] writes to the console before anything else, lines
    74-77. *)
Definition greeting (req : request) (w : world) : list event :=
  [Console Log "Proxy request received:" [];
   Console Log "  Path:" [text (req_path req)];
   Console Log "  Market:" [Js.VStr <$> params_market req];
   Console Log "  Query:" [Js.VObj <$> heap w !! query req]].

(** The content types that go out. *)
Definition xml_type : jsstring := js "application/xml; charset=utf-8".
Definition plain_type : jsstring := js "text/plain; charset=utf-8".
Definition html_type : jsstring := js "text/html; charset=utf-8".

(** The type of a string sent by a handler that names none: [text/html],
    unless the response came to the handler with a type. *)
Definition default_type (before : response) : jsstring :=
  Express.setCharset (default html_type (contentType before)).

(** The answer that carries the file. *)
Definition file_answer (h : host) (before : response) (cache : option jsstring)
    (r : response) : Prop :=
  ∃ path content,
    fs_readFile h path = Some content
    ∧ r = Response (statusCode before) (Some xml_type) cache (Some content).

(** ** Worked requests *)

Module Examples.

(** A host with the secret [hush] and one sitemap, and a signed query as
    the platform forwards it. *)
Definition austria : jsstring := js "/srv/app/public/sitemaps/austria.xml".

Definition host0 : host :=
  Host (Some (js "hush")) None None (js "/srv/app") (JsString.join (js "/"))
       (λ p, JsString.eqb p austria)
       (λ p, if JsString.eqb p austria then Some (js "<urlset/>") else None)
       (λ _, Some [js "austria.xml"])
       Str.lower_ascii.

Definition signed : Js.object :=
  [(js "shop", Js.VStr (js "example.myshopify.com"));
   (js "signature",
    Js.VStr (js "151c9e99bf578ec47aa8db85f09821a7f104fd403869a19397264d71132ab1a5"));
   (js "path_prefix", Js.VStr (js "/apps/sitemaps"));
   (js "timestamp", Js.VStr (js "1700000000"))].

Definition world_of (q : Js.object) : world := World [q] [] fresh_response.

(** The signed query with the last digit of its signature changed. *)
Definition tampered : Js.object :=
  [(js "shop", Js.VStr (js "example.myshopify.com"));
   (js "signature",
    Js.VStr (js "151c9e99bf578ec47aa8db85f09821a7f104fd403869a19397264d71132ab1a4"));
   (js "path_prefix", Js.VStr (js "/apps/sitemaps"));
   (js "timestamp", Js.VStr (js "1700000000"))].

Definition unsigned : Js.object :=
  [(js "shop", Js.VStr (js "example.myshopify.com"))].

Definition no_secret : host :=
  Host None None None (dirname host0) (path_join host0) (fs_access host0)
       (fs_readFile host0) (fs_readdir host0) (toLowerCase_unicode host0).

Definition empty_secret : host :=
  Host (Some []) None None (dirname host0) (path_join host0)
       (fs_access host0) (fs_readFile host0) (fs_readdir host0)
       (toLowerCase_unicode host0).

(** The signed query with the letters of its signature in upper case. *)
Definition shouted : jsstring :=
  js "151C9E99BF578EC47AA8DB85F09821A7F104FD403869A19397264D71132AB1A5".

Definition shouted_query : Js.object :=
  [(js "shop", Js.VStr (js "example.myshopify.com"));
   (js "signature", Js.VStr shouted);
   (js "path_prefix", Js.VStr (js "/apps/sitemaps"));
   (js "timestamp", Js.VStr (js "1700000000"))].

(** Nothing but the signature of the empty message under [hush]. *)
Definition bare : Js.object :=
  [(js "signature",
    Js.VStr (js "2a79bcad68de497348b761f400e313ec343cfd84b2f2c422fe91236ee52618cb"))].

(** The signed query with its parameters in another order. *)
Definition reordered : Js.object :=
  [(js "timestamp", Js.VStr (js "1700000000"));
   (js "path_prefix", Js.VStr (js "/apps/sitemaps"));
   (js "signature",
    Js.VStr (js "151c9e99bf578ec47aa8db85f09821a7f104fd403869a19397264d71132ab1a5"));
   (js "shop", Js.VStr (js "example.myshopify.com"))].

(** [?ids=1,2&shop=...&signature=...], properly signed under [hush]... *)
Definition joined : Js.object :=
  [(js "ids", Js.VStr (js "1,2"));
   (js "shop", Js.VStr (js "example.myshopify.com"));
   (js "signature",
    Js.VStr (js "7c637534817dfbd99a463bbd1300696e8f6f2aab167438e79357bd89bdea9533"))].

(** ... and [?ids=1&ids=2&shop=...&signature=...], the same but for the
    value of [ids], now an array. *)
Definition repeated : Js.object :=
  Js.set joined (js "ids") (Js.VArr [Js.VStr (js "1"); Js.VStr (js "2")]).

(** The signed query, with another shop. *)
Definition other_shop : Js.value := Js.VStr (js "other.myshopify.com").
Definition retargeted : Js.object := Js.set signed (js "shop") other_shop.

(** The host with both switches on. *)
Definition host1 : host :=
  Host (Some (js "hush")) (Some (js "true")) (Some (js "development"))
       (dirname host0) (path_join host0) (fs_access host0)
       (fs_readFile host0) (fs_readdir host0) (toLowerCase_unicode host0).

Definition austria_request : request :=
  Request (js "/proxy/sitemaps/austria") (Some (js "austria")) 0.

Definition sitemap : response :=
  Response 200 (Some (js "application/xml; charset=utf-8")) None
           (Some (js "<urlset/>")).

(** [GET /proxy/sitemaps/aus.xmltria], properly signed. *)
Definition inner_request : request :=
  Request (js "/proxy/sitemaps/aus.xmltria") (Some (js "aus.xmltria")) 0.

(** The signed query with its signature given twice, as
    [?signature=...&signature=...] arrives. *)
Definition doubled : Js.object :=
  Js.set signed (js "signature")
    (Js.VArr
       [Js.VStr (js "151c9e99bf578ec47aa8db85f09821a7f104fd403869a19397264d71132ab1a5");
        Js.VStr (js "151c9e99bf578ec47aa8db85f09821a7f104fd403869a19397264d71132ab1a5")]).

(** A path parameter with capitals, for which there is no file. *)
Definition germany_request : request :=
  Request (js "/proxy/sitemaps/Germany") (Some (js "Germany")) 0.

(** A path parameter that is nothing but the extension. *)
Definition extension_request : request :=
  Request (js "/proxy/sitemaps/.XML") (Some (js ".XML")) 0.

(** A host on which every file is there and none can be read. *)
Definition unreadable : host :=
  Host (Some (js "hush")) None None (js "/srv/app") (JsString.join (js "/"))
       (λ _, true) (λ _, None) (λ _, None) Str.lower_ascii.

(** [?shop=example.myshopify.comtimestamp=1700000000&path_prefix=...] under
    the signature of [signed]. *)
Definition swallowed : Js.object :=
  [(js "shop", Js.VStr (js "example.myshopify.comtimestamp=1700000000"));
   (js "signature",
    Js.VStr (js "151c9e99bf578ec47aa8db85f09821a7f104fd403869a19397264d71132ab1a5"));
   (js "path_prefix", Js.VStr (js "/apps/sitemaps"))].

(** [res.sendFile] over the files of [host0]. *)
Definition sendFile0 (path : jsstring) : sent :=
  match fs_readFile host0 path with
  | Some content => Sent (Some (js "application/xml")) content
  | None => SendError (Some 404)
  end.

Definition austria_xml_request : request :=
  Request (js "/proxy/sitemaps/austria.xml") (Some (js "austria.xml")) 0.

(** [?a[toString]=x&signature=abc], as the extended parser reads it. *)
Definition textless : Js.object :=
  [(js "a", Js.VObj [(js "toString", Js.VStr (js "x"))]);
   (js "signature", Js.VStr (js "abc"))].

End Examples.

(** * Properties *)

Import Examples.

(** The published test vectors: FIPS 180-4 for the hash, RFC 4231 (test
    cases 2 and 6, the latter with a key longer than a block) for the MAC. *)
Example sha256_empty :
  Sha256.sha256_hex (js "")
  = js "e3b0c44298fc1c149afbf4c8996fb92427ae41e4649b934ca495991b7852b855".
Proof. vm_compute. reflexivity. Qed.

Example sha256_abc :
  Sha256.sha256_hex (js "abc")
  = js "ba7816bf8f01cfea414140de5dae2223b00361a396177a9cb410ff61f20015ad".
Proof. vm_compute. reflexivity. Qed.

Example sha256_two_blocks :
  Sha256.sha256_hex
    (js "abcdbcdecdefdefgefghfghighijhijkijkljklmklmnlmnomnopnopq")
  = js "248d6a61d20638b8e5c026930c3e6039a33ce45964ff2167f6ecedd419db06c1".
Proof. vm_compute. reflexivity. Qed.

Example hmac_rfc4231_case2 :
  Sha256.hmac_sha256_hex (js "Jefe") (js "what do ya want for nothing?")
  = js "5bdcc146bf60754e6a042426089575c75a003f089d2739839dec58b964ec3843".
Proof. vm_compute. reflexivity. Qed.

Example hmac_rfc4231_case6 :
  Sha256.hex_regs
    (Sha256.hmac_regs (replicate 131 0xaa)
       (JsString.utf8
          (js "Test Using Larger Than Block-Size Key - Hash Key First")))
  = js "60e431591ee0b67f0d8a26aacbf5b77f8e0bc6213728c5140546040f0ee37f54".
Proof. vm_compute. reflexivity. Qed.

(** ** The order on strings *)

Section string_order.

Lemma ltb_lex x y : JsString.ltb x y = true ↔ lex_lt x y.
Proof.
  revert y. induction x as [|a x IH]; intros [|b y]; simpl.
  - split; [done | inversion 1].
  - split; [constructor | done].
  - split; [done | inversion 1].
  - destruct (N.ltb_spec a b) as [Hab|Hab].
    { split; [by constructor | done]. }
    destruct (N.ltb_spec b a) as [Hba|Hba].
    { split; [done |]. inversion 1; subst; lia. }
    assert (a = b) as -> by lia. rewrite IH.
    split; [by constructor |]. inversion 1; subst; [lia | done].
Qed.

Lemma ltb_irrefl x : JsString.ltb x x = false.
Proof. induction x as [|a x IH]; simpl; [done |]. by rewrite N.ltb_irrefl. Qed.

Lemma ltb_connex x y :
  JsString.ltb x y = false → JsString.ltb y x = false → x = y.
Proof.
  revert y. induction x as [|a x IH]; intros [|b y]; simpl; try done.
  destruct (N.ltb_spec a b), (N.ltb_spec b a); try done; try lia.
  intros. assert (a = b) as -> by lia. f_equal. by apply IH.
Qed.

Lemma ltb_asym x y : JsString.ltb x y = true → JsString.ltb y x = false.
Proof.
  revert y. induction x as [|a x IH]; intros [|b y]; simpl; try done.
  destruct (N.ltb_spec a b), (N.ltb_spec b a); try done; try lia.
  apply IH.
Qed.

Lemma ltb_trans x y z :
  JsString.ltb x y = true → JsString.ltb y z = true → JsString.ltb x z = true.
Proof.
  revert y z. induction x as [|a x IH]; intros [|b y] [|c z]; simpl; try done.
  destruct (N.ltb_spec a b), (N.ltb_spec b a), (N.ltb_spec b c),
    (N.ltb_spec c b), (N.ltb_spec a c), (N.ltb_spec c a);
    try done; try lia.
  apply IH.
Qed.

#[global] Instance le_total : Total JsString.le.
Proof.
  intros x y. unfold JsString.le.
  destruct (JsString.ltb y x) eqn:E; [right; by apply ltb_asym | by left].
Qed.

#[global] Instance le_antisym : AntiSymm (=) JsString.le.
Proof. intros x y Hxy Hyx. by apply ltb_connex. Qed.

#[global] Instance le_trans : Transitive JsString.le.
Proof.
  intros x y z Hxy Hyz. unfold JsString.le in *.
  destruct (JsString.ltb z x) eqn:E; [| done].
  destruct (JsString.ltb y z) eqn:E2.
  - by rewrite (ltb_trans _ _ _ E2 E) in Hxy.
  - assert (z = y) as -> by by apply ltb_connex. congruence.
Qed.

Lemma le_lex x y : JsString.le x y ↔ x = y ∨ lex_lt x y.
Proof.
  unfold JsString.le. split.
  - intros H. destruct (JsString.ltb x y) eqn:E.
    + right. by apply ltb_lex.
    + left. by apply ltb_connex.
  - intros [->|H]; [apply ltb_irrefl |]. apply ltb_asym. by apply ltb_lex.
Qed.

End string_order.

(** [sort()] returns the ascending arrangement of its argument, and there
    is only one: whatever algorithm the engine runs, the result is this. *)
Lemma sort_sorted names : Sorted JsString.le (Js.sort names).
Proof. apply (Sorted_merge_sort JsString.le). Qed.

Lemma sort_perm names : Js.sort names ≡ₚ names.
Proof. apply merge_sort_Permutation. Qed.

Lemma sort_unique names sorted :
  Sorted JsString.le sorted → sorted ≡ₚ names → Js.sort names = sorted.
Proof.
  intros Hs Hp. apply (Sorted_unique JsString.le).
  - apply sort_sorted.
  - done.
  - by rewrite sort_perm.
Qed.

(** The order is that of the code units: U+10000, a surrogate pair, sorts
    before U+FF5E, although its UTF-8 bytes come after. *)
Example sort_is_by_code_unit :
  Js.sort [[0xFF5E]; [0xD800; 0xDC00]] = [[0xD800; 0xDC00]; [0xFF5E]]
  ∧ JsString.utf8 [0xFF5E] = [0xEF; 0xBD; 0x9E]
  ∧ JsString.utf8 [0xD800; 0xDC00] = [0xF0; 0x90; 0x80; 0x80].
Proof. split_and!; vm_compute; reflexivity. Qed.

(** ** Objects *)

Section objects.
Implicit Types (o p q : Js.object) (k : jsstring) (v : Js.value).

Lemma eqb_eq (s1 s2 : jsstring) : JsString.eqb s1 s2 = true ↔ s1 = s2.
Proof. apply bool_decide_eq_true. Qed.

Lemma eqb_refl (s : jsstring) : JsString.eqb s s = true.
Proof. by apply eqb_eq. Qed.

Lemma eqb_neq (s1 s2 : jsstring) : JsString.eqb s1 s2 = false ↔ s1 ≠ s2.
Proof. apply bool_decide_eq_false. Qed.

Lemma get_None o k : Js.get o k = None ↔ k ∉ o.*1.
Proof.
  induction o as [|[k' v'] o IH]; simpl.
  - split; [intros _; apply not_elem_of_nil | done].
  - rewrite not_elem_of_cons. destruct (JsString.eqb k' k) eqn:E.
    + apply eqb_eq in E as ->. split; [done | intros [? _]; done].
    + apply eqb_neq in E. rewrite IH. intuition congruence.
Qed.

Lemma get_Some o k v : Js.wf o → Js.get o k = Some v ↔ (k, v) ∈ o.
Proof.
  unfold Js.wf. induction o as [|[k' v'] o IH]; simpl; intros Hwf.
  - split; [done | by intros ?%elem_of_nil].
  - apply NoDup_cons in Hwf as [Hk' Hwf]. rewrite elem_of_cons.
    destruct (JsString.eqb k' k) eqn:E.
    + apply eqb_eq in E as ->. split; [intros [= ->]; by left |].
      intros [[= ->]|Hin]; [done |]. destruct Hk'.
      apply list_elem_of_fmap. by exists (k, v).
    + apply eqb_neq in E. rewrite (IH Hwf).
      split; [by right | intros [[= -> ->]|Hin]; done].
Qed.

(** Two well-formed objects with the same properties read alike. *)
Lemma get_ext o p k :
  Js.wf o → Js.wf p → (∀ v, (k, v) ∈ o ↔ (k, v) ∈ p) →
  Js.get o k = Js.get p k.
Proof.
  intros Ho Hp Hiff. destruct (Js.get p k) as [v|] eqn:E.
  - apply get_Some; [done |]. apply Hiff. by apply get_Some.
  - apply get_None. apply get_None in E. intros Hin. destruct E.
    apply list_elem_of_fmap in Hin as [[k' v] [-> Hin]].
    apply list_elem_of_fmap. exists (k', v). split; [done |]. by apply Hiff.
Qed.

Lemma wf_perm o p : o ≡ₚ p → Js.wf o → Js.wf p.
Proof. unfold Js.wf. by intros ->. Qed.

Lemma get_perm o p k : Js.wf o → o ≡ₚ p → Js.get o k = Js.get p k.
Proof.
  intros Hwf Hp. apply get_ext; [done | by eapply wf_perm |].
  intros v. by rewrite Hp.
Qed.

Lemma own_entries_perm o : Js.own_entries o ≡ₚ o.
Proof.
  unfold Js.own_entries. rewrite merge_sort_Permutation.
  induction o as [|[k v] o IH]; [done |].
  unfold Js.indexed in *. rewrite filter_cons. simpl.
  destruct (Js.array_index k) as [n|] eqn:E; simpl.
  - by rewrite IH.
  - rewrite <-Permutation_middle. by rewrite IH.
Qed.

Lemma own_entries_wf o : Js.wf o → Js.wf (Js.own_entries o).
Proof. apply wf_perm. by rewrite own_entries_perm. Qed.

Lemma rest_perm q ex : Js.rest q ex ≡ₚ filter (λ kv, kv.1 ∉ ex) q.
Proof. unfold Js.rest. by rewrite own_entries_perm. Qed.

Lemma filter_wf (P : jsstring * Js.value → Prop) `{∀ x, Decision (P x)} o :
  Js.wf o → Js.wf (filter P o).
Proof.
  unfold Js.wf. induction o as [|[k v] o IH]; simpl; [done |].
  intros [Hk Hwf]%NoDup_cons. rewrite filter_cons.
  destruct (decide (P (k, v))); [| by apply IH].
  simpl. apply NoDup_cons. split; [| by apply IH].
  intros Hin. apply list_elem_of_fmap in Hin as ([k' v'] & Heq & Hin).
  apply list_elem_of_filter in Hin as [_ Hin].
  simpl in Heq. subst k'. destruct Hk. apply list_elem_of_fmap.
  by exists (k, v').
Qed.

Lemma rest_wf q ex : Js.wf q → Js.wf (Js.rest q ex).
Proof.
  intros Hwf. eapply wf_perm; [symmetry; apply rest_perm |].
  by apply filter_wf.
Qed.

Lemma elem_of_rest q ex k v : (k, v) ∈ Js.rest q ex ↔ (k ∉ ex) ∧ (k, v) ∈ q.
Proof. rewrite rest_perm. by rewrite list_elem_of_filter. Qed.

(** The copy made by the rest pattern reads as the original does, but
    for the names left out. *)
Lemma get_rest q ex k :
  Js.wf q → Js.get (Js.rest q ex) k = if decide (k ∈ ex) then None else Js.get q k.
Proof.
  intros Hwf. destruct (decide (k ∈ ex)) as [Hin|Hin].
  - apply get_None. intros Hk.
    apply list_elem_of_fmap in Hk as ([k' v] & -> & Hk).
    by apply elem_of_rest in Hk as [Hk _].
  - destruct (Js.get q k) as [v|] eqn:E.
    + apply get_Some; [by apply rest_wf |]. apply elem_of_rest.
      split; [done |]. by apply get_Some.
    + apply get_None. apply get_None in E. intros Hk.
      apply list_elem_of_fmap in Hk as ([k' v] & -> & Hk).
      apply elem_of_rest in Hk as [_ Hq].
      destruct E. apply list_elem_of_fmap. by exists (k', v).
Qed.

Lemma keys_perm o : Js.keys o ≡ₚ o.*1.
Proof. unfold Js.keys. by rewrite own_entries_perm. Qed.

Lemma filter_fst (P : jsstring → Prop) `{∀ x, Decision (P x)} o :
  (filter (λ kv, P kv.1) o).*1 = filter P o.*1.
Proof.
  induction o as [|[k v] o IH]; [done |].
  rewrite fmap_cons, !filter_cons. simpl.
  destruct (decide (P k)); simpl; by f_equal.
Qed.

Lemma keys_rest q ex : Js.keys (Js.rest q ex) ≡ₚ filter (λ k, k ∉ ex) q.*1.
Proof.
  rewrite keys_perm, rest_perm. by rewrite <-(filter_fst (λ k, k ∉ ex)).
Qed.

End objects.

(** ** The canonical message *)

Section canonical.
Implicit Types (o p q : Js.object) (k : jsstring) (v : Js.value).

Lemma join_empty (parts : list jsstring) : JsString.join [] parts = mjoin parts.
Proof.
  induction parts as [|x [|y parts] IH]; simpl in *.
  - done.
  - by rewrite app_nil_r.
  - by rewrite IH.
Qed.

Lemma canonical_message_eq p :
  canonical_message p = mjoin <$> mapM (name_value p) (Js.sort (Js.keys p)).
Proof.
  unfold canonical_message.
  destruct (mapM _ _); simpl; [| done]. by rewrite join_empty.
Qed.

Lemma sorted_le_lt (l : list jsstring) :
  NoDup l → Sorted JsString.le l → Sorted lex_lt l.
Proof.
  induction 2 as [|a l Hs IH Hhd]; [constructor |].
  apply NoDup_cons in H as [Ha Hl]. constructor; [by apply IH |].
  destruct Hhd as [|b l Hab]; constructor.
  apply le_lex in Hab as [->|Hlt]; [| done].
  destruct Ha. apply elem_of_cons. by left.
Qed.

Lemma sorted_lt_le (l : list jsstring) :
  Sorted lex_lt l → Sorted JsString.le l.
Proof.
  induction 1 as [|a l Hs IH Hhd]; constructor; [done |].
  destruct Hhd; constructor. apply le_lex. by right.
Qed.

Lemma rest_names q : Js.keys (Js.rest q [js "signature"]) ≡ₚ spec_names q.
Proof.
  rewrite keys_rest. unfold spec_names.
  erewrite list_filter_iff; [done |].
  intros k. rewrite list_elem_of_singleton. done.
Qed.

Lemma spec_names_wf q : Js.wf q → NoDup (spec_names q).
Proof. intros Hwf. by apply NoDup_filter. Qed.

Lemma name_value_rest q k :
  Js.wf q → k ∈ spec_names q →
  name_value (Js.rest q [js "signature"]) k
  = (λ value, k ++ js "=" ++ value) <$> Js.to_string_opt (Js.get q k).
Proof.
  intros Hwf [Hk _]%list_elem_of_filter. unfold name_value.
  rewrite get_rest by done. rewrite decide_False; [done |].
  by rewrite list_elem_of_singleton.
Qed.

Lemma mapM_ext_in {A B} (f g : A → option B) (l : list A) :
  (∀ x, x ∈ l → f x = g x) → mapM f l = mapM g l.
Proof.
  induction l as [|x l IH]; intros Hfg; [done |].
  simpl. rewrite (Hfg x) by apply elem_of_cons, or_introl, eq_refl.
  rewrite IH; [done |]. intros y Hy. apply Hfg. by apply elem_of_cons, or_intror.
Qed.

(** A list of pairs [name=value] is a list of names and a list of values,
    put together. *)
Lemma pairs_of_values (text_of : jsstring → option jsstring) names pairs :
  mapM (λ k, (λ value, k ++ js "=" ++ value) <$> text_of k) names = Some pairs
  ↔ ∃ values,
      Forall2 (λ k value, text_of k = Some value) names values
      ∧ pairs = zip_with (λ k value, k ++ js "=" ++ value) names values.
Proof.
  rewrite mapM_Some. split.
  - induction 1 as [|k pair names pairs Hk _ (values & Hv & ->)].
    + by exists [].
    + destruct (text_of k) as [value|] eqn:E; [| done].
      injection Hk as <-. exists (value :: values). split; [| done].
      by constructor.
  - intros (values & Hv & ->).
    induction Hv as [|k value names values Hk _ IH]; simpl; [constructor |].
    constructor; [| done]. by rewrite Hk.
Qed.

Lemma canonical_message_rest q :
  Js.wf q →
  canonical_message (Js.rest q [js "signature"])
  = mjoin <$> mapM (λ k, (λ value, k ++ js "=" ++ value)
                            <$> Js.to_string_opt (Js.get q k))
                   (Js.sort (Js.keys (Js.rest q [js "signature"]))).
Proof.
  intros Hwf. rewrite canonical_message_eq. f_equal.
  apply mapM_ext_in. intros k Hk. apply name_value_rest; [done |].
  by rewrite sort_perm, rest_names in Hk.
Qed.

(** The message the code builds is the message of the specification... *)
Lemma canonical_is_spec q m :
  Js.wf q → canonical_message (Js.rest q [js "signature"]) = Some m →
  spec_message q m.
Proof.
  intros Hwf. rewrite canonical_message_rest by done.
  destruct (mapM _ _) as [pairs|] eqn:E; [| done]. intros [= <-].
  apply pairs_of_values in E as (values & Hv & ->).
  exists (Js.sort (Js.keys (Js.rest q [js "signature"]))), values.
  assert (Js.sort (Js.keys (Js.rest q [js "signature"])) ≡ₚ spec_names q)
    as Hp by (by rewrite sort_perm, rest_names).
  split_and!; [done | | done | done].
  apply sorted_le_lt; [| apply sort_sorted].
  rewrite Hp. by apply spec_names_wf.
Qed.

(** ... and the specification determines it. *)
Lemma spec_message_unique q m :
  Js.wf q → spec_message q m →
  canonical_message (Js.rest q [js "signature"]) = Some m.
Proof.
  intros Hwf (names & values & Hp & Hs & Hv & ->).
  rewrite canonical_message_rest by done.
  rewrite (sort_unique _ names); [| by apply sorted_lt_le | by rewrite rest_names].
  assert (mapM (λ k, (λ value, k ++ js "=" ++ value)
                       <$> Js.to_string_opt (Js.get q k)) names
          = Some (zip_with (λ k value, k ++ js "=" ++ value) names values))
    as ->; [| done].
  apply pairs_of_values. by exists values.
Qed.

(** The message does not depend on the order in which the properties
    were created. *)
Lemma canonical_message_perm p q :
  Js.wf p → p ≡ₚ q → canonical_message p = canonical_message q.
Proof.
  intros Hwf Hp. rewrite !canonical_message_eq.
  assert (Js.sort (Js.keys p) = Js.sort (Js.keys q)) as ->.
  { apply sort_unique; [apply sort_sorted |].
    by rewrite sort_perm, !keys_perm, Hp. }
  f_equal. apply mapM_ext_in. intros k _. unfold name_value.
  by rewrite (get_perm p q).
Qed.

End canonical.

(** ** The digest *)

Section digest.

Lemma hex_regs_length s : length (Sha256.hex_regs s) = 64%nat.
Proof. by destruct s. Qed.

Lemma hmac_hex_length key msg :
  length (Sha256.hmac_sha256_hex key msg) = 64%nat.
Proof. apply hex_regs_length. Qed.

Lemma hmac_hex_nonempty key msg : Sha256.hmac_sha256_hex key msg ≠ [].
Proof.
  intros E. pose proof (hmac_hex_length key msg) as H.
  by rewrite E in H.
Qed.

Lemma hex_digit_lower x : lower_hex (Sha256.hex_digit (N.land x 0xF)).
Proof.
  assert (N.land x 0xF < 16) as Hlt.
  { change 0xF with (N.ones 4). rewrite N.land_ones. by apply N.mod_lt. }
  unfold Sha256.hex_digit, lower_hex.
  destruct (N.ltb_spec (N.land x 0xF) 10); lia.
Qed.

Lemma hex_word_lower w : Forall lower_hex (Sha256.hex_word w).
Proof.
  unfold Sha256.hex_word.
  repeat (apply List.Forall_cons; [apply hex_digit_lower |]).
  apply List.Forall_nil.
Qed.

Lemma hmac_hex_lower key msg :
  Forall lower_hex (Sha256.hmac_sha256_hex key msg).
Proof.
  unfold Sha256.hmac_sha256_hex, Sha256.hex_regs.
  repeat (apply Forall_app; split); apply hex_word_lower.
Qed.

End digest.

(** ** What the verifiers compute *)

Ltac run :=
  unfold mbind, M_bind, mret, M_ret, read_object, new_object, console_log,
    console_error, emit, createHmac_sha256_hex, to_primitive, throw; simpl.

Section verifier_runs.
Context (h : host) (r : nat) (q : Js.object) (w : world).
Hypothesis Hq : heap w !! r = Some q.

Lemma verifyProxySignature_run :
  ∃ objs logs,
    verifyProxySignature h r w
    = (verdict h q, World (heap w ++ objs) (trace w ++ logs) (res w))
    ∧ Forall is_console logs.
Proof.
  unfold verifyProxySignature, verdict. run. rewrite Hq.
  destruct (Js.truthy (Js.get q (js "signature"))) eqn:Hsig; simpl.
  2: { destruct (env_SHOPIFY_APP_SECRET h); eexists _, _; split; eauto;
       repeat constructor. }
  destruct (env_SHOPIFY_APP_SECRET h) as [secret|]; simpl.
  2: { eexists _, _; split; eauto; repeat constructor. }
  destruct (JsString.eqb secret []); simpl.
  { eexists _, _; split; eauto; repeat constructor. }
  rewrite list_lookup_middle by done.
  destruct (canonical_message _) as [message|]; simpl.
  2: { exists [Js.rest q [js "signature"]], []. by rewrite app_nil_r. }
  destruct (Js.strict_eq_str _ _); simpl; rewrite <-?app_assoc;
    eexists _, _; split; eauto; repeat constructor.
Qed.

Lemma verifyShopifySignature_run :
  ∃ objs logs,
    verifyShopifySignature h r w
    = (verdict h q, World (heap w ++ objs) (trace w ++ logs) (res w))
    ∧ Forall is_console logs.
Proof.
  unfold verifyShopifySignature, verdict. run.
  destruct (env_SHOPIFY_APP_SECRET h) as [secret|]; simpl.
  2: { exists [], [Console Error "SHOPIFY_APP_SECRET is not set!" []].
       rewrite app_nil_r. split; eauto; repeat constructor. }
  destruct (JsString.eqb secret []); simpl.
  { rewrite andb_false_r. exists [], [Console Error "SHOPIFY_APP_SECRET is not set!" []].
    rewrite app_nil_r. split; eauto; repeat constructor. }
  rewrite Hq. rewrite andb_true_r.
  destruct (Js.truthy (Js.get q (js "signature"))) eqn:Hsig; simpl.
  2: { eexists _, _; split; eauto; repeat constructor. }
  rewrite list_lookup_middle by done.
  destruct (canonical_message _) as [message|]; simpl.
  2: { exists [Js.rest q [js "signature"]], []. by rewrite app_nil_r. }
  destruct (Js.strict_eq_str _ _); simpl; rewrite <-?app_assoc.
  - exists [Js.rest q [js "signature"]], []. by rewrite app_nil_r.
  - eexists _, _; split; eauto; repeat constructor.
Qed.

End verifier_runs.

Lemma verifyProxySignature_returns h r q w :
  heap w !! r = Some q →
  (verifyProxySignature h r w).1 = verdict h q.
Proof.
  intros Hq. destruct (verifyProxySignature_run h r q w Hq) as (? & ? & -> & _).
  done.
Qed.

Lemma verifyShopifySignature_returns h r q w :
  heap w !! r = Some q →
  (verifyShopifySignature h r w).1 = verdict h q.
Proof.
  intros Hq. destruct (verifyShopifySignature_run h r q w Hq) as (? & ? & -> & _).
  done.
Qed.

(** ** Acceptance *)

Lemma strict_eq_str_true s v :
  Js.strict_eq_str s v = true ↔ v = Some (Js.VStr s).
Proof.
  destruct v as [[s'| |]|]; simpl; try (split; done).
  rewrite eqb_eq. split; [by intros -> | by intros [= ->]].
Qed.

Lemma verdict_true h q :
  Js.wf q → verdict h q = Returned true ↔ spec_accepts h q.
Proof.
  intros Hwf. unfold verdict, spec_accepts. split.
  - destruct (env_SHOPIFY_APP_SECRET h) as [secret|]; [| done].
    destruct (Js.truthy _ && _) eqn:Hboth; [| done].
    apply andb_prop in Hboth as [Hsig Hsecret%negb_true_iff%eqb_neq].
    destruct (canonical_message _) as [m|] eqn:Hm; [| done].
    intros [= Heq%strict_eq_str_true].
    exists secret, m. split_and!; try done.
    + destruct (decide (js "signature" ∈ q.*1)) as [|Hno]; [done |].
      apply get_None in Hno. by rewrite Hno in Heq.
    + by apply canonical_is_spec.
  - intros (secret & m & _ & -> & Hsecret & Hm & Hget).
    apply spec_message_unique in Hm as ->; [| done].
    rewrite Hget. unfold Js.truthy, Js.strict_eq_str. rewrite eqb_refl.
    assert (JsString.eqb (Sha256.hmac_sha256_hex secret m) [] = false) as ->
      by apply eqb_neq, hmac_hex_nonempty.
    apply eqb_neq in Hsecret. by rewrite Hsecret.
Qed.

Example signed_message :
  canonical_message (Js.rest signed [js "signature"])
  = Some (js "path_prefix=/apps/sitemapsshop=example.myshopify.comtimestamp=1700000000").
Proof. vm_compute. reflexivity. Qed.

Example signed_accepted :
  (verifyProxySignature host0 0 (world_of signed)).1 = Returned true
  ∧ (verifyShopifySignature host0 0 (world_of signed)).1 = Returned true.
Proof. split; vm_compute; reflexivity. Qed.

Ltac wf_by_computation :=
  unfold Js.wf; apply (bool_decide_unpack _); vm_compute; exact I.

(** C1. For every query object and secret, each verifier returns [true]
    exactly when the object has a [signature] property, the secret is not
    empty, and the signature is the lowercase hexadecimal HMAC-SHA-256,
    under the secret, of the names of the other parameters in ascending
    lexicographic order, each followed by [=] and its value, with no
    separator. *)
Theorem verifier_true_iff_spec h r q w :
  heap w !! r = Some q → Js.wf q →
  ((verifyProxySignature h r w).1 = Returned true ↔ spec_accepts h q)
  ∧ ((verifyShopifySignature h r w).1 = Returned true ↔ spec_accepts h q).
Proof.
  intros Hq Hwf.
  rewrite (verifyProxySignature_returns h r q w Hq).
  rewrite (verifyShopifySignature_returns h r q w Hq).
  by rewrite <-(verdict_true h q Hwf).
Qed.

Lemma verifier_true_iff_spec_witness :
  heap (Examples.world_of Examples.signed) !! 0%nat = Some Examples.signed
  ∧ Js.wf Examples.signed
  ∧ ((verifyProxySignature Examples.host0 0 (Examples.world_of Examples.signed)).1
       = Returned true ↔ spec_accepts Examples.host0 Examples.signed)
  ∧ ((verifyShopifySignature Examples.host0 0 (Examples.world_of Examples.signed)).1
       = Returned true ↔ spec_accepts Examples.host0 Examples.signed).
Proof.
  split; [reflexivity |]. split; [wf_by_computation |].
  apply (verifier_true_iff_spec Examples.host0 0 Examples.signed
           (Examples.world_of Examples.signed)); [reflexivity | wf_by_computation].
Defined.

(** ** Rejection *)

Lemma verdict_no_signature h q :
  js "signature" ∉ q.*1 → verdict h q = Returned false.
Proof.
  intros Hno%get_None. unfold verdict. rewrite Hno.
  by destruct (env_SHOPIFY_APP_SECRET h).
Qed.

Lemma verdict_no_secret h q :
  Js.truthy_str (env_SHOPIFY_APP_SECRET h) = false → verdict h q = Returned false.
Proof.
  unfold verdict. destruct (env_SHOPIFY_APP_SECRET h) as [secret|]; [| done].
  simpl. intros ->%negb_false_iff. by rewrite andb_false_r.
Qed.

Lemma verdict_mismatch h q secret message :
  env_SHOPIFY_APP_SECRET h = Some secret →
  canonical_message (Js.rest q [js "signature"]) = Some message →
  Js.get q (js "signature")
    ≠ Some (Js.VStr (Sha256.hmac_sha256_hex secret message)) →
  verdict h q = Returned false.
Proof.
  intros Hs Hm Hne. unfold verdict. rewrite Hs, Hm.
  destruct (Js.truthy _ && _); [| done].
  destruct (Js.strict_eq_str _ _) eqn:E; [| done].
  by apply strict_eq_str_true in E.
Qed.

(** The values of the parameters have a text exactly when the message
    can be built. *)
Lemma mapM_is_Some_in {A B} (f : A → option B) (l : list A) :
  (∀ x, x ∈ l → is_Some (f x)) → is_Some (mapM f l).
Proof.
  intros Hf. apply mapM_is_Some. by apply Forall_forall.
Qed.

Lemma get_elem_of (o : Js.object) k :
  k ∈ o.*1 → ∃ v, Js.get o k = Some v ∧ (k, v) ∈ o.
Proof.
  induction o as [|[k' v'] o IH]; [by intros ?%elem_of_nil |].
  rewrite fmap_cons. simpl. destruct (JsString.eqb k' k) eqn:E.
  - apply eqb_eq in E as ->. intros _. exists v'. split; [done |].
    apply elem_of_cons. by left.
  - apply eqb_neq in E. intros [?|Hin]%elem_of_cons; [done |].
    destruct (IH Hin) as (v & Hget & Hv). exists v. split; [done |].
    apply elem_of_cons. by right.
Qed.

Lemma has_texts_message q :
  has_texts q → is_Some (canonical_message (Js.rest q [js "signature"])).
Proof.
  intros Htexts. rewrite canonical_message_eq. apply fmap_is_Some.
  apply mapM_is_Some_in. intros k Hk.
  rewrite sort_perm, keys_perm in Hk.
  apply get_elem_of in Hk as (v & Hget & Hv).
  unfold name_value. rewrite Hget. apply fmap_is_Some. simpl.
  apply elem_of_rest in Hv as [Hk Hv].
  apply (Htexts k v Hv). by rewrite list_elem_of_singleton in Hk.
Qed.

Lemma verdict_total h q : has_texts q → ∃ b, verdict h q = Returned b.
Proof.
  intros [message Hm]%has_texts_message. unfold verdict. rewrite Hm.
  destruct (env_SHOPIFY_APP_SECRET h); [| by eexists].
  destruct (Js.truthy _ && _); by eexists.
Qed.

(** C2. On every query object whose parameters all have a text each
    verifier returns a boolean; and on every query object it returns
    [false] when the [signature] parameter is absent, when the secret is
    unset or empty, and when the signature differs from the digest the
    verifier computes. *)
Theorem verifier_total_and_rejects h r q w :
  heap w !! r = Some q →
  (has_texts q →
   (∃ b, (verifyProxySignature h r w).1 = Returned b)
   ∧ (∃ b, (verifyShopifySignature h r w).1 = Returned b))
  ∧ (must_reject h q →
     (verifyProxySignature h r w).1 = Returned false
     ∧ (verifyShopifySignature h r w).1 = Returned false).
Proof.
  intros Hq.
  rewrite (verifyProxySignature_returns h r q w Hq).
  rewrite (verifyShopifySignature_returns h r q w Hq).
  split; [intros Htexts; split; by apply verdict_total |].
  intros Hrej. assert (verdict h q = Returned false) as ->; [| done].
  destruct Hrej as [Hno | [Hs | [Hs | (secret & message & Hs & Hm & Hne)]]].
  - by apply verdict_no_signature.
  - apply verdict_no_secret. by rewrite Hs.
  - apply verdict_no_secret. by rewrite Hs.
  - by eapply verdict_mismatch.
Qed.

(** The claim as first worded, for every query object, fails where a
    value has no text: [?a[toString]=x&signature=abc] makes both verifiers
    throw. *)
Lemma verifier_throws_without_text :
  heap (Examples.world_of Examples.textless) !! 0%nat = Some Examples.textless
  ∧ (verifyProxySignature Examples.host0 0
       (Examples.world_of Examples.textless)).1
    = Thrown (TypeError "Cannot convert object to primitive value")
  ∧ (verifyShopifySignature Examples.host0 0
       (Examples.world_of Examples.textless)).1
    = Thrown (TypeError "Cannot convert object to primitive value")
  ∧ ¬ (∃ b, (verifyProxySignature Examples.host0 0
               (Examples.world_of Examples.textless)).1 = Returned b)
  ∧ ¬ (∃ b, (verifyShopifySignature Examples.host0 0
               (Examples.world_of Examples.textless)).1 = Returned b).
Proof.
  split_and!; [reflexivity | vm_compute; reflexivity | vm_compute; reflexivity
              | vm_compute; by intros [b ?] | vm_compute; by intros [b ?]].
Qed.

Example unsigned_rejected :
  (verifyProxySignature host0 0 (world_of unsigned)).1 = Returned false
  ∧ (verifyShopifySignature host0 0 (world_of unsigned)).1 = Returned false.
Proof. split; vm_compute; reflexivity. Qed.

Example no_secret_rejected :
  (verifyProxySignature no_secret 0 (world_of signed)).1 = Returned false
  ∧ (verifyShopifySignature no_secret 0 (world_of signed)).1 = Returned false
  ∧ (verifyProxySignature empty_secret 0 (world_of signed)).1 = Returned false
  ∧ (verifyShopifySignature empty_secret 0 (world_of signed)).1 = Returned false.
Proof. split_and!; vm_compute; reflexivity. Qed.

Lemma verifier_total_and_rejects_witness :
  heap (Examples.world_of Examples.tampered) !! 0%nat = Some Examples.tampered
  ∧ must_reject Examples.host0 Examples.tampered
  ∧ (verifyProxySignature Examples.host0 0
       (Examples.world_of Examples.tampered)).1 = Returned false
  ∧ (verifyShopifySignature Examples.host0 0
       (Examples.world_of Examples.tampered)).1 = Returned false.
Proof.
  assert (must_reject Examples.host0 Examples.tampered) as Hrej.
  { right; right; right.
    exists (js "hush"),
      (js "path_prefix=/apps/sitemapsshop=example.myshopify.comtimestamp=1700000000").
    split; [reflexivity |]. split; [vm_compute; reflexivity |].
    vm_compute. discriminate. }
  split; [reflexivity |]. split; [exact Hrej |].
  apply (verifier_total_and_rejects Examples.host0 0 Examples.tampered
           (Examples.world_of Examples.tampered)); [reflexivity | exact Hrej].
Defined.

(** ** Case *)

(** C8. The comparison is case-sensitive: when the supplied signature
    differs from the computed lowercase digest only in the case of some
    hexadecimal digits, each verifier returns [false]. *)
Theorem comparison_is_case_sensitive h r q w secret message supplied :
  heap w !! r = Some q →
  env_SHOPIFY_APP_SECRET h = Some secret →
  canonical_message (Js.rest q [js "signature"]) = Some message →
  Js.get q (js "signature") = Some (Js.VStr supplied) →
  differs_only_in_case supplied (Sha256.hmac_sha256_hex secret message) →
  (verifyProxySignature h r w).1 = Returned false
  ∧ (verifyShopifySignature h r w).1 = Returned false.
Proof.
  intros Hq Hs Hm Hget [Hne _].
  rewrite (verifyProxySignature_returns h r q w Hq).
  rewrite (verifyShopifySignature_returns h r q w Hq).
  assert (verdict h q = Returned false) as ->; [| done].
  apply (verdict_mismatch h q secret message Hs Hm). rewrite Hget.
  by intros [= ?].
Qed.

Lemma comparison_is_case_sensitive_witness :
  heap (Examples.world_of Examples.shouted_query) !! 0%nat = Some Examples.shouted_query
  ∧ env_SHOPIFY_APP_SECRET Examples.host0 = Some (js "hush")
  ∧ canonical_message (Js.rest Examples.shouted_query [js "signature"])
    = Some (js "path_prefix=/apps/sitemapsshop=example.myshopify.comtimestamp=1700000000")
  ∧ Js.get Examples.shouted_query (js "signature") = Some (Js.VStr Examples.shouted)
  ∧ differs_only_in_case Examples.shouted
      (Sha256.hmac_sha256_hex (js "hush")
         (js "path_prefix=/apps/sitemapsshop=example.myshopify.comtimestamp=1700000000"))
  ∧ (verifyProxySignature Examples.host0 0
       (Examples.world_of Examples.shouted_query)).1 = Returned false
  ∧ (verifyShopifySignature Examples.host0 0
       (Examples.world_of Examples.shouted_query)).1 = Returned false.
Proof.
  assert (differs_only_in_case Examples.shouted
            (Sha256.hmac_sha256_hex (js "hush")
               (js "path_prefix=/apps/sitemapsshop=example.myshopify.comtimestamp=1700000000")))
    as Hcase.
  { split; [vm_compute; discriminate | vm_compute; reflexivity]. }
  split; [reflexivity |]. split; [reflexivity |].
  split; [vm_compute; reflexivity |]. split; [reflexivity |].
  split; [exact Hcase |].
  apply (comparison_is_case_sensitive Examples.host0 0 Examples.shouted_query
           (Examples.world_of Examples.shouted_query) (js "hush")
           (js "path_prefix=/apps/sitemapsshop=example.myshopify.comtimestamp=1700000000")
           Examples.shouted);
    [reflexivity | reflexivity | vm_compute; reflexivity | reflexivity
    | exact Hcase].
Defined.

(** ** A query that carries nothing but its signature *)

Lemma rest_signature_only s :
  Js.rest [(js "signature", s)] [js "signature"] = [].
Proof. vm_compute. reflexivity. Qed.

(** C9. When [signature] is the only key, the canonical message is the
    empty string, and each verifier returns [true] exactly when the
    signature is the lowercase hexadecimal HMAC-SHA-256 of the empty string
    under the configured secret. *)
Theorem signature_only_query h r s w secret :
  heap w !! r = Some [(js "signature", s)] →
  env_SHOPIFY_APP_SECRET h = Some secret → secret ≠ [] →
  canonical_message (Js.rest [(js "signature", s)] [js "signature"]) = Some []
  ∧ ((verifyProxySignature h r w).1 = Returned true
     ↔ s = Js.VStr (Sha256.hmac_sha256_hex secret []))
  ∧ ((verifyShopifySignature h r w).1 = Returned true
     ↔ s = Js.VStr (Sha256.hmac_sha256_hex secret [])).
Proof.
  intros Hq Hs Hsecret.
  rewrite (verifyProxySignature_returns h r _ w Hq).
  rewrite (verifyShopifySignature_returns h r _ w Hq).
  rewrite rest_signature_only. split; [reflexivity |].
  assert (verdict h [(js "signature", s)] = Returned true
          ↔ s = Js.VStr (Sha256.hmac_sha256_hex secret [])) as Hv.
  { unfold verdict. rewrite Hs, rest_signature_only.
    change (canonical_message []) with (Some (@nil N)).
    change (Js.get [(js "signature", s)] (js "signature")) with (Some s).
    apply eqb_neq in Hsecret. rewrite Hsecret, andb_true_r. split.
    - destruct (Js.truthy (Some s)); [| done].
      intros Heq.
      assert (Js.strict_eq_str (Sha256.hmac_sha256_hex secret []) (Some s) = true)
        as [= ->]%strict_eq_str_true by congruence.
      done.
    - intros ->. unfold Js.truthy, Js.strict_eq_str. rewrite eqb_refl.
      assert (JsString.eqb (Sha256.hmac_sha256_hex secret []) [] = false) as ->
        by apply eqb_neq, hmac_hex_nonempty.
      done. }
  by rewrite <-Hv.
Qed.

Example bare_accepted :
  (verifyProxySignature host0 0 (world_of bare)).1 = Returned true
  ∧ (verifyShopifySignature host0 0 (world_of bare)).1 = Returned true.
Proof. split; vm_compute; reflexivity. Qed.

Lemma signature_only_query_witness :
  heap (Examples.world_of Examples.bare) !! 0%nat = Some Examples.bare
  ∧ env_SHOPIFY_APP_SECRET Examples.host0 = Some (js "hush")
  ∧ js "hush" ≠ []
  ∧ canonical_message (Js.rest Examples.bare [js "signature"]) = Some []
  ∧ (verifyProxySignature Examples.host0 0 (Examples.world_of Examples.bare)).1
    = Returned true.
Proof.
  split; [reflexivity |]. split; [reflexivity |].
  split; [vm_compute; discriminate |].
  destruct (signature_only_query Examples.host0 0
              (Js.VStr (js "2a79bcad68de497348b761f400e313ec343cfd84b2f2c422fe91236ee52618cb"))
              (Examples.world_of Examples.bare) (js "hush"))
    as (Hm & Hp & _); [reflexivity | reflexivity | vm_compute; discriminate |].
  split; [exact Hm |]. apply Hp. vm_compute. reflexivity.
Defined.

(** ** Insertion order *)

Lemma rest_proper q1 q2 ex : q1 ≡ₚ q2 → Js.rest q1 ex ≡ₚ Js.rest q2 ex.
Proof. intros Hp. by rewrite !rest_perm, Hp. Qed.

Lemma verdict_perm h q1 q2 :
  Js.wf q1 → q1 ≡ₚ q2 → verdict h q1 = verdict h q2.
Proof.
  intros Hwf Hp. unfold verdict.
  rewrite (get_perm q1 q2 _ Hwf Hp).
  rewrite (canonical_message_perm (Js.rest q1 [js "signature"])
             (Js.rest q2 [js "signature"]));
    [done | by apply rest_wf | by apply rest_proper].
Qed.

(** C4. Two query objects holding the same name-value pairs, created in
    different orders, yield the same canonical message, and therefore the
    same verdict under the same secret. *)
Theorem insertion_order_is_irrelevant h r1 r2 q1 q2 w1 w2 :
  heap w1 !! r1 = Some q1 → heap w2 !! r2 = Some q2 →
  Js.wf q1 → q1 ≡ₚ q2 →
  canonical_message (Js.rest q1 [js "signature"])
  = canonical_message (Js.rest q2 [js "signature"])
  ∧ (verifyProxySignature h r1 w1).1 = (verifyProxySignature h r2 w2).1
  ∧ (verifyShopifySignature h r1 w1).1 = (verifyShopifySignature h r2 w2).1.
Proof.
  intros Hq1 Hq2 Hwf Hp.
  rewrite (verifyProxySignature_returns h r1 q1 w1 Hq1).
  rewrite (verifyProxySignature_returns h r2 q2 w2 Hq2).
  rewrite (verifyShopifySignature_returns h r1 q1 w1 Hq1).
  rewrite (verifyShopifySignature_returns h r2 q2 w2 Hq2).
  rewrite (verdict_perm h q1 q2 Hwf Hp). split_and!; try done.
  apply canonical_message_perm; [by apply rest_wf | by apply rest_proper].
Qed.

Lemma reordered_same_pairs : signed ≡ₚ reordered.
Proof. symmetry. apply (reverse_Permutation signed). Qed.

Example reordered_message :
  canonical_message (Js.rest reordered [js "signature"])
  = Some (js "path_prefix=/apps/sitemapsshop=example.myshopify.comtimestamp=1700000000").
Proof. vm_compute. reflexivity. Qed.

Lemma insertion_order_is_irrelevant_witness :
  heap (Examples.world_of Examples.signed) !! 0%nat = Some Examples.signed
  ∧ heap (Examples.world_of Examples.reordered) !! 0%nat = Some Examples.reordered
  ∧ Js.wf Examples.signed
  ∧ Examples.signed ≡ₚ Examples.reordered
  ∧ canonical_message (Js.rest Examples.signed [js "signature"])
    = canonical_message (Js.rest Examples.reordered [js "signature"])
  ∧ (verifyProxySignature Examples.host0 0 (Examples.world_of Examples.signed)).1
    = (verifyProxySignature Examples.host0 0 (Examples.world_of Examples.reordered)).1
  ∧ (verifyShopifySignature Examples.host0 0 (Examples.world_of Examples.signed)).1
    = (verifyShopifySignature Examples.host0 0 (Examples.world_of Examples.reordered)).1.
Proof.
  split; [reflexivity |]. split; [reflexivity |].
  split; [wf_by_computation |]. split; [exact reordered_same_pairs |].
  apply (insertion_order_is_irrelevant Examples.host0 0 0 Examples.signed
           Examples.reordered (Examples.world_of Examples.signed)
           (Examples.world_of Examples.reordered));
    [reflexivity | reflexivity | wf_by_computation | exact reordered_same_pairs].
Defined.

(** ** The query object is left as it was *)

(** C10. The verifiers do not mutate their input: every object of the heap,
    the query object among them, is after the call what it was before; the
    parameters without [signature] go into a new object. *)
Theorem verifier_leaves_query_untouched h r q w :
  heap w !! r = Some q →
  (∀ r' o, heap w !! r' = Some o →
           heap (verifyProxySignature h r w).2 !! r' = Some o)
  ∧ (∀ r' o, heap w !! r' = Some o →
             heap (verifyShopifySignature h r w).2 !! r' = Some o).
Proof.
  intros Hq.
  destruct (verifyProxySignature_run h r q w Hq) as (objs1 & logs1 & -> & _).
  destruct (verifyShopifySignature_run h r q w Hq) as (objs2 & logs2 & -> & _).
  simpl. split; intros r' o Ho; by apply lookup_app_l_Some.
Qed.

Lemma verifier_leaves_query_untouched_witness :
  heap (Examples.world_of Examples.signed) !! 0%nat = Some Examples.signed
  ∧ heap (verifyProxySignature Examples.host0 0
            (Examples.world_of Examples.signed)).2 !! 0%nat
    = Some Examples.signed
  ∧ heap (verifyShopifySignature Examples.host0 0
            (Examples.world_of Examples.signed)).2 !! 0%nat
    = Some Examples.signed.
Proof.
  split; [reflexivity |].
  destruct (verifier_leaves_query_untouched Examples.host0 0 Examples.signed
              (Examples.world_of Examples.signed)) as [Hp Hs]; [reflexivity |].
  split; [apply Hp | apply Hs]; reflexivity.
Defined.

(** Deleting the property from the query object would have shown in the
    heap. *)
Example delete_changes_the_query :
  heap (delete_property 0 (js "signature") (world_of signed)).2 !! 0%nat
  = Some [(js "shop", Js.VStr (js "example.myshopify.com"));
          (js "path_prefix", Js.VStr (js "/apps/sitemaps"));
          (js "timestamp", Js.VStr (js "1700000000"))].
Proof. vm_compute. reflexivity. Qed.

(** The copy is where the parameters without [signature] go. *)
Example verifier_allocates_the_copy :
  heap (verifyProxySignature Examples.host0 0
          (Examples.world_of Examples.signed)).2
  = [Examples.signed;
     [(js "shop", Js.VStr (js "example.myshopify.com"));
      (js "path_prefix", Js.VStr (js "/apps/sitemaps"));
      (js "timestamp", Js.VStr (js "1700000000"))]].
Proof. vm_compute. reflexivity. Qed.

(** ** Changing a value *)

Section change.
Implicit Types (o p q : Js.object) (k : jsstring) (v : Js.value).

Lemma set_names q k v : k ∈ q.*1 → (Js.set q k v).*1 = q.*1.
Proof.
  induction q as [|[k' v'] q IH]; [by intros ?%elem_of_nil |].
  rewrite fmap_cons. intros Hin. simpl.
  destruct (JsString.eqb k' k) eqn:E; [done |].
  rewrite !fmap_cons. f_equal. apply IH.
  apply elem_of_cons in Hin as [->|Hin]; [| done].
  apply eqb_neq in E. done.
Qed.

Lemma get_set q k v k' :
  Js.get (Js.set q k v) k' = if decide (k' = k) then Some v else Js.get q k'.
Proof.
  induction q as [|[k0 v0] q IH]; simpl.
  - destruct (decide (k' = k)) as [->|Hne]; [by rewrite eqb_refl |].
    destruct (JsString.eqb k k') eqn:E; [| done].
    apply eqb_eq in E. congruence.
  - destruct (JsString.eqb k0 k) eqn:E; simpl.
    + apply eqb_eq in E as ->.
      destruct (decide (k' = k)) as [->|Hne]; [by rewrite eqb_refl |].
      destruct (JsString.eqb k k') eqn:E; [| done].
      apply eqb_eq in E. congruence.
    + rewrite IH. destruct (JsString.eqb k0 k') eqn:E'; [| done].
      apply eqb_eq in E' as ->. apply eqb_neq in E.
      by rewrite decide_False.
Qed.

Lemma in_names q k v : Js.get q k = Some v → k ∈ q.*1.
Proof.
  intros Hget. destruct (decide (k ∈ q.*1)) as [|Hno]; [done |].
  apply get_None in Hno. congruence.
Qed.

(** The canonical message, laid out around one of its names. *)
Lemma message_around q k :
  Js.wf q → k ∈ spec_names q →
  ∃ before after,
    Js.sort (Js.keys (Js.rest q [js "signature"])) = before ++ k :: after
    ∧ (k ∉ before) ∧ (k ∉ after).
Proof.
  intros Hwf Hk.
  assert (Js.sort (Js.keys (Js.rest q [js "signature"])) ≡ₚ spec_names q)
    as Hp by (by rewrite sort_perm, rest_names).
  assert (NoDup (Js.sort (Js.keys (Js.rest q [js "signature"])))) as Hnd.
  { rewrite Hp. by apply spec_names_wf. }
  rewrite <-Hp in Hk. apply list_elem_of_split in Hk as (before & after & E).
  exists before, after. split; [done |]. rewrite E in Hnd.
  apply NoDup_app in Hnd as (_ & Hb & Ha%NoDup_cons). split.
  - intros Hin. apply (Hb _ Hin). by left.
  - by destruct Ha.
Qed.

Lemma mjoin_around (f g : jsstring → jsstring) before k after :
  (∀ n, n ≠ k → f n = g n) → k ∉ before → k ∉ after →
  mjoin (f <$> before ++ k :: after) = mjoin (g <$> before ++ k :: after) →
  f k = g k.
Proof.
  intros Hfg Hb Ha. rewrite !fmap_app, !fmap_cons, !join_app. simpl.
  assert (∀ l : list jsstring, k ∉ l → f <$> l = g <$> l) as Hext.
  { intros l Hl. apply list_fmap_ext. intros i n Hn. apply Hfg.
    intros ->. apply Hl. by eapply list_elem_of_lookup_2. }
  rewrite (Hext before Hb), (Hext after Ha).
  intros E%app_inv_head%app_inv_tail. done.
Qed.

Lemma mapM_Some_default {A B} (d : B) (f : A → option B) l pairs :
  mapM f l = Some pairs →
  pairs = (λ x, default d (f x)) <$> l ∧ ∀ x, x ∈ l → is_Some (f x).
Proof.
  rewrite mapM_Some.
  induction 1 as [|x y l pairs Hx _ [-> IH]]; simpl.
  - split; [done |]. by intros x ?%elem_of_nil.
  - split; [by rewrite Hx |].
    intros x' [->|Hin]%elem_of_cons; [by rewrite Hx | by apply IH].
Qed.

(** Changing the text of one value changes the message. *)
Lemma changed_value_changes_message q k v v' original :
  Js.wf q → k ≠ js "signature" → Js.get q k = Some v →
  Js.to_string v' ≠ Js.to_string v →
  canonical_message (Js.rest q [js "signature"]) = Some original →
  canonical_message (Js.rest (Js.set q k v') [js "signature"]) ≠ Some original.
Proof.
  intros Hwf Hk Hget Hne Horig Heq.
  pose proof (in_names q k v Hget) as Hin.
  assert (Js.wf (Js.set q k v')) as Hwf'.
  { unfold Js.wf. by rewrite set_names. }
  assert (k ∈ spec_names q) as Hspec by (by apply list_elem_of_filter).
  assert (spec_names (Js.set q k v') = spec_names q) as Hnames.
  { unfold spec_names. by rewrite set_names. }
  destruct (message_around q k Hwf Hspec) as (before & after & E & Hb & Ha).
  assert (Js.sort (Js.keys (Js.rest (Js.set q k v') [js "signature"]))
          = before ++ k :: after) as E'.
  { rewrite <-E. apply sort_unique; [apply sort_sorted |].
    by rewrite sort_perm, !rest_names, Hnames. }
  rewrite canonical_message_rest, E in Horig by done.
  rewrite canonical_message_rest, E' in Heq by done.
  apply fmap_Some in Horig as (pairs & Hpairs & ->).
  apply fmap_Some in Heq as (pairs' & Hpairs' & Heq).
  apply (mapM_Some_default []) in Hpairs as [-> Hall].
  apply (mapM_Some_default []) in Hpairs' as [-> Hall'].
  assert (k ∈ before ++ k :: after) as Hmid.
  { apply elem_of_app. right. by left. }
  specialize (Hall k Hmid). specialize (Hall' k Hmid).
  symmetry in Heq. apply mjoin_around in Heq; [| | done | done].
  - cbv beta in *.
    rewrite get_set, decide_True in Heq, Hall' by done.
    rewrite Hget in Heq, Hall. cbn [Js.to_string_opt] in *.
    apply fmap_is_Some in Hall as [text Htext].
    apply fmap_is_Some in Hall' as [text' Htext'].
    rewrite Htext, Htext' in Heq. cbn [default fmap option_fmap option_map] in Heq.
    apply app_inv_head, app_inv_head in Heq. congruence.
  - intros n Hn. cbv beta. by rewrite get_set, decide_False.
Qed.

End change.

Lemma some_vstr_inj (a b : jsstring) :
  Some (Js.VStr a) = Some (Js.VStr b) → a = b.
Proof. by intros [= ->]. Qed.

Example repeated_is :
  repeated
  = [(js "ids", Js.VArr [Js.VStr (js "1"); Js.VStr (js "2")]);
     (js "shop", Js.VStr (js "example.myshopify.com"));
     (js "signature",
      Js.VStr (js "7c637534817dfbd99a463bbd1300696e8f6f2aab167438e79357bd89bdea9533"))].
Proof. reflexivity. Qed.

Example repeated_message :
  canonical_message (Js.rest joined [js "signature"])
  = Some (js "ids=1,2shop=example.myshopify.com")
  ∧ canonical_message (Js.rest repeated [js "signature"])
    = Some (js "ids=1,2shop=example.myshopify.com").
Proof. split; vm_compute; reflexivity. Qed.

Example joined_and_repeated_accepted :
  (verifyProxySignature host0 0 (world_of joined)).1 = Returned true
  ∧ (verifyProxySignature host0 0 (world_of repeated)).1 = Returned true
  ∧ (verifyShopifySignature host0 0 (world_of joined)).1 = Returned true
  ∧ (verifyShopifySignature host0 0 (world_of repeated)).1 = Returned true.
Proof. split_and!; vm_compute; reflexivity. Qed.

(** C3, as worded, fails: an array in place of the text of its elements
    joined by commas is another value with the same signature. *)
Lemma changed_value_still_verifies :
  ¬ every_change_invalidates verifyProxySignature
  ∧ ¬ every_change_invalidates verifyShopifySignature.
Proof.
  split; intros Hclaim;
    specialize (Hclaim Examples.host0 0%nat 0%nat Examples.joined
                  (Examples.world_of Examples.joined)
                  (Examples.world_of Examples.repeated)
                  (js "ids") (Js.VStr (js "1,2"))
                  (Js.VArr [Js.VStr (js "1"); Js.VStr (js "2")]));
    assert (Js.wf Examples.joined) as Hwf by wf_by_computation;
    specialize (Hclaim eq_refl Hwf);
    vm_compute in Hclaim;
    by specialize (Hclaim eq_refl ltac:(discriminate) eq_refl
                     ltac:(discriminate) eq_refl).
Qed.

(** C3, amended. A query whose signature is the digest of its canonical
    message verifies.  Changing the value of one parameter other than
    [signature] to a value with another text changes the canonical message,
    and the changed query verifies against the original signature only if
    HMAC-SHA-256 gives the two messages the same digest. *)
Theorem correct_digest_verifies_and_covers_values
    h r r' q w w' secret original k v v' :
  heap w !! r = Some q → Js.wf q →
  env_SHOPIFY_APP_SECRET h = Some secret → secret ≠ [] →
  canonical_message (Js.rest q [js "signature"]) = Some original →
  Js.get q (js "signature")
  = Some (Js.VStr (Sha256.hmac_sha256_hex secret original)) →
  k ≠ js "signature" → Js.get q k = Some v →
  Js.to_string v' ≠ Js.to_string v →
  heap w' !! r' = Some (Js.set q k v') →
  let changed := canonical_message (Js.rest (Js.set q k v') [js "signature"]) in
  (verifyProxySignature h r w).1 = Returned true
  ∧ (verifyShopifySignature h r w).1 = Returned true
  ∧ changed ≠ Some original
  ∧ ((verifyProxySignature h r' w').1 = Returned true
     ↔ ∃ message,
         changed = Some message
         ∧ Sha256.hmac_sha256_hex secret message
           = Sha256.hmac_sha256_hex secret original)
  ∧ ((verifyShopifySignature h r' w').1 = Returned true
     ↔ ∃ message,
         changed = Some message
         ∧ Sha256.hmac_sha256_hex secret message
           = Sha256.hmac_sha256_hex secret original).
Proof.
  intros Hq Hwf Hs Hsecret Horig Hsig Hk Hget Hne Hq' changed.
  rewrite (verifyProxySignature_returns h r q w Hq).
  rewrite (verifyShopifySignature_returns h r q w Hq).
  rewrite (verifyProxySignature_returns h r' _ w' Hq').
  rewrite (verifyShopifySignature_returns h r' _ w' Hq').
  assert (∀ q0 : Js.object,
            Js.get q0 (js "signature")
            = Some (Js.VStr (Sha256.hmac_sha256_hex secret original)) →
            verdict h q0 = Returned true
            ↔ ∃ message,
                canonical_message (Js.rest q0 [js "signature"]) = Some message
                ∧ Sha256.hmac_sha256_hex secret message
                  = Sha256.hmac_sha256_hex secret original) as Hverdict.
  { intros q0 Hget0. unfold verdict. rewrite Hs, Hget0.
    apply eqb_neq in Hsecret. rewrite Hsecret. unfold Js.truthy.
    assert (JsString.eqb (Sha256.hmac_sha256_hex secret original) [] = false)
      as -> by apply eqb_neq, hmac_hex_nonempty.
    simpl. destruct (canonical_message (Js.rest q0 _)) as [message|]; split.
    - intros [= Hb]. exists message. split; [done |]. by apply eqb_eq in Hb.
    - intros (? & [= <-] & ->). by rewrite eqb_refl.
    - done.
    - by intros (? & ? & _). }
  assert (verdict h q = Returned true) as ->.
  { apply Hverdict; [done |]. by exists original. }
  assert (Js.get (Js.set q k v') (js "signature")
          = Some (Js.VStr (Sha256.hmac_sha256_hex secret original))) as Hsig'.
  { rewrite get_set. by rewrite decide_False. }
  split_and!; try done.
  - by eapply changed_value_changes_message.
  - by apply Hverdict.
  - by apply Hverdict.
Qed.

Example retargeted_rejected :
  (verifyProxySignature host0 0 (world_of retargeted)).1 = Returned false
  ∧ (verifyShopifySignature host0 0 (world_of retargeted)).1 = Returned false.
Proof. split; vm_compute; reflexivity. Qed.

Lemma correct_digest_verifies_and_covers_values_witness :
  (verifyProxySignature Examples.host0 0 (Examples.world_of Examples.signed)).1
  = Returned true
  ∧ canonical_message (Js.rest Examples.retargeted [js "signature"])
    ≠ canonical_message (Js.rest Examples.signed [js "signature"]).
Proof.
  destruct (correct_digest_verifies_and_covers_values Examples.host0 0 0
              Examples.signed (Examples.world_of Examples.signed)
              (Examples.world_of Examples.retargeted) (js "hush")
              (js "path_prefix=/apps/sitemapsshop=example.myshopify.comtimestamp=1700000000")
              (js "shop")
              (Js.VStr (js "example.myshopify.com")) Examples.other_shop)
    as (Hp & _ & Hm & _).
  - reflexivity.
  - wf_by_computation.
  - reflexivity.
  - vm_compute; discriminate.
  - vm_compute; reflexivity.
  - vm_compute; reflexivity.
  - vm_compute; discriminate.
  - reflexivity.
  - vm_compute; discriminate.
  - reflexivity.
  - split; [exact Hp | exact Hm].
Defined.

#[global] Arguments JsString.js : simpl never.

#[global] Arguments Express.content_type : simpl never.
#[global] Arguments Express.setCharset : simpl never.

(** ** The route: what a handler's run comes to *)

Section content_types.

Lemma content_type_plain : Express.content_type (js "text/plain") = plain_type.
Proof. vm_compute. reflexivity. Qed.

Lemma content_type_xml :
  Express.content_type (js "application/xml; charset=utf-8") = xml_type.
Proof. vm_compute. reflexivity. Qed.

Lemma content_type_bare_xml :
  Express.content_type (js "application/xml") = js "application/xml".
Proof. vm_compute. reflexivity. Qed.

Lemma content_type_html : Express.content_type (js "text/html") = html_type.
Proof. vm_compute. reflexivity. Qed.

Lemma setCharset_plain : Express.setCharset plain_type = plain_type.
Proof. vm_compute. reflexivity. Qed.

Lemma setCharset_xml : Express.setCharset xml_type = xml_type.
Proof. vm_compute. reflexivity. Qed.

Lemma setCharset_bare_xml : Express.setCharset (js "application/xml") = xml_type.
Proof. vm_compute. reflexivity. Qed.

Lemma setCharset_html : Express.setCharset html_type = html_type.
Proof. vm_compute. reflexivity. Qed.

Lemma default_type_fresh before :
  contentType before = None → default_type before = html_type.
Proof. unfold default_type. intros ->. apply setCharset_html. Qed.

End content_types.

Ltac express :=
  rewrite ?content_type_plain, ?content_type_xml, ?content_type_bare_xml,
    ?content_type_html, ?setCharset_plain, ?setCharset_xml,
    ?setCharset_bare_xml, ?setCharset_html.

Ltac run_handler :=
  unfold mbind, M_bind, mret, M_ret, try_catch, console_log, console_error,
    emit, value_of, res_status, res_type, res_set_content_type, res_send,
    res_set_cache_control, update_res, throw; simpl; express.

Lemma fs_paths_console logs : Forall is_console logs → fs_paths logs = [].
Proof.
  induction 1 as [|e logs He _ IH]; [done |].
  by destruct e.
Qed.

Lemma fs_paths_app l1 l2 : fs_paths (l1 ++ l2) = fs_paths l1 ++ fs_paths l2.
Proof. apply omap_app. Qed.

Lemma new_events_after w objs logs events out r :
  new_events w (out, World (heap w ++ objs) ((trace w ++ logs) ++ events) r)
  = logs ++ events.
Proof. unfold new_events. simpl. by rewrite <-app_assoc, drop_app_length. Qed.

(** *** The gate *)

Lemma proxy_server_refuses h req q w :
  heap w !! query req = Some q →
  Str.strict_eq (env_SKIP_VERIFICATION h) (js "true") = false →
  verdict h q = Returned false →
  ∃ objs logs,
    proxy_server h req w
    = (Returned (),
       World (heap w ++ objs) (trace w ++ logs)
         (Response 403 (Some (default_type (res w))) (cacheControl (res w))
            (Some (js "Forbidden"))))
    ∧ Forall is_console logs.
Proof.
  intros Hq Hskip Hv. unfold proxy_server. rewrite Hskip. run_handler.
  match goal with
  | |- context [verifyProxySignature h (query req) ?w1] =>
      destruct (verifyProxySignature_run h (query req) q w1 Hq)
        as (objs & logs & -> & Hlogs)
  end.
  rewrite Hv. simpl. express. exists objs. eexists. rewrite <-!app_assoc.
  split; [reflexivity |].
  apply Forall_cons. split; [done |]. apply Forall_app. split; [done |].
  by apply Forall_cons.
Qed.

Lemma greeting_console req w : Forall is_console (greeting req w).
Proof. repeat constructor. Qed.

Lemma proxy_part_001_refuses h req q w :
  heap w !! query req = Some q →
  Str.strict_eq (env_NODE_ENV h) (js "development") = false →
  verdict h q = Returned false →
  ∃ objs logs,
    proxy_part_001 h req w
    = (Returned (),
       World (heap w ++ objs) (trace w ++ logs)
         (Response 403 (Some plain_type) (cacheControl (res w))
            (Some (js "Forbidden"))))
    ∧ Forall is_console logs.
Proof.
  intros Hq Hdev Hv. unfold proxy_part_001. rewrite Hdev. run_handler.
  match goal with
  | |- context [verifyShopifySignature h (query req) ?w1] =>
      destruct (verifyShopifySignature_run h (query req) q w1 Hq)
        as (objs & logs & -> & Hlogs)
  end.
  rewrite Hv. simpl. express. exists objs. eexists. rewrite <-!app_assoc.
  split; [reflexivity |].
  repeat (apply Forall_cons; split; [done |]).
  apply Forall_app. split; [done |]. by apply Forall_cons.
Qed.

(** Where the verifier throws: [server.js] lets the error go, [part_001]
    catches it and answers 500. *)
Lemma proxy_server_throws h req q w e :
  heap w !! query req = Some q →
  Str.strict_eq (env_SKIP_VERIFICATION h) (js "true") = false →
  verdict h q = Thrown e →
  ∃ objs logs,
    proxy_server h req w
    = (Thrown e, World (heap w ++ objs) (trace w ++ logs) (res w))
    ∧ Forall is_console logs.
Proof.
  intros Hq Hskip Hv. unfold proxy_server. rewrite Hskip. run_handler.
  match goal with
  | |- context [verifyProxySignature h (query req) ?w1] =>
      destruct (verifyProxySignature_run h (query req) q w1 Hq)
        as (objs & logs & -> & Hlogs)
  end.
  rewrite Hv. simpl. exists objs. eexists. rewrite <-!app_assoc.
  split; [reflexivity |]. by apply Forall_cons.
Qed.

Lemma proxy_part_001_throws h req q w e :
  heap w !! query req = Some q →
  Str.strict_eq (env_NODE_ENV h) (js "development") = false →
  verdict h q = Thrown e →
  ∃ objs logs,
    proxy_part_001 h req w
    = (Returned (),
       World (heap w ++ objs) (trace w ++ logs)
         (Response 500 (Some plain_type) (cacheControl (res w))
            (Some (js "Internal server error"))))
    ∧ Forall is_console logs.
Proof.
  intros Hq Hdev Hv. unfold proxy_part_001. rewrite Hdev. run_handler.
  match goal with
  | |- context [verifyShopifySignature h (query req) ?w1] =>
      destruct (verifyShopifySignature_run h (query req) q w1 Hq)
        as (objs & logs & -> & Hlogs)
  end.
  rewrite Hv. simpl. express. exists objs. eexists. rewrite <-!app_assoc.
  split; [reflexivity |].
  repeat (apply Forall_cons; split; [done |]).
  apply Forall_app. split; [done |]. by apply Forall_cons.
Qed.

Lemma returned_true_has_query_server h r w :
  (verifyProxySignature h r w).1 = Returned true →
  ∃ q, heap w !! r = Some q ∧ verdict h q = Returned true.
Proof.
  destruct (heap w !! r) as [q|] eqn:Hq.
  - rewrite (verifyProxySignature_returns h r q w Hq). intros Hv. by exists q.
  - unfold verifyProxySignature. run. by rewrite Hq.
Qed.

Lemma returned_true_has_query_part_001 h r w :
  (verifyShopifySignature h r w).1 = Returned true →
  ∃ q, heap w !! r = Some q ∧ verdict h q = Returned true.
Proof.
  destruct (heap w !! r) as [q|] eqn:Hq.
  - rewrite (verifyShopifySignature_returns h r q w Hq). intros Hv. by exists q.
  - unfold verifyShopifySignature. run.
    destruct (Js.truthy_str (env_SHOPIFY_APP_SECRET h)); simpl; [| done].
    by rewrite Hq.
Qed.

Lemma serve_part_001_returns h req w :
  (serve_part_001 h req w).1 = Returned ().
Proof.
  unfold serve_part_001, sendXml, access, readFile, readdir. run_handler.
  destruct (JsString.eqb _ []); simpl; [done |].
  destruct (fs_access h _); simpl.
  - by destruct (fs_readFile h _).
  - by destruct (fs_readdir h _).
Qed.

(** Past the gate the resolver runs, in a world that differs from the one
    of the request by console lines and, perhaps, the verifier's copy. *)
Lemma proxy_server_through h req w :
  let_through_server h req w →
  ∃ objs logs,
    Forall is_console logs
    ∧ proxy_server h req w
      = serve_server h req (World (heap w ++ objs) (trace w ++ logs) (res w)).
Proof.
  intros [Hskip | [Hskip Htrue]]; unfold proxy_server; rewrite Hskip; run_handler.
  - exists [], [Console Log "Proxy request for market:"
                  [Js.VStr <$> params_market req];
                Console Log "Signature verification skipped (testing mode)" []].
    rewrite app_nil_r, <-app_assoc. split; [| done]. repeat constructor.
  - apply returned_true_has_query_server in Htrue as (q & Hq & Hv).
    match goal with
    | |- context [verifyProxySignature h (query req) ?w1] =>
        destruct (verifyProxySignature_run h (query req) q w1 Hq)
          as (objs & logs & -> & Hlogs)
    end.
    rewrite Hv. simpl. exists objs. eexists. rewrite <-app_assoc.
    split; [| reflexivity]. by apply Forall_cons.
Qed.

Ltac strip_try h req :=
  match goal with
  | |- context [serve_part_001 h req ?w1] =>
      pose proof (serve_part_001_returns h req w1) as Hret;
      destruct (serve_part_001 h req w1) as [[[]|e] w'']
  end; simpl in *; [reflexivity | discriminate].

Lemma proxy_part_001_through h req w :
  let_through_part_001 h req w →
  ∃ objs logs,
    Forall is_console logs
    ∧ proxy_part_001 h req w
      = serve_part_001 h req (World (heap w ++ objs) (trace w ++ logs) (res w)).
Proof.
  intros [Hdev | [Hdev Htrue]]; unfold proxy_part_001; rewrite Hdev; run_handler.
  - exists [], (greeting req w). rewrite app_nil_r.
    split; [apply greeting_console |].
    unfold greeting. rewrite <-!app_assoc. simpl. strip_try h req.
  - apply returned_true_has_query_part_001 in Htrue as (q & Hq & Hv).
    match goal with
    | |- context [verifyShopifySignature h (query req) ?w1] =>
        destruct (verifyShopifySignature_run h (query req) q w1 Hq)
          as (objs & logs & -> & Hlogs)
    end.
    rewrite Hv. simpl. exists objs, (greeting req w ++ logs).
    split; [apply Forall_app; split; [apply greeting_console | done] |].
    unfold greeting. rewrite <-!app_assoc. simpl. strip_try h req.
Qed.

(** *** The resolver *)

Section resolver_runs.
Context (h : host) (req : request) (w : world).

Lemma serve_server_found m content :
  params_market req = Some m →
  fs_readFile h (sitemap_path h (market_id h m ++ js ".xml")) = Some content →
  serve_server h req w
  = (Returned (),
     World (heap w)
       (trace w ++
        [Console Log "Looking for file:"
           [text (sitemap_path h (market_id h m ++ js ".xml"))];
         FsReadFile (sitemap_path h (market_id h m ++ js ".xml"));
         Console Log "Sending XML for market:" [text (market_id h m)]])
       (Response (statusCode (res w)) (Some xml_type) (cacheControl (res w))
          (Some content))).
Proof.
  intros Hm Hfile. unfold serve_server, market_toLowerCase, readFile.
  rewrite Hm. run_handler.
  unfold sitemap_path, market_id in Hfile. rewrite Hfile. simpl. express.
  by rewrite <-!app_assoc.
Qed.

Lemma serve_server_missing m :
  params_market req = Some m →
  fs_readFile h (sitemap_path h (market_id h m ++ js ".xml")) = None →
  serve_server h req w
  = (Returned (),
     World (heap w)
       (trace w ++
        [Console Log "Looking for file:"
           [text (sitemap_path h (market_id h m ++ js ".xml"))];
         FsReadFile (sitemap_path h (market_id h m ++ js ".xml"));
         Console Error "Error:" []])
       (Response 404 (Some (default_type (res w))) (cacheControl (res w))
          (Some (js "Sitemap not found for market: " ++ m)))).
Proof.
  intros Hm Hfile. unfold serve_server, market_toLowerCase, readFile.
  rewrite Hm. run_handler.
  unfold sitemap_path, market_id in Hfile. rewrite Hfile. simpl. express.
  by rewrite <-!app_assoc.
Qed.

(** Without a path parameter the method call throws inside the [try]. *)
Lemma serve_server_undefined :
  params_market req = None →
  serve_server h req w
  = (Returned (),
     World (heap w) (trace w ++ [Console Error "Error:" []])
       (Response 404 (Some (default_type (res w))) (cacheControl (res w))
          (Some (js "Sitemap not found for market: undefined")))).
Proof.
  intros Hm. unfold serve_server, market_toLowerCase. rewrite Hm.
  by run_handler.
Qed.

Lemma serve_part_001_empty :
  market_id h (Str.or_else (params_market req) []) = [] →
  serve_part_001 h req w
  = (Returned (),
     World (heap w) (trace w)
       (Response 400 (Some plain_type) (cacheControl (res w))
          (Some (js "Market is required")))).
Proof.
  intros Hid. unfold serve_part_001. unfold market_id in Hid. rewrite Hid.
  by run_handler.
Qed.

Lemma serve_part_001_found content :
  let id := market_id h (Str.or_else (params_market req) []) in
  id ≠ [] →
  fs_access h (sitemap_path h (id ++ js ".xml")) = true →
  fs_readFile h (sitemap_path h (id ++ js ".xml")) = Some content →
  serve_part_001 h req w
  = (Returned (),
     World (heap w)
       (trace w ++
        [Console Log "Looking for file:"
           [text (sitemap_path h (id ++ js ".xml"))];
         FsAccess (sitemap_path h (id ++ js ".xml"));
         Console Log "File found, sending XML" [];
         FsReadFile (sitemap_path h (id ++ js ".xml"))])
       (Response (statusCode (res w)) (Some xml_type)
          (Some (js "public, max-age=3600")) (Some content))).
Proof.
  intros id Hid Hacc Hfile. apply eqb_neq in Hid.
  unfold serve_part_001, sendXml, access, readFile.
  unfold id, market_id, sitemap_path in *. rewrite Hid. run_handler.
  rewrite Hacc. simpl. rewrite Hfile. simpl. express. by rewrite <-!app_assoc.
Qed.

Lemma serve_part_001_unreadable :
  let id := market_id h (Str.or_else (params_market req) []) in
  id ≠ [] →
  fs_access h (sitemap_path h (id ++ js ".xml")) = true →
  fs_readFile h (sitemap_path h (id ++ js ".xml")) = None →
  serve_part_001 h req w
  = (Returned (),
     World (heap w)
       (trace w ++
        [Console Log "Looking for file:"
           [text (sitemap_path h (id ++ js ".xml"))];
         FsAccess (sitemap_path h (id ++ js ".xml"));
         Console Log "File found, sending XML" [];
         FsReadFile (sitemap_path h (id ++ js ".xml"));
         Console Error "Error reading file:" []])
       (Response 404 (Some plain_type) (Some (js "public, max-age=3600"))
          (Some (js "Sitemap not found")))).
Proof.
  intros id Hid Hacc Hfile. apply eqb_neq in Hid.
  unfold serve_part_001, sendXml, access, readFile.
  unfold id, market_id, sitemap_path in *. rewrite Hid. run_handler.
  rewrite Hacc. simpl. rewrite Hfile. simpl. express. by rewrite <-!app_assoc.
Qed.

Lemma serve_part_001_missing :
  let id := market_id h (Str.or_else (params_market req) []) in
  id ≠ [] →
  fs_access h (sitemap_path h (id ++ js ".xml")) = false →
  ∃ listing,
    serve_part_001 h req w
    = (Returned (),
       World (heap w)
         (trace w ++
          [Console Log "Looking for file:"
             [text (sitemap_path h (id ++ js ".xml"))];
           FsAccess (sitemap_path h (id ++ js ".xml"));
           Console Error "File not found:"
             [text (sitemap_path h (id ++ js ".xml"))];
           FsReaddir (path_join h [dirname h; js "public"; js "sitemaps"]);
           listing])
         (Response 404 (Some plain_type) (cacheControl (res w))
            (Some (js "Sitemap not found for market: " ++ id))))
    ∧ is_console listing.
Proof.
  intros id Hid Hacc. apply eqb_neq in Hid.
  unfold serve_part_001, sendXml, access, readdir.
  unfold id, market_id, sitemap_path in *. rewrite Hid. run_handler.
  rewrite Hacc. simpl.
  destruct (fs_readdir h _); simpl; express; eexists; rewrite <-!app_assoc;
    (split; [reflexivity | done]).
Qed.

End resolver_runs.

(** ** The route: refusal *)

(** C6. When verification is not bypassed and the verifier returns
    [false], the handler answers 403 with the text [Forbidden], and nothing
    but console output happens: the file system is not touched.  [part_001]
    declares the body [text/plain]; [server.js] names no type, and the body
    goes out as [text/html]. *)
Theorem rejected_request_is_forbidden h req q w :
  heap w !! query req = Some q →
  (Str.strict_eq (env_SKIP_VERIFICATION h) (js "true") = false →
   (verifyProxySignature h (query req) w).1 = Returned false →
   statusCode (res (proxy_server h req w).2) = 403
   ∧ contentType (res (proxy_server h req w).2) = Some (default_type (res w))
   ∧ (contentType (res w) = None →
      contentType (res (proxy_server h req w).2)
      = Some (js "text/html; charset=utf-8"))
   ∧ body (res (proxy_server h req w).2) = Some (js "Forbidden")
   ∧ Forall is_console (new_events w (proxy_server h req w)))
  ∧ (Str.strict_eq (env_NODE_ENV h) (js "development") = false →
     (verifyShopifySignature h (query req) w).1 = Returned false →
     statusCode (res (proxy_part_001 h req w).2) = 403
     ∧ contentType (res (proxy_part_001 h req w).2)
       = Some (js "text/plain; charset=utf-8")
     ∧ body (res (proxy_part_001 h req w).2) = Some (js "Forbidden")
     ∧ Forall is_console (new_events w (proxy_part_001 h req w))).
Proof.
  intros Hq. split.
  - intros Hskip Hfalse.
    rewrite (verifyProxySignature_returns h _ q w Hq) in Hfalse.
    destruct (proxy_server_refuses h req q w Hq Hskip Hfalse)
      as (objs & logs & E & Hlogs).
    unfold new_events. rewrite E. simpl. rewrite drop_app_length.
    split_and!; try done. intros Hfresh. by rewrite default_type_fresh.
  - intros Hdev Hfalse.
    rewrite (verifyShopifySignature_returns h _ q w Hq) in Hfalse.
    destruct (proxy_part_001_refuses h req q w Hq Hdev Hfalse)
      as (objs & logs & E & Hlogs).
    unfold new_events. rewrite E. simpl. by rewrite drop_app_length.
Qed.

Lemma rejected_request_is_forbidden_witness :
  heap (Examples.world_of Examples.tampered) !! 0%nat = Some Examples.tampered
  ∧ (statusCode
       (res (proxy_server Examples.host0 Examples.austria_request
               (Examples.world_of Examples.tampered)).2) = 403
     ∧ contentType
         (res (proxy_server Examples.host0 Examples.austria_request
                 (Examples.world_of Examples.tampered)).2)
       = Some (js "text/html; charset=utf-8"))
  ∧ (statusCode
       (res (proxy_part_001 Examples.host0 Examples.austria_request
               (Examples.world_of Examples.tampered)).2) = 403
     ∧ contentType
         (res (proxy_part_001 Examples.host0 Examples.austria_request
                 (Examples.world_of Examples.tampered)).2)
       = Some (js "text/plain; charset=utf-8")).
Proof.
  split; [reflexivity |].
  destruct (rejected_request_is_forbidden Examples.host0
              Examples.austria_request
              Examples.tampered (Examples.world_of Examples.tampered))
    as [Hserver Hpart]; [reflexivity |].
  destruct Hserver as (Hcode & _ & Htype & _);
    [reflexivity | vm_compute; reflexivity |].
  destruct Hpart as (Hcode' & Htype' & _);
    [reflexivity | vm_compute; reflexivity |].
  split; [split; [exact Hcode | exact (Htype eq_refl)] |].
  split; [exact Hcode' | exact Htype'].
Defined.

(** ** The route: bypass *)

(** C7. Bypass is off by default: with [SKIP_VERIFICATION] (in
    [server.js]) or [NODE_ENV] (in [part_001]) unset, the verifier decides,
    a query it rejects is answered 403 without a look at the files, and a
    query it accepts is answered with the document.  With the switch on the
    document is served whatever the query holds, and no two requests for
    the same market are answered differently. *)
Theorem bypass_is_off_by_default h req w :
  (env_SKIP_VERIFICATION h = None →
   ((verifyProxySignature h (query req) w).1 = Returned false →
    statusCode (res (proxy_server h req w).2) = 403
    ∧ body (res (proxy_server h req w).2) = Some (js "Forbidden")
    ∧ fs_paths (new_events w (proxy_server h req w)) = [])
   ∧ ((verifyProxySignature h (query req) w).1 = Returned true →
      ∀ m content,
        params_market req = Some m →
        fs_readFile h (sitemap_path h (market_id h m ++ js ".xml"))
        = Some content →
        res (proxy_server h req w).2
        = Response (statusCode (res w)) (Some xml_type) (cacheControl (res w))
                   (Some content)))
  ∧ (env_SKIP_VERIFICATION h = Some (js "true") →
     (∀ m content,
        params_market req = Some m →
        fs_readFile h (sitemap_path h (market_id h m ++ js ".xml"))
        = Some content →
        res (proxy_server h req w).2
        = Response (statusCode (res w)) (Some xml_type) (cacheControl (res w))
                   (Some content))
     ∧ (∀ req' w',
          params_market req' = params_market req → res w' = res w →
          res (proxy_server h req' w').2 = res (proxy_server h req w).2))
  ∧ (env_NODE_ENV h = None →
     ((verifyShopifySignature h (query req) w).1 = Returned false →
      statusCode (res (proxy_part_001 h req w).2) = 403
      ∧ body (res (proxy_part_001 h req w).2) = Some (js "Forbidden")
      ∧ fs_paths (new_events w (proxy_part_001 h req w)) = [])
     ∧ ((verifyShopifySignature h (query req) w).1 = Returned true →
        ∀ content,
          let id := market_id h (Str.or_else (params_market req) []) in
          id ≠ [] →
          fs_access h (sitemap_path h (id ++ js ".xml")) = true →
          fs_readFile h (sitemap_path h (id ++ js ".xml")) = Some content →
          res (proxy_part_001 h req w).2
          = Response (statusCode (res w)) (Some xml_type)
                     (Some (js "public, max-age=3600")) (Some content)))
  ∧ (env_NODE_ENV h = Some (js "development") →
     (∀ content,
        let id := market_id h (Str.or_else (params_market req) []) in
        id ≠ [] →
        fs_access h (sitemap_path h (id ++ js ".xml")) = true →
        fs_readFile h (sitemap_path h (id ++ js ".xml")) = Some content →
        res (proxy_part_001 h req w).2
        = Response (statusCode (res w)) (Some xml_type)
                   (Some (js "public, max-age=3600")) (Some content))
     ∧ (∀ req' w',
          params_market req' = params_market req → res w' = res w →
          res (proxy_part_001 h req' w').2 = res (proxy_part_001 h req w).2)).
Proof.
  assert (∀ req0 w0, let_through_server h req0 w0 →
            ∀ m content,
              params_market req0 = Some m →
              fs_readFile h (sitemap_path h (market_id h m ++ js ".xml"))
              = Some content →
              res (proxy_server h req0 w0).2
              = Response (statusCode (res w0)) (Some xml_type)
                         (cacheControl (res w0)) (Some content)) as Hserver.
  { intros req0 w0 Hthrough m content Hm Hfile.
    destruct (proxy_server_through h req0 w0 Hthrough) as (objs & logs & _ & ->).
    by rewrite (serve_server_found h req0 _ m content Hm Hfile). }
  assert (∀ req0 w0, let_through_part_001 h req0 w0 →
            ∀ content,
              let id := market_id h (Str.or_else (params_market req0) []) in
              id ≠ [] →
              fs_access h (sitemap_path h (id ++ js ".xml")) = true →
              fs_readFile h (sitemap_path h (id ++ js ".xml")) = Some content →
              res (proxy_part_001 h req0 w0).2
              = Response (statusCode (res w0)) (Some xml_type)
                         (Some (js "public, max-age=3600")) (Some content))
    as Hpart.
  { intros req0 w0 Hthrough content id Hid Hacc Hfile.
    destruct (proxy_part_001_through h req0 w0 Hthrough)
      as (objs & logs & _ & ->).
    by rewrite (serve_part_001_found h req0 _ content Hid Hacc Hfile). }
  split_and!.
  - intros Hunset.
    assert (Str.strict_eq (env_SKIP_VERIFICATION h) (js "true") = false)
      as Hskip by (by rewrite Hunset).
    split.
    + intros Hfalse.
      destruct (heap w !! query req) as [q|] eqn:Hq.
      2: { unfold verifyProxySignature in Hfalse. revert Hfalse. run.
           by rewrite Hq. }
      rewrite (verifyProxySignature_returns h _ q w Hq) in Hfalse.
      destruct (proxy_server_refuses h req q w Hq Hskip Hfalse)
        as (objs & logs & E & Hlogs).
      unfold new_events. rewrite E. simpl. rewrite drop_app_length.
      split_and!; try done. by apply fs_paths_console.
    + intros Htrue. apply Hserver. by right.
  - intros Hon.
    assert (Str.strict_eq (env_SKIP_VERIFICATION h) (js "true") = true)
      as Hskip by (by rewrite Hon).
    split; [apply Hserver; by left |].
    intros req' w' Hsame Hres.
    destruct (proxy_server_through h req w (or_introl Hskip))
      as (objs & logs & _ & ->).
    destruct (proxy_server_through h req' w' (or_introl Hskip))
      as (objs' & logs' & _ & ->).
    destruct (params_market req) as [m|] eqn:Hm.
    + destruct (fs_readFile h (sitemap_path h (market_id h m ++ js ".xml")))
        as [content|] eqn:Hfile.
      * rewrite (serve_server_found h req _ m content Hm Hfile),
          (serve_server_found h req' _ m content Hsame Hfile).
        simpl. by rewrite Hres.
      * rewrite (serve_server_missing h req _ m Hm Hfile),
          (serve_server_missing h req' _ m Hsame Hfile).
        simpl. by rewrite Hres.
    + rewrite (serve_server_undefined h req _ Hm),
        (serve_server_undefined h req' _ Hsame).
      simpl. by rewrite Hres.
  - intros Hunset.
    assert (Str.strict_eq (env_NODE_ENV h) (js "development") = false)
      as Hdev by (by rewrite Hunset).
    split.
    + intros Hfalse.
      destruct (heap w !! query req) as [q|] eqn:Hq.
      2: { unfold verifyShopifySignature in Hfalse. revert Hfalse. run.
           destruct (Js.truthy_str (env_SHOPIFY_APP_SECRET h)) eqn:Hs; simpl.
           - by rewrite Hq.
           - intros _. unfold proxy_part_001, verifyShopifySignature.
             rewrite Hdev, Hs. run_handler. unfold new_events. simpl.
             rewrite <-!app_assoc, drop_app_length. done. }
      rewrite (verifyShopifySignature_returns h _ q w Hq) in Hfalse.
      destruct (proxy_part_001_refuses h req q w Hq Hdev Hfalse)
        as (objs & logs & E & Hlogs).
      unfold new_events. rewrite E. simpl. rewrite drop_app_length.
      split_and!; try done. by apply fs_paths_console.
    + intros Htrue. apply Hpart. by right.
  - intros Hon.
    assert (Str.strict_eq (env_NODE_ENV h) (js "development") = true)
      as Hdev by (by rewrite Hon).
    split; [apply Hpart; by left |].
    intros req' w' Hsame Hres.
    destruct (proxy_part_001_through h req w (or_introl Hdev))
      as (objs & logs & _ & ->).
    destruct (proxy_part_001_through h req' w' (or_introl Hdev))
      as (objs' & logs' & _ & ->).
    set (id := market_id h (Str.or_else (params_market req) [])).
    assert (market_id h (Str.or_else (params_market req') []) = id) as Hid'
      by (by rewrite Hsame).
    destruct (decide (id = [])) as [Hid|Hid].
    { rewrite (serve_part_001_empty h req _ Hid).
      rewrite (serve_part_001_empty h req' _); [| by rewrite Hid'].
      simpl. by rewrite Hres. }
    destruct (fs_access h (sitemap_path h (id ++ js ".xml"))) eqn:Hacc.
    + destruct (fs_readFile h (sitemap_path h (id ++ js ".xml")))
        as [content|] eqn:Hfile.
      * rewrite (serve_part_001_found h req _ content Hid Hacc Hfile).
        rewrite (serve_part_001_found h req' _ content);
          [| by rewrite Hid' | by rewrite Hid' | by rewrite Hid'].
        simpl. by rewrite Hres.
      * rewrite (serve_part_001_unreadable h req _ Hid Hacc Hfile).
        rewrite (serve_part_001_unreadable h req' _);
          [| by rewrite Hid' | by rewrite Hid' | by rewrite Hid'].
        done.
    + destruct (serve_part_001_missing h req
                  (World (heap w ++ objs) (trace w ++ logs) (res w)) Hid Hacc)
        as (listing & -> & _).
      destruct (serve_part_001_missing h req'
                  (World (heap w' ++ objs') (trace w' ++ logs') (res w')))
        as (listing' & -> & _); [by rewrite Hid' | by rewrite Hid' |].
      simpl. by rewrite Hid', Hres.
Qed.

(** With the switches on, the tampered query is served... *)
Example tampered_served :
  res (proxy_server host1 austria_request (world_of tampered)).2 = sitemap
  ∧ res (proxy_part_001 host1 austria_request (world_of tampered)).2
    = Response 200 (Some (js "application/xml; charset=utf-8"))
               (Some (js "public, max-age=3600")) (Some (js "<urlset/>")).
Proof. split; vm_compute; reflexivity. Qed.

(** ... and with the switches unset only the signed one. *)
Example signed_served :
  res (proxy_server host0 austria_request (world_of signed)).2 = sitemap
  ∧ statusCode (res (proxy_server host0 austria_request (world_of tampered)).2)
    = 403.
Proof. split; vm_compute; reflexivity. Qed.

Lemma bypass_is_off_by_default_witness :
  env_SKIP_VERIFICATION Examples.host0 = None
  ∧ env_NODE_ENV Examples.host0 = None
  ∧ env_SKIP_VERIFICATION Examples.host1 = Some (js "true")
  ∧ env_NODE_ENV Examples.host1 = Some (js "development")
  ∧ statusCode
      (res (proxy_server Examples.host0 Examples.austria_request
              (Examples.world_of Examples.tampered)).2) = 403
  ∧ statusCode
      (res (proxy_part_001 Examples.host0 Examples.austria_request
              (Examples.world_of Examples.tampered)).2) = 403
  ∧ res (proxy_server Examples.host1 Examples.austria_request
           (Examples.world_of Examples.tampered)).2
    = Response 200 (Some xml_type) None (Some (js "<urlset/>"))
  ∧ res (proxy_part_001 Examples.host1 Examples.austria_request
           (Examples.world_of Examples.tampered)).2
    = Response 200 (Some xml_type) (Some (js "public, max-age=3600"))
               (Some (js "<urlset/>")).
Proof.
  destruct (bypass_is_off_by_default Examples.host0 Examples.austria_request
              (Examples.world_of Examples.tampered))
    as (Hserver & _ & Hpart & _).
  destruct (bypass_is_off_by_default Examples.host1 Examples.austria_request
              (Examples.world_of Examples.tampered))
    as (_ & Hserver_on & _ & Hpart_on).
  split; [reflexivity |]. split; [reflexivity |].
  split; [reflexivity |]. split; [reflexivity |].
  split.
  { apply (Hserver eq_refl). vm_compute. reflexivity. }
  split.
  { apply (Hpart eq_refl). vm_compute. reflexivity. }
  split.
  { apply (proj1 (Hserver_on eq_refl) (js "austria") (js "<urlset/>"));
      [reflexivity | vm_compute; reflexivity]. }
  apply (proj1 (Hpart_on eq_refl) (js "<urlset/>"));
    [vm_compute; discriminate | vm_compute; reflexivity
    | vm_compute; reflexivity].
Defined.

(** ** The market identifier *)

Section market_id.

Lemma replace_dot_free (stem tail_ : jsstring) :
  Forall (λ c, c ≠ 46) stem →
  Str.replace (stem ++ tail_) (js ".xml") []
  = stem ++ Str.replace tail_ (js ".xml") [].
Proof.
  induction 1 as [|c stem Hc _ IH]; [done |].
  change ((c :: stem) ++ tail_) with (c :: (stem ++ tail_)).
  assert (Str.startsWith (c :: stem ++ tail_) (js ".xml") = false) as E.
  { change (js ".xml") with (46 :: js "xml"). simpl.
    apply N.eqb_neq in Hc. by rewrite Hc. }
  unfold Str.replace at 1. fold Str.replace. rewrite E.
  by rewrite IH.
Qed.

(** On a name without a dot, with or without the extension, the code
    computes what the specification says. *)
Lemma market_id_dot_free (stem : jsstring) :
  Forall (λ c, c ≠ 46) stem →
  Str.replace (stem ++ js ".xml") (js ".xml") [] = stem
  ∧ Str.replace stem (js ".xml") [] = stem.
Proof.
  intros Hstem. split.
  - rewrite replace_dot_free by done.
    change (Str.replace (js ".xml") (js ".xml") []) with (@nil N).
    by rewrite app_nil_r.
  - rewrite <-(app_nil_r stem) at 1. rewrite replace_dot_free by done.
    change (Str.replace [] (js ".xml") []) with (@nil N).
    by rewrite app_nil_r.
Qed.

End market_id.

(** C5, at a path parameter with [.xml] inside it: [replace] takes out the
    first occurrence, wherever it is, so the resolver is asked for
    [austria.xml] where the specification's identifier is [aus.xmltria]. *)
Theorem inner_xml_is_removed :
  (∀ h, Str.replace (toLowerCase h (js "aus.xmltria")) (js ".xml") []
        = js "austria")
  ∧ (∀ h, spec_market_id h (js "aus.xmltria") = js "aus.xmltria")
  ∧ fs_paths (new_events (Examples.world_of Examples.signed)
                (proxy_server Examples.host0 Examples.inner_request
                   (Examples.world_of Examples.signed)))
    = [js "/srv/app/public/sitemaps/austria.xml"]
  ∧ res (proxy_server Examples.host0 Examples.inner_request
           (Examples.world_of Examples.signed)).2
    = Response 200 (Some (js "application/xml; charset=utf-8")) None
               (Some (js "<urlset/>"))
  ∧ fs_paths (new_events (Examples.world_of Examples.signed)
                (proxy_part_001 Examples.host0 Examples.inner_request
                   (Examples.world_of Examples.signed)))
    = [js "/srv/app/public/sitemaps/austria.xml";
       js "/srv/app/public/sitemaps/austria.xml"]
  ∧ res (proxy_part_001 Examples.host0 Examples.inner_request
           (Examples.world_of Examples.signed)).2
    = Response 200 (Some (js "application/xml; charset=utf-8"))
               (Some (js "public, max-age=3600")) (Some (js "<urlset/>")).
Proof. split_and!; try intros h; vm_compute; reflexivity. Qed.

(** Where the extension is the only [.xml] the two agree. *)
Example market_id_examples h :
  Str.replace (toLowerCase h (js "Austria.XML")) (js ".xml") [] = js "austria"
  ∧ spec_market_id h (js "Austria.XML") = js "austria"
  ∧ Str.replace (toLowerCase h (js "austria")) (js ".xml") [] = js "austria"
  ∧ spec_market_id h (js "austria") = js "austria"
  ∧ Str.replace (toLowerCase h (js "de.xml.xml")) (js ".xml") [] = js "de.xml"
  ∧ spec_market_id h (js "de.xml.xml") = js "de.xml".
Proof. split_and!; vm_compute; reflexivity. Qed.

(** * Further properties *)

(** ** More of the verifier *)

(** X1. On every query object the verifier of [server.js] and the verifier
    of [part_001] return the same value, although they look at the secret
    and at the signature in opposite orders. *)
Theorem verifiers_agree h r q w :
  heap w !! r = Some q →
  (verifyProxySignature h r w).1 = (verifyShopifySignature h r w).1.
Proof.
  intros Hq.
  by rewrite (verifyProxySignature_returns h r q w Hq),
    (verifyShopifySignature_returns h r q w Hq).
Qed.

Lemma verifiers_agree_witness :
  heap (world_of reordered) !! 0%nat = Some reordered
  ∧ (verifyProxySignature no_secret 0 (world_of reordered)).1
    = (verifyShopifySignature no_secret 0 (world_of reordered)).1.
Proof.
  split; [reflexivity |].
  apply (verifiers_agree no_secret 0 reordered (world_of reordered)).
  reflexivity.
Defined.

Lemma verdict_needs_digest_shape h q :
  verdict h q = Returned true → digest_shaped (Js.get q (js "signature")).
Proof.
  unfold verdict. destruct (env_SHOPIFY_APP_SECRET h) as [secret|]; [| done].
  destruct (Js.truthy _ && _); [| done].
  destruct (canonical_message _) as [message|]; [| done].
  intros [= E%strict_eq_str_true].
  eexists. split; [exact E |]. split; [apply hmac_hex_length | apply hmac_hex_lower].
Qed.

Lemma has_texts_by_computation (q : Js.object) :
  forallb (λ kv, bool_decide (kv.1 = js "signature")
                 || bool_decide (is_Some (Js.to_string kv.2))) q = true →
  has_texts q.
Proof.
  intros Hall k v Hin Hk. rewrite forallb_forall in Hall.
  apply list_elem_of_In in Hin. apply Hall in Hin. simpl in Hin.
  apply orb_prop in Hin as [Hsig|Htext].
  - by apply bool_decide_eq_true in Hsig.
  - by apply bool_decide_eq_true in Htext.
Qed.

(** X2. Whatever the secret, a query does not verify unless its signature
    is a string of exactly sixty-four lowercase hexadecimal digits: with a
    missing or empty signature, a signature given twice (an array), one of
    another length or with a capital letter, no verifier returns [true],
    and where the parameters all have a text both return [false]. *)
Theorem only_digest_shaped_signatures_verify h r q w :
  heap w !! r = Some q →
  ¬ digest_shaped (Js.get q (js "signature")) →
  (verifyProxySignature h r w).1 ≠ Returned true
  ∧ (verifyShopifySignature h r w).1 ≠ Returned true
  ∧ (has_texts q →
     (verifyProxySignature h r w).1 = Returned false
     ∧ (verifyShopifySignature h r w).1 = Returned false).
Proof.
  intros Hq Hbad.
  rewrite (verifyProxySignature_returns h r q w Hq),
    (verifyShopifySignature_returns h r q w Hq).
  assert (verdict h q ≠ Returned true) as Hno.
  { intros Hv. destruct Hbad. by eapply verdict_needs_digest_shape. }
  split_and!; [done | done |].
  intros [[] Hb]%(verdict_total h); by rewrite Hb in *.
Qed.

Lemma only_digest_shaped_signatures_verify_witness :
  heap (world_of doubled) !! 0%nat = Some doubled
  ∧ ¬ digest_shaped (Js.get doubled (js "signature"))
  ∧ (verifyProxySignature host0 0 (world_of doubled)).1 = Returned false
  ∧ (verifyShopifySignature host0 0 (world_of doubled)).1 = Returned false.
Proof.
  assert (¬ digest_shaped (Js.get doubled (js "signature"))) as Hbad.
  { intros (s & E & _). vm_compute in E. discriminate. }
  split; [reflexivity |]. split; [exact Hbad |].
  apply (only_digest_shaped_signatures_verify host0 0 doubled (world_of doubled));
    [reflexivity | exact Hbad |].
  apply has_texts_by_computation. vm_compute. reflexivity.
Defined.

(** ** What a run of the verifier leaves behind *)

Section verifier_traces.
Context (h : host) (r : nat) (q : Js.object) (w : world).
Hypothesis Hq : heap w !! r = Some q.

Lemma verifyProxySignature_frame :
  ∃ logs,
    verifyProxySignature h r w
    = (verdict h q,
       World (heap w ++ [Js.rest q [js "signature"]]) (trace w ++ logs) (res w))
    ∧ Forall is_console logs.
Proof.
  unfold verifyProxySignature, verdict. run. rewrite Hq.
  destruct (Js.truthy (Js.get q (js "signature"))) eqn:Hsig; simpl.
  2: { destruct (env_SHOPIFY_APP_SECRET h); eexists; split; eauto;
       repeat constructor. }
  destruct (env_SHOPIFY_APP_SECRET h) as [secret|]; simpl.
  2: { eexists; split; eauto; repeat constructor. }
  destruct (JsString.eqb secret []); simpl.
  { eexists; split; eauto; repeat constructor. }
  rewrite list_lookup_middle by done.
  destruct (canonical_message _) as [message|]; simpl.
  2: { exists []. by rewrite app_nil_r. }
  destruct (Js.strict_eq_str _ _); simpl; rewrite <-?app_assoc;
    eexists; split; eauto; repeat constructor.
Qed.

Lemma verifyShopifySignature_frame :
  ∃ logs,
    verifyShopifySignature h r w
    = (verdict h q,
       World (if Js.truthy_str (env_SHOPIFY_APP_SECRET h)
              then heap w ++ [Js.rest q [js "signature"]] else heap w)
             (trace w ++ logs) (res w))
    ∧ Forall is_console logs.
Proof.
  unfold verifyShopifySignature, verdict. run.
  destruct (env_SHOPIFY_APP_SECRET h) as [secret|]; simpl.
  2: { exists [Console Error "SHOPIFY_APP_SECRET is not set!" []].
       split; eauto; repeat constructor. }
  destruct (JsString.eqb secret []); simpl.
  { rewrite andb_false_r.
    exists [Console Error "SHOPIFY_APP_SECRET is not set!" []].
    split; eauto; repeat constructor. }
  rewrite Hq. rewrite andb_true_r.
  destruct (Js.truthy (Js.get q (js "signature"))) eqn:Hsig; simpl.
  2: { eexists; split; eauto; repeat constructor. }
  rewrite list_lookup_middle by done.
  destruct (canonical_message _) as [message|]; simpl.
  2: { exists []. by rewrite app_nil_r. }
  destruct (Js.strict_eq_str _ _); simpl; rewrite <-?app_assoc.
  - exists []. by rewrite app_nil_r.
  - eexists; split; eauto; repeat constructor.
Qed.

End verifier_traces.

(** X3. A run of either verifier leaves the response as it was and does
    nothing but write to the console and make the copy of the parameters
    without [signature]: the trace is extended by console lines only, and
    the heap by that one object, which [server.js] makes on every call and
    [part_001] on every call that finds the secret set. *)
Theorem verifier_only_logs h r q w :
  heap w !! r = Some q →
  let after1 := (verifyProxySignature h r w).2 in
  let after2 := (verifyShopifySignature h r w).2 in
  res after1 = res w ∧ res after2 = res w
  ∧ (∃ logs, trace after1 = trace w ++ logs ∧ Forall is_console logs)
  ∧ (∃ logs, trace after2 = trace w ++ logs ∧ Forall is_console logs)
  ∧ heap after1 = heap w ++ [Js.rest q [js "signature"]]
  ∧ heap after2
    = if Js.truthy_str (env_SHOPIFY_APP_SECRET h)
      then heap w ++ [Js.rest q [js "signature"]]
      else heap w.
Proof.
  intros Hq.
  destruct (verifyProxySignature_frame h r q w Hq) as (logs1 & -> & Hl1).
  destruct (verifyShopifySignature_frame h r q w Hq) as (logs2 & -> & Hl2).
  simpl. split_and!; try done; by eexists.
Qed.

Lemma verifier_only_logs_witness :
  heap (world_of tampered) !! 0%nat = Some tampered
  ∧ res (verifyProxySignature host0 0 (world_of tampered)).2 = fresh_response
  ∧ res (verifyShopifySignature host0 0 (world_of tampered)).2 = fresh_response
  ∧ heap (verifyShopifySignature host0 0 (world_of tampered)).2
    = [tampered; Js.rest tampered [js "signature"]]
  ∧ heap (verifyShopifySignature no_secret 0 (world_of tampered)).2
    = [tampered].
Proof.
  split; [reflexivity |].
  destruct (verifier_only_logs host0 0 tampered (world_of tampered))
    as (H1 & H2 & _ & _ & _ & H3); [reflexivity |].
  destruct (verifier_only_logs no_secret 0 tampered (world_of tampered))
    as (_ & _ & _ & _ & _ & H4); [reflexivity |].
  split; [exact H1 |]. split; [exact H2 |]. split; [exact H3 | exact H4].
Defined.

(** ** What the mismatch log gives away *)

Lemma filter_set_excluded (q : Js.object) k v :
  filter (λ kv : jsstring * Js.value, kv.1 ∉ [k]) (Js.set q k v)
  = filter (λ kv : jsstring * Js.value, kv.1 ∉ [k]) q.
Proof.
  assert (∀ v0 : Js.value, ¬ ((k, v0).1 ∉ [k])) as Hk.
  { intros v0 Hno. apply Hno. simpl. by apply list_elem_of_singleton. }
  induction q as [|[k' v'] q IH]; simpl.
  - rewrite filter_cons, decide_False by apply Hk. done.
  - destruct (JsString.eqb k' k) eqn:E.
    + apply eqb_eq in E as ->.
      by rewrite !filter_cons, !decide_False by apply Hk.
    + rewrite !filter_cons. rewrite IH. done.
Qed.

Lemma message_ignores_signature (q : Js.object) v :
  Js.wf q → js "signature" ∈ q.*1 →
  canonical_message (Js.rest (Js.set q (js "signature") v) [js "signature"])
  = canonical_message (Js.rest q [js "signature"]).
Proof.
  intros Hwf Hin. apply canonical_message_perm.
  - apply rest_wf. unfold Js.wf. by rewrite set_names.
  - by rewrite !rest_perm, filter_set_excluded.
Qed.

Lemma truthy_in_names (q : Js.object) k :
  Js.truthy (Js.get q k) = true → k ∈ q.*1.
Proof.
  destruct (Js.get q k) as [v|] eqn:E; [| done]. intros _.
  by eapply in_names.
Qed.

(** X4. When a present signature does not match, both verifiers write the
    digest they expected to the console, and that very string, put in the
    place of the signature, makes the same query verify. *)
Theorem mismatch_log_holds_a_valid_signature h r q w secret :
  heap w !! r = Some q → Js.wf q →
  env_SHOPIFY_APP_SECRET h = Some secret → secret ≠ [] →
  Js.truthy (Js.get q (js "signature")) = true →
  (verifyProxySignature h r w).1 = Returned false →
  ∃ expected,
    Console Log "  Expected:" [text expected]
      ∈ events_since w (verifyProxySignature h r w).2
    ∧ Console Log "Expected:" [text expected]
        ∈ events_since w (verifyShopifySignature h r w).2
    ∧ ∀ r' w',
        heap w' !! r' = Some (Js.set q (js "signature") (Js.VStr expected)) →
        (verifyProxySignature h r' w').1 = Returned true
        ∧ (verifyShopifySignature h r' w').1 = Returned true.
Proof.
  intros Hq Hwf Hs Hsecret Hsig Hfalse.
  rewrite (verifyProxySignature_returns h r q w Hq) in Hfalse.
  apply eqb_neq in Hsecret.
  unfold verdict in Hfalse. rewrite Hs, Hsig, Hsecret in Hfalse.
  simpl in Hfalse.
  destruct (canonical_message (Js.rest q [js "signature"]))
    as [message|] eqn:Hm; [| done].
  assert (Js.strict_eq_str (Sha256.hmac_sha256_hex secret message)
            (Js.get q (js "signature")) = false) as Hne by congruence.
  exists (Sha256.hmac_sha256_hex secret message).
  split_and!.
  - unfold events_since, verifyProxySignature. run. rewrite Hq, Hsig, Hs.
    simpl. rewrite Hsecret. simpl. rewrite list_lookup_middle by done.
    rewrite Hm. simpl.
    rewrite Hne. simpl. rewrite <-!app_assoc, drop_app_length.
    apply elem_of_cons. right. apply elem_of_cons. by left.
  - unfold events_since, verifyShopifySignature. run. rewrite Hs. simpl.
    rewrite Hsecret. simpl. rewrite Hq, Hsig. simpl.
    rewrite list_lookup_middle by done.
    rewrite Hm. simpl.
    rewrite Hne. simpl. rewrite <-!app_assoc, drop_app_length.
    apply elem_of_cons. right. apply elem_of_cons. by left.
  - intros r' w' Hq'.
    rewrite (verifyProxySignature_returns h r' _ w' Hq'),
      (verifyShopifySignature_returns h r' _ w' Hq').
    assert (verdict h (Js.set q (js "signature")
                         (Js.VStr (Sha256.hmac_sha256_hex secret message)))
            = Returned true) as ->; [| done].
    unfold verdict. rewrite Hs, Hsecret.
    rewrite message_ignores_signature by (done || by apply truthy_in_names).
    rewrite get_set, decide_True by done. rewrite Hm.
    unfold Js.truthy, Js.strict_eq_str. rewrite eqb_refl.
    assert (JsString.eqb (Sha256.hmac_sha256_hex secret message) [] = false)
      as -> by apply eqb_neq, hmac_hex_nonempty.
    done.
Qed.

Lemma mismatch_log_holds_a_valid_signature_witness :
  heap (world_of tampered) !! 0%nat = Some tampered
  ∧ (verifyProxySignature host0 0 (world_of tampered)).1 = Returned false
  ∧ ∃ expected,
      Console Log "  Expected:" [text expected]
        ∈ events_since (world_of tampered)
            (verifyProxySignature host0 0 (world_of tampered)).2
      ∧ (verifyProxySignature host0 0
           (world_of (Js.set tampered (js "signature") (Js.VStr expected)))).1
        = Returned true.
Proof.
  split; [reflexivity |]. split; [vm_compute; reflexivity |].
  destruct (mismatch_log_holds_a_valid_signature host0 0 tampered
              (world_of tampered) (js "hush"))
    as (expected & Hlog & _ & Hforged).
  - reflexivity.
  - wf_by_computation.
  - reflexivity.
  - vm_compute; discriminate.
  - vm_compute; reflexivity.
  - vm_compute; reflexivity.
  - exists expected. split; [exact Hlog |].
    apply (Hforged 0%nat (world_of (Js.set tampered (js "signature")
                                      (Js.VStr expected)))).
    reflexivity.
Defined.

(** ** Where one pair ends and the next begins *)

Lemma set_fresh_names (q : Js.object) k v :
  k ∉ q.*1 → (Js.set q k v).*1 = q.*1 ++ [k].
Proof.
  induction q as [|[k' v'] q IH]; [done |].
  rewrite fmap_cons. intros [Hne Hno]%not_elem_of_cons. simpl in *.
  destruct (JsString.eqb k' k) eqn:E; [apply eqb_eq in E; congruence |].
  rewrite fmap_cons. simpl. by rewrite IH.
Qed.

Lemma spec_names_elem (q : Js.object) n :
  n ∈ spec_names q ↔ n ≠ js "signature" ∧ n ∈ q.*1.
Proof. unfold spec_names. by rewrite list_elem_of_filter. Qed.

Lemma joined_cons (f : jsstring → option jsstring) x l :
  mjoin <$> mapM f (x :: l)
  = match f x, mjoin <$> mapM f l with
    | Some first, Some others => Some (first ++ others)
    | _, _ => None
    end.
Proof. simpl. destruct (f x); simpl; [| done]. by destruct (mapM f l). Qed.

Lemma joined_app (f : jsstring → option jsstring) l1 l2 :
  mjoin <$> mapM f (l1 ++ l2)
  = match mjoin <$> mapM f l1, mjoin <$> mapM f l2 with
    | Some m1, Some m2 => Some (m1 ++ m2)
    | _, _ => None
    end.
Proof.
  induction l1 as [|x l1 IH].
  - simpl. by destruct (mjoin <$> mapM f l2).
  - rewrite <-app_comm_cons, !joined_cons, IH.
    destruct (f x), (mjoin <$> mapM f l1), (mjoin <$> mapM f l2);
      rewrite <-?app_assoc; done.
Qed.

(** X5. The pairs are joined with nothing between them, so a value may
    hold what reads as the next pair: a query in which the value of [a]
    ends in [b=x] has the same canonical message, and gets the same verdict,
    as the query in which [b] is a parameter of its own, provided [b] is
    the name that would follow [a]. *)
Theorem value_can_hold_the_next_pair h r r' q w w' a b v x :
  heap w !! r = Some q → Js.wf q →
  a ≠ js "signature" → b ≠ js "signature" →
  Js.get q a = Some (Js.VStr (v ++ b ++ js "=" ++ x)) →
  b ∉ q.*1 → lex_lt a b →
  (∀ c, c ∈ q.*1 → c ≠ js "signature" → lex_lt a c → lex_lt b c) →
  let apart := Js.set (Js.set q a (Js.VStr v)) b (Js.VStr x) in
  heap w' !! r' = Some apart →
  canonical_message (Js.rest apart [js "signature"])
  = canonical_message (Js.rest q [js "signature"])
  ∧ (verifyProxySignature h r' w').1 = (verifyProxySignature h r w).1
  ∧ (verifyShopifySignature h r' w').1 = (verifyShopifySignature h r w).1.
Proof.
  intros Hq Hwf Ha Hb Hget Hfresh Hab Hnext apart Hq'.
  pose proof (in_names q a _ Hget) as Hin.
  assert (a ≠ b) as Hne by (intros ->; done).
  assert (apart.*1 = q.*1 ++ [b]) as Hnames.
  { unfold apart. rewrite set_fresh_names; rewrite set_names; done. }
  assert (Js.wf apart) as Hwf'.
  { unfold Js.wf. rewrite Hnames. apply NoDup_app. split_and!; [done | |].
    - intros n Hn ->%list_elem_of_singleton. done.
    - apply NoDup_singleton. }
  assert (spec_names apart = spec_names q ++ [b]) as Hspec.
  { unfold spec_names. rewrite Hnames, filter_app, filter_cons.
    by rewrite decide_True. }
  assert (a ∈ spec_names q) as Haspec by (by apply spec_names_elem).
  destruct (message_around q a Hwf Haspec) as (before & after & E & Hbefore & Hafter).
  assert (before ++ a :: after ≡ₚ spec_names q) as Hperm.
  { by rewrite <-E, sort_perm, rest_names. }
  assert (∀ n, n ∈ before ++ after → n ∈ spec_names q ∧ n ≠ a ∧ n ≠ b) as Hothers.
  { intros n Hn.
    assert (n ∈ spec_names q) as Hs.
    { rewrite <-Hperm. apply elem_of_app in Hn as [?|?];
        apply elem_of_app; [by left | right; by right]. }
    split; [done |]. split.
    - intros ->. apply elem_of_app in Hn as [?|?]; done.
    - intros ->. apply spec_names_elem in Hs as [_ ?]. done. }
  assert (StronglySorted JsString.le (before ++ a :: after)) as Hsorted.
  { rewrite <-E. apply Sorted_StronglySorted; [apply _ | apply sort_sorted]. }
  apply StronglySorted_app in Hsorted as (Hcross & Hsb & Hsa).
  apply StronglySorted_cons in Hsa as [Hle_a Hsa].
  assert (Js.sort (Js.keys (Js.rest apart [js "signature"]))
          = before ++ a :: b :: after) as E'.
  { apply sort_unique.
    - apply StronglySorted_Sorted, StronglySorted_app. split_and!; [| done |].
      + intros x1 x2 Hx1 [->|Hx2]%elem_of_cons.
        * apply Hcross; [done | by left].
        * apply elem_of_cons in Hx2 as [->|Hx2].
          -- transitivity a; [apply Hcross; [done | by left] |].
             apply le_lex. by right.
          -- apply Hcross; [done | by right].
      + apply StronglySorted_cons. split.
        * apply Forall_cons. split; [apply le_lex; by right | done].
        * apply StronglySorted_cons. split; [| done].
          apply Forall_forall. intros c Hc.
          destruct (Hothers c) as (Hcs & Hca & _);
            [apply elem_of_app; by right |].
          apply spec_names_elem in Hcs as [Hcsig Hcq].
          apply le_lex. right. apply Hnext; [done | done |].
          rewrite Forall_forall in Hle_a.
          pose proof (Hle_a c Hc) as Hac.
          apply le_lex in Hac as [?|?]; [congruence | done].
    - rewrite rest_names, Hspec, <-Hperm.
      transitivity (b :: (before ++ a :: after));
        [| apply Permutation_cons_append].
      rewrite <-!Permutation_middle. apply Permutation_swap. }
  assert (canonical_message (Js.rest apart [js "signature"])
          = canonical_message (Js.rest q [js "signature"])) as Hmsg.
  { rewrite !canonical_message_rest by done. rewrite E, E'.
    rewrite !joined_app, !joined_cons.
    assert (∀ l : list jsstring, (∀ n, n ∈ l → n ∈ before ++ after) →
              mapM (λ k, (λ value, k ++ js "=" ++ value)
                           <$> Js.to_string_opt (Js.get apart k)) l
              = mapM (λ k, (λ value, k ++ js "=" ++ value)
                             <$> Js.to_string_opt (Js.get q k)) l) as Hsame.
    { intros l Hl. apply mapM_ext_in. intros n Hn.
      destruct (Hothers n) as (Hs & Hna & Hnb); [by apply Hl |].
      unfold apart. by rewrite !get_set, !decide_False. }
    rewrite (Hsame before), (Hsame after);
      [| intros n ?; apply elem_of_app; by right
       | intros n ?; apply elem_of_app; by left].
    unfold apart. rewrite !get_set.
    rewrite (decide_False (P := a = b)), (decide_True (P := a = a)) by done.
    rewrite (decide_True (P := b = b)) by done. rewrite Hget.
    cbn [Js.to_string_opt Js.to_string fmap option_fmap option_map].
    repeat match goal with
           | |- context [mjoin <$> mapM ?f ?l] => destruct (mjoin <$> mapM f l)
           end;
      rewrite <-?app_assoc; done. }
  split; [done |].
  rewrite (verifyProxySignature_returns h r q w Hq),
    (verifyShopifySignature_returns h r q w Hq),
    (verifyProxySignature_returns h r' _ w' Hq'),
    (verifyShopifySignature_returns h r' _ w' Hq').
  assert (verdict h apart = verdict h q) as ->; [| done].
  unfold verdict. rewrite Hmsg.
  assert (Js.get apart (js "signature") = Js.get q (js "signature")) as ->; [| done].
  unfold apart. rewrite !get_set. by rewrite !decide_False.
Qed.

Lemma value_can_hold_the_next_pair_witness :
  heap (world_of swallowed) !! 0%nat = Some swallowed
  ∧ lex_lt (js "shop") (js "timestamp")
  ∧ Js.set (Js.set swallowed (js "shop") (Js.VStr (js "example.myshopify.com")))
      (js "timestamp") (Js.VStr (js "1700000000"))
    = [(js "shop", Js.VStr (js "example.myshopify.com"));
       (js "signature",
        Js.VStr (js "151c9e99bf578ec47aa8db85f09821a7f104fd403869a19397264d71132ab1a5"));
       (js "path_prefix", Js.VStr (js "/apps/sitemaps"));
       (js "timestamp", Js.VStr (js "1700000000"))]
  ∧ (verifyProxySignature host0 0 (world_of signed)).1
    = (verifyProxySignature host0 0 (world_of swallowed)).1.
Proof.
  assert (lex_lt (js "shop") (js "timestamp")) as Hlt.
  { apply ltb_lex. vm_compute. reflexivity. }
  split; [reflexivity |]. split; [exact Hlt |]. split; [reflexivity |].
  destruct (value_can_hold_the_next_pair host0 0 0 swallowed
              (world_of swallowed) (world_of signed)
              (js "shop") (js "timestamp") (js "example.myshopify.com")
              (js "1700000000"))
    as (_ & Hp & _).
  - reflexivity.
  - wf_by_computation.
  - vm_compute; discriminate.
  - vm_compute; discriminate.
  - reflexivity.
  - apply (bool_decide_unpack _). vm_compute. exact I.
  - exact Hlt.
  - intros c Hc Hsig Hac. exfalso.
    apply ltb_lex in Hac.
    repeat (apply elem_of_cons in Hc as [->|Hc];
            [first [done | vm_compute in Hac; discriminate] |]).
    by apply elem_of_nil in Hc.
  - reflexivity.
  - exact Hp.
Defined.

(** ** More of the proxy route *)

(** X6. In [server.js], a request that is let through and whose file can
    be read is answered with the content of the file, unchanged, declared
    as XML; the status is left at what it was (200 on a fresh response) and
    the one path read is [public/sitemaps/<identifier>.xml]. *)
Theorem server_serves_the_file h req w m content :
  let_through_server h req w →
  params_market req = Some m →
  fs_readFile h (sitemap_path h (market_id h m ++ js ".xml")) = Some content →
  (proxy_server h req w).1 = Returned ()
  ∧ res (proxy_server h req w).2
    = Response (statusCode (res w)) (Some xml_type) (cacheControl (res w))
               (Some content)
  ∧ fs_paths (new_events w (proxy_server h req w))
    = [sitemap_path h (market_id h m ++ js ".xml")].
Proof.
  intros Hthrough Hm Hfile.
  destruct (proxy_server_through h req w Hthrough) as (objs & logs & Hlogs & ->).
  rewrite (serve_server_found h req _ m content Hm Hfile). simpl.
  split_and!; try done.
  rewrite new_events_after, fs_paths_app, fs_paths_console by done. done.
Qed.

Lemma server_serves_the_file_witness :
  let_through_server host0 austria_request (world_of signed)
  ∧ res (proxy_server host0 austria_request (world_of signed)).2
    = Response 200 (Some xml_type) None (Some (js "<urlset/>")).
Proof.
  assert (let_through_server host0 austria_request (world_of signed)) as Hthrough.
  { right. split; vm_compute; reflexivity. }
  split; [exact Hthrough |].
  destruct (server_serves_the_file host0 austria_request (world_of signed)
              (js "austria") (js "<urlset/>") Hthrough)
    as (_ & Hres & _); [reflexivity | vm_compute; reflexivity |].
  exact Hres.
Defined.

(** X7. In [part_001], a request that is let through, whose identifier is
    not empty and whose file is there and can be read, is answered with the
    content of the file, declared as XML and cacheable for an hour; the
    file is looked up once and read once. *)
Theorem part_001_serves_the_file h req w content :
  let id := market_id h (Str.or_else (params_market req) []) in
  let_through_part_001 h req w →
  id ≠ [] →
  fs_access h (sitemap_path h (id ++ js ".xml")) = true →
  fs_readFile h (sitemap_path h (id ++ js ".xml")) = Some content →
  (proxy_part_001 h req w).1 = Returned ()
  ∧ res (proxy_part_001 h req w).2
    = Response (statusCode (res w)) (Some xml_type)
               (Some (js "public, max-age=3600")) (Some content)
  ∧ fs_paths (new_events w (proxy_part_001 h req w))
    = [sitemap_path h (id ++ js ".xml"); sitemap_path h (id ++ js ".xml")].
Proof.
  intros id Hthrough Hid Hacc Hfile.
  destruct (proxy_part_001_through h req w Hthrough)
    as (objs & logs & Hlogs & ->).
  rewrite (serve_part_001_found h req _ content Hid Hacc Hfile). simpl.
  split_and!; try done.
  rewrite new_events_after, fs_paths_app, fs_paths_console by done. done.
Qed.

Lemma part_001_serves_the_file_witness :
  let_through_part_001 host0 austria_request (world_of signed)
  ∧ res (proxy_part_001 host0 austria_request (world_of signed)).2
    = Response 200 (Some xml_type) (Some (js "public, max-age=3600"))
               (Some (js "<urlset/>")).
Proof.
  assert (let_through_part_001 host0 austria_request (world_of signed))
    as Hthrough.
  { right. split; vm_compute; reflexivity. }
  split; [exact Hthrough |].
  destruct (part_001_serves_the_file host0 austria_request (world_of signed)
              (js "<urlset/>") Hthrough)
    as (_ & Hres & _);
    [vm_compute; discriminate | vm_compute; reflexivity
     | vm_compute; reflexivity |].
  exact Hres.
Defined.

(** X8. In [server.js], a request that is let through and whose file cannot
    be read is answered 404, and the body repeats the path parameter as it
    came, neither lower-cased nor stripped nor escaped; the handler names no
    content type for it, so that it goes out as [text/html]. *)
Theorem server_not_found_echoes_the_parameter h req w m :
  let_through_server h req w →
  params_market req = Some m →
  fs_readFile h (sitemap_path h (market_id h m ++ js ".xml")) = None →
  (proxy_server h req w).1 = Returned ()
  ∧ res (proxy_server h req w).2
    = Response 404 (Some (default_type (res w))) (cacheControl (res w))
               (Some (js "Sitemap not found for market: " ++ m))
  ∧ (contentType (res w) = None →
     contentType (res (proxy_server h req w).2)
     = Some (js "text/html; charset=utf-8")).
Proof.
  intros Hthrough Hm Hfile.
  destruct (proxy_server_through h req w Hthrough) as (objs & logs & Hlogs & ->).
  rewrite (serve_server_missing h req _ m Hm Hfile). simpl.
  split_and!; try done. intros Hfresh. by rewrite default_type_fresh.
Qed.

(** X9. In [part_001], a request that is let through with an empty
    identifier (no parameter, or one that is [.xml] in any case) is answered
    400 in plain text, and the file system is not touched. *)
Theorem part_001_requires_a_market h req w :
  let_through_part_001 h req w →
  market_id h (Str.or_else (params_market req) []) = [] →
  (proxy_part_001 h req w).1 = Returned ()
  ∧ res (proxy_part_001 h req w).2
    = Response 400 (Some plain_type) (cacheControl (res w))
               (Some (js "Market is required"))
  ∧ fs_paths (new_events w (proxy_part_001 h req w)) = [].
Proof.
  intros Hthrough Hid.
  destruct (proxy_part_001_through h req w Hthrough)
    as (objs & logs & Hlogs & ->).
  rewrite (serve_part_001_empty h req _ Hid). split_and!; try done.
  unfold new_events. simpl. rewrite drop_app_length.
  by apply fs_paths_console.
Qed.

(** X10. In [part_001], when the file is there but cannot be read, the
    answer is 404 in plain text, and it still carries the cache directive
    [sendXml] set before reading. *)
Theorem part_001_unreadable_is_cacheable_404 h req w :
  let id := market_id h (Str.or_else (params_market req) []) in
  let_through_part_001 h req w →
  id ≠ [] →
  fs_access h (sitemap_path h (id ++ js ".xml")) = true →
  fs_readFile h (sitemap_path h (id ++ js ".xml")) = None →
  (proxy_part_001 h req w).1 = Returned ()
  ∧ res (proxy_part_001 h req w).2
    = Response 404 (Some plain_type) (Some (js "public, max-age=3600"))
               (Some (js "Sitemap not found")).
Proof.
  intros id Hthrough Hid Hacc Hfile.
  destruct (proxy_part_001_through h req w Hthrough)
    as (objs & logs & Hlogs & ->).
  by rewrite (serve_part_001_unreadable h req _ Hid Hacc Hfile).
Qed.

(** X11. In [part_001], when the file is not there, the answer is 404 in
    plain text with the identifier in the body; the directory is listed for
    the log, and whether that succeeds changes nothing in the answer. *)
Theorem part_001_not_found h req w :
  let id := market_id h (Str.or_else (params_market req) []) in
  let_through_part_001 h req w →
  id ≠ [] →
  fs_access h (sitemap_path h (id ++ js ".xml")) = false →
  (proxy_part_001 h req w).1 = Returned ()
  ∧ res (proxy_part_001 h req w).2
    = Response 404 (Some plain_type) (cacheControl (res w))
               (Some (js "Sitemap not found for market: " ++ id))
  ∧ fs_paths (new_events w (proxy_part_001 h req w))
    = [sitemap_path h (id ++ js ".xml");
       path_join h [dirname h; js "public"; js "sitemaps"]].
Proof.
  intros id Hthrough Hid Hacc.
  destruct (proxy_part_001_through h req w Hthrough)
    as (objs & logs & Hlogs & ->).
  destruct (serve_part_001_missing h req
              (World (heap w ++ objs) (trace w ++ logs) (res w)) Hid Hacc)
    as (listing & -> & Hlisting).
  split_and!; try done. simpl.
  rewrite new_events_after, fs_paths_app, fs_paths_console by done.
  by destruct listing.
Qed.

(** ** Every answer the proxy route gives *)

Lemma serve_server_answers h req w :
  (serve_server h req w).1 = Returned ()
  ∧ (file_answer h (res w) (cacheControl (res w)) (res (serve_server h req w).2)
     ∨ ∃ text,
         res (serve_server h req w).2
         = Response 404 (Some (default_type (res w))) (cacheControl (res w))
                    (Some text)).
Proof.
  destruct (params_market req) as [m|] eqn:Hm.
  - destruct (fs_readFile h (sitemap_path h (market_id h m ++ js ".xml")))
      as [content|] eqn:Hfile.
    + rewrite (serve_server_found h req w m content Hm Hfile).
      split; [done |]. left. by eexists _, _.
    + rewrite (serve_server_missing h req w m Hm Hfile).
      split; [done |]. right. by eexists.
  - rewrite (serve_server_undefined h req w Hm).
    split; [done |]. right. by eexists.
Qed.

Lemma serve_part_001_answers h req w :
  (serve_part_001 h req w).1 = Returned ()
  ∧ (file_answer h (res w) (Some (js "public, max-age=3600"))
       (res (serve_part_001 h req w).2)
     ∨ ∃ code cache text,
         (code = 400 ∨ code = 404)
         ∧ res (serve_part_001 h req w).2
           = Response code (Some plain_type) cache (Some text)).
Proof.
  set (id := market_id h (Str.or_else (params_market req) [])).
  destruct (decide (id = [])) as [Hid|Hid].
  { rewrite (serve_part_001_empty h req w Hid). split; [done |].
    right. eexists _, _, _. split; [by left | done]. }
  destruct (fs_access h (sitemap_path h (id ++ js ".xml"))) eqn:Hacc.
  - destruct (fs_readFile h (sitemap_path h (id ++ js ".xml")))
      as [content|] eqn:Hfile.
    + rewrite (serve_part_001_found h req w content Hid Hacc Hfile).
      split; [done |]. left. by eexists _, _.
    + rewrite (serve_part_001_unreadable h req w Hid Hacc Hfile).
      split; [done |]. right. eexists _, _, _. split; [by right | done].
  - destruct (serve_part_001_missing h req w Hid Hacc) as (listing & -> & _).
    split; [done |]. right. eexists _, _, _. split; [by right | done].
Qed.

Lemma through_server_answers h req w :
  let_through_server h req w →
  (proxy_server h req w).1 = Returned ()
  ∧ (file_answer h (res w) (cacheControl (res w)) (res (proxy_server h req w).2)
     ∨ ∃ code text,
         (code = 403 ∨ code = 404)
         ∧ res (proxy_server h req w).2
           = Response code (Some (default_type (res w))) (cacheControl (res w))
                      (Some text)).
Proof.
  intros Hthrough.
  destruct (proxy_server_through h req w Hthrough) as (objs & logs & _ & ->).
  destruct (serve_server_answers h req
              (World (heap w ++ objs) (trace w ++ logs) (res w)))
    as [Hret [Hfile|[text Htext]]].
  all: split; [done | simpl in *].
  - by left.
  - right. exists 404, text. split; [by right | done].
Qed.

Lemma through_part_001_answers h req w :
  let_through_part_001 h req w →
  (proxy_part_001 h req w).1 = Returned ()
  ∧ (file_answer h (res w) (Some (js "public, max-age=3600"))
       (res (proxy_part_001 h req w).2)
     ∨ ∃ code cache text,
         (code = 400 ∨ code = 403 ∨ code = 404)
         ∧ res (proxy_part_001 h req w).2
           = Response code (Some plain_type) cache (Some text)).
Proof.
  intros Hthrough.
  destruct (proxy_part_001_through h req w Hthrough) as (objs & logs & _ & ->).
  destruct (serve_part_001_answers h req
              (World (heap w ++ objs) (trace w ++ logs) (res w)))
    as [Hret [Hfile|(code & cache & text & Hcode & Htext)]].
  all: split; [done | simpl in *].
  - by left.
  - right. exists code, cache, text. split; [| done].
    destruct Hcode; [by left | right; by right].
Qed.

(** X12. Whatever the request, as long as its query is an object: where
    the bypass is on or the verifier returns, each proxy handler returns
    and has answered, either with a file it read, declared as XML and with
    the status untouched, or with a text under 403 or 404 ([server.js],
    which names no type) or under 400, 403 or 404 in plain text
    ([part_001]).  Where the verifier throws, the handler of [server.js]
    throws with it and leaves the response unsent, and that of [part_001]
    answers 500; neither has touched the file system.  The verifier
    returns whenever the parameters all have a text. *)
Theorem proxy_answers h req q w :
  heap w !! query req = Some q →
  ((Str.strict_eq (env_SKIP_VERIFICATION h) (js "true") = true
    ∨ (∃ b, (verifyProxySignature h (query req) w).1 = Returned b) →
    (proxy_server h req w).1 = Returned ()
    ∧ (file_answer h (res w) (cacheControl (res w)) (res (proxy_server h req w).2)
       ∨ ∃ code text,
           (code = 403 ∨ code = 404)
           ∧ res (proxy_server h req w).2
             = Response code (Some (default_type (res w)))
                        (cacheControl (res w)) (Some text)))
   ∧ (Str.strict_eq (env_SKIP_VERIFICATION h) (js "true") = false →
      ∀ e, (verifyProxySignature h (query req) w).1 = Thrown e →
        (proxy_server h req w).1 = Thrown e
        ∧ res (proxy_server h req w).2 = res w
        ∧ fs_paths (new_events w (proxy_server h req w)) = []))
  ∧ ((proxy_part_001 h req w).1 = Returned ()
     ∧ (Str.strict_eq (env_NODE_ENV h) (js "development") = true
        ∨ (∃ b, (verifyShopifySignature h (query req) w).1 = Returned b) →
        file_answer h (res w) (Some (js "public, max-age=3600"))
          (res (proxy_part_001 h req w).2)
        ∨ ∃ code cache text,
            (code = 400 ∨ code = 403 ∨ code = 404)
            ∧ res (proxy_part_001 h req w).2
              = Response code (Some plain_type) cache (Some text))
     ∧ (Str.strict_eq (env_NODE_ENV h) (js "development") = false →
        ∀ e, (verifyShopifySignature h (query req) w).1 = Thrown e →
          res (proxy_part_001 h req w).2
          = Response 500 (Some plain_type) (cacheControl (res w))
                     (Some (js "Internal server error"))
          ∧ fs_paths (new_events w (proxy_part_001 h req w)) = []))
  ∧ (has_texts q →
     (∃ b, (verifyProxySignature h (query req) w).1 = Returned b)
     ∧ (∃ b, (verifyShopifySignature h (query req) w).1 = Returned b)).
Proof.
  intros Hq.
  rewrite (verifyProxySignature_returns h _ q w Hq).
  rewrite (verifyShopifySignature_returns h _ q w Hq).
  split_and!.
  - intros [Hskip | [b Hv]]; [apply through_server_answers; by left |].
    destruct (Str.strict_eq (env_SKIP_VERIFICATION h) (js "true")) eqn:Hskip.
    { apply through_server_answers. by left. }
    destruct b.
    { apply through_server_answers. right. split; [done |].
      by rewrite (verifyProxySignature_returns h _ q w Hq). }
    destruct (proxy_server_refuses h req q w Hq Hskip Hv)
      as (objs & logs & -> & _).
    split; [done |]. right. eexists _, _. split; [by left | done].
  - intros Hskip e Hv.
    destruct (proxy_server_throws h req q w e Hq Hskip Hv)
      as (objs & logs & E & Hlogs).
    unfold new_events. rewrite E. simpl. rewrite drop_app_length.
    split_and!; try done. by apply fs_paths_console.
  - destruct (Str.strict_eq (env_NODE_ENV h) (js "development")) eqn:Hdev.
    { apply through_part_001_answers. by left. }
    destruct (verdict h q) as [[]|e] eqn:Hv.
    + apply through_part_001_answers. right. split; [done |].
      by rewrite (verifyShopifySignature_returns h _ q w Hq).
    + by destruct (proxy_part_001_refuses h req q w Hq Hdev Hv)
        as (objs & logs & -> & _).
    + by destruct (proxy_part_001_throws h req q w e Hq Hdev Hv)
        as (objs & logs & -> & _).
  - intros [Hdev | [b Hv]]; [apply through_part_001_answers; by left |].
    destruct (Str.strict_eq (env_NODE_ENV h) (js "development")) eqn:Hdev.
    { apply through_part_001_answers. by left. }
    destruct b.
    { apply through_part_001_answers. right. split; [done |].
      by rewrite (verifyShopifySignature_returns h _ q w Hq). }
    destruct (proxy_part_001_refuses h req q w Hq Hdev Hv)
      as (objs & logs & -> & _).
    right. eexists _, _, _. split; [right; by left | done].
  - intros Hdev e Hv.
    destruct (proxy_part_001_throws h req q w e Hq Hdev Hv)
      as (objs & logs & E & Hlogs).
    unfold new_events. rewrite E. simpl. rewrite drop_app_length.
    split; [done |]. by apply fs_paths_console.
  - intros Htexts. split; by apply verdict_total.
Qed.

Lemma proxy_answers_witness :
  heap (world_of textless) !! 0%nat = Some textless
  ∧ (proxy_server host0 austria_request (world_of textless)).1
    = Thrown (TypeError "Cannot convert object to primitive value")
  ∧ res (proxy_server host0 austria_request (world_of textless)).2
    = fresh_response
  ∧ res (proxy_part_001 host0 austria_request (world_of textless)).2
    = Response 500 (Some plain_type) None (Some (js "Internal server error")).
Proof.
  split; [reflexivity |].
  destruct (proxy_answers host0 austria_request textless (world_of textless))
    as ((_ & Hserver) & (_ & _ & Hpart) & _); [reflexivity |].
  destruct (Hserver eq_refl
              (TypeError "Cannot convert object to primitive value"))
    as (Hthrown & Hres & _); [vm_compute; reflexivity |].
  destruct (Hpart eq_refl
              (TypeError "Cannot convert object to primitive value"))
    as (Hres' & _); [vm_compute; reflexivity |].
  split; [exact Hthrown |]. split; [exact Hres | exact Hres'].
Defined.

Lemma server_not_found_echoes_the_parameter_witness :
  let_through_server host0 germany_request (world_of signed)
  ∧ res (proxy_server host0 germany_request (world_of signed)).2
    = Response 404 (Some (default_type fresh_response)) None
               (Some (js "Sitemap not found for market: Germany"))
  ∧ contentType (res (proxy_server host0 germany_request (world_of signed)).2)
    = Some (js "text/html; charset=utf-8").
Proof.
  assert (let_through_server host0 germany_request (world_of signed)) as Hthrough.
  { right. split; vm_compute; reflexivity. }
  split; [exact Hthrough |].
  destruct (server_not_found_echoes_the_parameter host0 germany_request
              (world_of signed) (js "Germany") Hthrough)
    as (_ & Hres & Htype); [reflexivity | vm_compute; reflexivity |].
  split; [exact Hres | exact (Htype eq_refl)].
Defined.

Lemma part_001_requires_a_market_witness :
  let_through_part_001 host0 extension_request (world_of signed)
  ∧ market_id host0 (Str.or_else (params_market extension_request) []) = []
  ∧ statusCode (res (proxy_part_001 host0 extension_request (world_of signed)).2)
    = 400.
Proof.
  assert (let_through_part_001 host0 extension_request (world_of signed))
    as Hthrough.
  { right. split; vm_compute; reflexivity. }
  split; [exact Hthrough |]. split; [vm_compute; reflexivity |].
  destruct (part_001_requires_a_market host0 extension_request (world_of signed)
              Hthrough)
    as (_ & Hres & _); [vm_compute; reflexivity |].
  by rewrite Hres.
Defined.

Lemma part_001_unreadable_is_cacheable_404_witness :
  let_through_part_001 unreadable austria_request (world_of signed)
  ∧ res (proxy_part_001 unreadable austria_request (world_of signed)).2
    = Response 404 (Some plain_type) (Some (js "public, max-age=3600"))
               (Some (js "Sitemap not found")).
Proof.
  assert (let_through_part_001 unreadable austria_request (world_of signed))
    as Hthrough.
  { right. split; vm_compute; reflexivity. }
  split; [exact Hthrough |].
  destruct (part_001_unreadable_is_cacheable_404 unreadable austria_request
              (world_of signed) Hthrough)
    as [_ Hres];
    [vm_compute; discriminate | reflexivity | reflexivity |].
  exact Hres.
Defined.

Lemma part_001_not_found_witness :
  let_through_part_001 host0 germany_request (world_of signed)
  ∧ res (proxy_part_001 host0 germany_request (world_of signed)).2
    = Response 404 (Some plain_type) None
               (Some (js "Sitemap not found for market: germany")).
Proof.
  assert (let_through_part_001 host0 germany_request (world_of signed))
    as Hthrough.
  { right. split; vm_compute; reflexivity. }
  split; [exact Hthrough |].
  destruct (part_001_not_found host0 germany_request (world_of signed) Hthrough)
    as (_ & Hres & _); [vm_compute; discriminate | vm_compute; reflexivity |].
  rewrite Hres. vm_compute. reflexivity.
Defined.

(** ** No secret, no service *)

(** X19. With no secret configured (unset or empty) and the bypass off,
    both proxy handlers refuse every request, whatever it carries: 403,
    [Forbidden], and no access to the file system. *)
Theorem no_secret_refuses_everything h req q w :
  heap w !! query req = Some q →
  Js.truthy_str (env_SHOPIFY_APP_SECRET h) = false →
  (Str.strict_eq (env_SKIP_VERIFICATION h) (js "true") = false →
   statusCode (res (proxy_server h req w).2) = 403
   ∧ body (res (proxy_server h req w).2) = Some (js "Forbidden")
   ∧ fs_paths (new_events w (proxy_server h req w)) = [])
  ∧ (Str.strict_eq (env_NODE_ENV h) (js "development") = false →
     statusCode (res (proxy_part_001 h req w).2) = 403
     ∧ body (res (proxy_part_001 h req w).2) = Some (js "Forbidden")
     ∧ fs_paths (new_events w (proxy_part_001 h req w)) = []).
Proof.
  intros Hq Hsecret.
  pose proof (verdict_no_secret h q Hsecret) as Hv. split.
  - intros Hskip.
    destruct (proxy_server_refuses h req q w Hq Hskip Hv)
      as (objs & logs & E & Hlogs).
    rewrite E. split_and!; try done.
    unfold new_events. simpl. rewrite drop_app_length.
    by apply fs_paths_console.
  - intros Hdev.
    destruct (proxy_part_001_refuses h req q w Hq Hdev Hv)
      as (objs & logs & E & Hlogs).
    rewrite E. split_and!; try done.
    unfold new_events. simpl. rewrite drop_app_length.
    by apply fs_paths_console.
Qed.

Lemma no_secret_refuses_everything_witness :
  heap (world_of signed) !! 0%nat = Some signed
  ∧ Js.truthy_str (env_SHOPIFY_APP_SECRET empty_secret) = false
  ∧ statusCode (res (proxy_server empty_secret austria_request (world_of signed)).2)
    = 403
  ∧ statusCode (res (proxy_part_001 no_secret austria_request (world_of signed)).2)
    = 403.
Proof.
  split; [reflexivity |]. split; [reflexivity |].
  destruct (no_secret_refuses_everything empty_secret austria_request signed
              (world_of signed)) as [Hserver _]; [reflexivity | reflexivity |].
  destruct (no_secret_refuses_everything no_secret austria_request signed
              (world_of signed)) as [_ Hpart]; [reflexivity | reflexivity |].
  split; [apply Hserver | apply Hpart]; reflexivity.
Defined.

(** ** The other routes, proved *)

Section string_methods.

Lemma startsWith_app (p t : jsstring) : Str.startsWith (p ++ t) p = true.
Proof.
  induction p as [|c p IH]; simpl; [by destruct t |].
  by rewrite N.eqb_refl.
Qed.

Lemma endsWith_app (s suffix : jsstring) :
  Str.endsWith (s ++ suffix) suffix = true.
Proof. unfold Str.endsWith. rewrite reverse_app. apply startsWith_app. Qed.

Lemma toLowerCase_ascii h (s : jsstring) :
  Str.is_ascii s = true → toLowerCase h s = Str.lower_ascii s.
Proof. unfold toLowerCase. by intros ->. Qed.

Lemma is_ascii_app (s t : jsstring) :
  Str.is_ascii (s ++ t) = Str.is_ascii s && Str.is_ascii t.
Proof. apply forallb_app. Qed.

Lemma lower_ascii_app (s t : jsstring) :
  Str.lower_ascii (s ++ t) = Str.lower_ascii s ++ Str.lower_ascii t.
Proof. apply fmap_app. Qed.

Lemma lower_ascii_nil_iff (s : jsstring) : Str.lower_ascii s = [] ↔ s = [].
Proof. split; [by destruct s | by intros ->]. Qed.

Lemma or_else_Some (m : jsstring) : Str.or_else (Some m) [] = m.
Proof.
  unfold Str.or_else. destruct (JsString.eqb m []) eqn:E; [| done].
  by apply eqb_eq in E.
Qed.

End string_methods.

(** X13. The file name the second revision of [server.js] derives from a
    market always ends in [.xml], a market that already ends in [.xml] is
    taken as it is, and deriving twice changes nothing. *)
Theorem fileName_of_gives_an_xml_name (market : jsstring) :
  Str.endsWith (fileName_of market) (js ".xml") = true
  ∧ fileName_of (market ++ js ".xml") = market ++ js ".xml"
  ∧ fileName_of (fileName_of market) = fileName_of market.
Proof.
  assert (Str.endsWith (fileName_of market) (js ".xml") = true) as Hends.
  { unfold fileName_of.
    destruct (Str.endsWith market (js ".xml")) eqn:E; [done |].
    apply endsWith_app. }
  split_and!; [done | |].
  - unfold fileName_of. by rewrite endsWith_app.
  - unfold fileName_of at 1. by rewrite Hends.
Qed.

(** X14. In the second revision of [server.js] the extension is optional
    for a market written in ASCII: such a market and the same market
    followed by [.xml], in lower or upper case, are answered alike. *)
Theorem server_2_extension_is_optional h sendFile p1 p2 r1 r2 stem w :
  stem ≠ [] →
  Str.is_ascii stem = true →
  Str.endsWith (Str.lower_ascii stem) (js ".xml") = false →
  proxy_server_2 h sendFile (Request p1 (Some (stem ++ js ".xml")) r1) w
  = proxy_server_2 h sendFile (Request p2 (Some stem) r2) w.
Proof.
  intros Hstem Hascii Hends. unfold proxy_server_2. cbn [params_market].
  rewrite !or_else_Some.
  rewrite !toLowerCase_ascii
    by (done || (rewrite is_ascii_app, Hascii; reflexivity)).
  rewrite lower_ascii_app.
  change (Str.lower_ascii (js ".xml")) with (js ".xml").
  assert (JsString.eqb (Str.lower_ascii stem) [] = false) as ->.
  { apply eqb_neq. by rewrite lower_ascii_nil_iff. }
  assert (JsString.eqb (Str.lower_ascii stem ++ js ".xml") [] = false) as ->.
  { apply eqb_neq. by destruct (Str.lower_ascii stem). }
  assert (fileName_of (Str.lower_ascii stem ++ js ".xml")
          = fileName_of (Str.lower_ascii stem)) as ->; [| done].
  unfold fileName_of. by rewrite endsWith_app, Hends.
Qed.

Lemma server_2_extension_is_optional_witness :
  js "Austria" ≠ []
  ∧ Str.is_ascii (js "Austria") = true
  ∧ proxy_server_2 host0 sendFile0
      (Request (js "/proxy/sitemaps/Austria.xml") (Some (js "Austria" ++ js ".xml")) 0)
      (world_of signed)
    = proxy_server_2 host0 sendFile0
        (Request (js "/proxy/sitemaps/Austria") (Some (js "Austria")) 0)
        (world_of signed).
Proof.
  split; [vm_compute; discriminate |]. split; [reflexivity |].
  apply (server_2_extension_is_optional host0 sendFile0);
    [vm_compute; discriminate | reflexivity | vm_compute; reflexivity].
Defined.

(** X15. The route [/sitemaps/:market.xml] of [part_001] asks for no
    signature: whatever the query and the secret, for a market without
    [.xml] inside whose file is there, it gives the response the proxy
    route gives to a request for that market that it lets through. *)
Theorem direct_route_serves_what_the_proxy_serves h req w m :
  params_market req = Some m →
  toLowerCase h m ≠ [] →
  market_id h m = toLowerCase h m →
  fs_access h (sitemap_path h (toLowerCase h m ++ js ".xml")) = true →
  (sitemaps_part_001 h req w).1 = Returned ()
  ∧ ∀ req' w',
      params_market req' = Some m → res w' = res w →
      let_through_part_001 h req' w' →
      res (sitemaps_part_001 h req w).2 = res (proxy_part_001 h req' w').2.
Proof.
  intros Hm Hlow Hid Hacc.
  assert (∀ content,
            fs_readFile h (sitemap_path h (toLowerCase h m ++ js ".xml"))
            = content →
            (sitemaps_part_001 h req w).1 = Returned ()
            ∧ res (sitemaps_part_001 h req w).2
              = match content with
                | Some xml =>
                    Response (statusCode (res w)) (Some xml_type)
                             (Some (js "public, max-age=3600")) (Some xml)
                | None =>
                    Response 404 (Some plain_type)
                             (Some (js "public, max-age=3600"))
                             (Some (js "Sitemap not found"))
                end) as Hdirect.
  { intros content Hfile.
    unfold sitemaps_part_001, market_toLowerCase, sendXml, access, readFile.
    rewrite Hm. run_handler. unfold sitemap_path in *. rewrite Hacc. simpl.
    rewrite Hfile. destruct content; simpl; express; done. }
  destruct (Hdirect _ eq_refl) as [Hret Hres]. split; [done |].
  intros req' w' Hm' Hresw Hthrough. rewrite Hres.
  assert (market_id h (Str.or_else (params_market req') []) = toLowerCase h m)
    as Hid' by (by rewrite Hm', or_else_Some).
  destruct (proxy_part_001_through h req' w' Hthrough)
    as (objs & logs & _ & ->).
  destruct (fs_readFile h (sitemap_path h (toLowerCase h m ++ js ".xml")))
    as [content|] eqn:Hfile.
  - rewrite (serve_part_001_found h req' _ content);
      rewrite ?Hid'; try done. simpl. by rewrite Hresw.
  - rewrite (serve_part_001_unreadable h req' _);
      rewrite ?Hid'; done.
Qed.

Lemma direct_route_serves_what_the_proxy_serves_witness :
  let_through_part_001 host0 austria_request (world_of signed)
  ∧ statusCode (res (proxy_part_001 host0 austria_request (world_of tampered)).2)
    = 403
  ∧ res (sitemaps_part_001 host0 austria_request (world_of tampered)).2
    = res (proxy_part_001 host0 austria_request (world_of signed)).2.
Proof.
  assert (let_through_part_001 host0 austria_request (world_of signed))
    as Hthrough.
  { right. split; vm_compute; reflexivity. }
  split; [exact Hthrough |]. split; [vm_compute; reflexivity |].
  destruct (direct_route_serves_what_the_proxy_serves host0 austria_request
              (world_of tampered) (js "austria"))
    as [_ Hres];
    [reflexivity | vm_compute; discriminate | vm_compute; reflexivity
     | vm_compute; reflexivity |].
  apply (Hres austria_request (world_of signed)); [reflexivity | reflexivity |].
  exact Hthrough.
Defined.

(** X16. The route [/direct/:market.xml] of [server.js] reads the file
    named by the parameter as it came, without lower-casing it: a file that
    can be read is sent as [application/xml], to which sending adds the
    charset; anything else is answered 404 with [Not found], for which the
    handler names no type; the handler does not throw. *)
Theorem direct_server_answers h req w m :
  params_market req = Some m →
  (direct_server h req w).1 = Returned ()
  ∧ fs_paths (events_since w (direct_server h req w).2)
    = [sitemap_path h (m ++ js ".xml")]
  ∧ res (direct_server h req w).2
    = match fs_readFile h (sitemap_path h (m ++ js ".xml")) with
      | Some content =>
          Response (statusCode (res w))
                   (Some (js "application/xml; charset=utf-8"))
                   (cacheControl (res w)) (Some content)
      | None =>
          Response 404 (Some (default_type (res w))) (cacheControl (res w))
                   (Some (js "Not found"))
      end.
Proof.
  intros Hm. unfold direct_server, readFile, events_since, sitemap_path.
  rewrite Hm. run_handler.
  destruct (fs_readFile h _); simpl; express;
    rewrite <-!app_assoc, drop_app_length; done.
Qed.

Lemma direct_server_answers_witness :
  res (direct_server host0 germany_request (world_of unsigned)).2
  = Response 404 (Some html_type) None (Some (js "Not found")).
Proof.
  destruct (direct_server_answers host0 germany_request (world_of unsigned)
              (js "Germany")) as (_ & _ & Hres); [reflexivity |].
  rewrite Hres. vm_compute. reflexivity.
Defined.

(** X17. The handler of [part_000] hands the file named by the parameter
    to [res.sendFile]: what is sent goes out as XML, with the cache
    directive of [res.sendFile] where the response had none, and a failure
    is answered in plain text with [Sitemap not found] under the status the
    error carries, 404 when it carries none or zero.  No signature, secret
    or switch is consulted. *)
Theorem part_000_answers h sendFile req w m :
  params_market req = Some m →
  (proxy_part_000 h sendFile req w).1 = Returned ()
  ∧ heap (proxy_part_000 h sendFile req w).2 = heap w
  ∧ events_since w (proxy_part_000 h sendFile req w).2
    = [FsReadFile (sitemap_path h (m ++ js ".xml"))]
  ∧ res (proxy_part_000 h sendFile req w).2
    = match sendFile (sitemap_path h (m ++ js ".xml")) with
      | Sent _ content =>
          Response (statusCode (res w)) (Some xml_type)
                   (Some (default (js "public, max-age=0") (cacheControl (res w))))
                   (Some content)
      | SendError statusCode =>
          Response (status_or statusCode 404) (Some plain_type)
                   (cacheControl (res w)) (Some (js "Sitemap not found"))
      end
  ∧ ∀ statusCode, status_or statusCode 404 ≠ 0.
Proof.
  intros Hm. unfold proxy_part_000, res_sendFile, events_since, sitemap_path.
  rewrite Hm. run_handler. split_and!.
  - by destruct (sendFile _).
  - by destruct (sendFile _).
  - destruct (sendFile _); simpl; by rewrite drop_app_length.
  - destruct (sendFile _); simpl; express; done.
  - intros [code|]; simpl; [| done].
    destruct (N.eqb_spec code 0); done.
Qed.

Lemma part_000_answers_witness :
  res (proxy_part_000 host0 sendFile0 germany_request (world_of unsigned)).2
  = Response 404 (Some plain_type) None (Some (js "Sitemap not found")).
Proof.
  destruct (part_000_answers host0 sendFile0 germany_request (world_of unsigned)
              (js "Germany")) as (_ & _ & _ & Hres & _); [reflexivity |].
  rewrite Hres. vm_compute. reflexivity.
Defined.

(** X18. In the second revision of [server.js]: an empty market is
    answered 400 and a file that is not there 404, both before anything is
    handed to [res.sendFile]; a file that is sent goes out as XML, cacheable
    for an hour; and when sending fails the answer takes the status of the
    error (404 for none or zero) and keeps the cache directive. *)
Theorem server_2_answers h sendFile req w :
  let market := toLowerCase h (Str.or_else (params_market req) []) in
  let path := sitemap_path h (fileName_of market) in
  let run := proxy_server_2 h sendFile req w in
  run.1 = Returned ()
  ∧ (market = [] →
     res run.2 = Response 400 (Some plain_type) (cacheControl (res w))
                          (Some (js "Market is required"))
     ∧ events_since w run.2 = [])
  ∧ (market ≠ [] → fs_access h path = false →
     res run.2 = Response 404 (Some plain_type) (cacheControl (res w))
                          (Some (js "Sitemap not found"))
     ∧ events_since w run.2 = [FsAccess path])
  ∧ (market ≠ [] → fs_access h path = true →
     events_since w run.2 = [FsAccess path; FsReadFile path]
     ∧ res run.2
       = match sendFile path with
         | Sent _ content =>
             Response (statusCode (res w)) (Some xml_type)
                      (Some (js "public, max-age=3600")) (Some content)
         | SendError statusCode =>
             Response (status_or statusCode 404) (Some plain_type)
                      (Some (js "public, max-age=3600"))
                      (Some (js "Sitemap not found"))
         end).
Proof.
  intros market path run. unfold run, proxy_server_2, sendXml_sendFile,
    res_sendFile, access, events_since. fold market.
  unfold path, sitemap_path.
  destruct (JsString.eqb market []) eqn:E.
  - apply eqb_eq in E. run_handler. split_and!; try done.
    intros _. by rewrite drop_all.
  - apply eqb_neq in E. run_handler.
    destruct (fs_access h _) eqn:Hacc; simpl; express.
    + destruct (sendFile _) eqn:Hsend; simpl; express;
        (split_and!; [done | done | done |]);
        intros _ _; rewrite <-!app_assoc, drop_app_length; done.
    + split_and!; try done. intros _ _. by rewrite drop_app_length.
Qed.

Lemma server_2_answers_witness :
  res (proxy_server_2 host0 sendFile0 austria_xml_request (world_of unsigned)).2
  = Response 200 (Some xml_type) (Some (js "public, max-age=3600"))
             (Some (js "<urlset/>")).
Proof.
  destruct (server_2_answers host0 sendFile0 austria_xml_request
              (world_of unsigned)) as (_ & _ & _ & Hfound).
  destruct Hfound as [_ Hres];
    [vm_compute; discriminate | vm_compute; reflexivity |].
  rewrite Hres. vm_compute. reflexivity.
Defined.

(** ** What [replace] takes out *)

Section first_occurrence.
Context (pat by_ : jsstring).

Lemma replace_cons_miss c (s : jsstring) :
  Str.startsWith (c :: s) pat = false →
  Str.replace (c :: s) pat by_ = c :: Str.replace s pat by_.
Proof.
  intros E.
  change (Str.replace (c :: s) pat by_)
    with (if Str.startsWith (c :: s) pat
          then by_ ++ drop (length pat) (c :: s)
          else c :: Str.replace s pat by_).
  by rewrite E.
Qed.

Lemma replace_hit (s : jsstring) :
  Str.startsWith s pat = true →
  Str.replace s pat by_ = by_ ++ drop (length pat) s.
Proof.
  intros E. destruct s as [|c s].
  - change (Str.replace [] pat by_)
      with (if Str.startsWith [] pat then by_ ++ drop (length pat) []
            else @nil N).
    by rewrite E.
  - change (Str.replace (c :: s) pat by_)
      with (if Str.startsWith (c :: s) pat
            then by_ ++ drop (length pat) (c :: s)
            else c :: Str.replace s pat by_).
    by rewrite E.
Qed.

Lemma replace_first (pre post : jsstring) :
  (∀ i, (i < length pre)%nat →
        Str.startsWith (drop i (pre ++ pat ++ post)) pat = false) →
  Str.replace (pre ++ pat ++ post) pat by_ = pre ++ by_ ++ post.
Proof.
  induction pre as [|c pre IH]; intros Hmiss.
  - simpl. rewrite replace_hit by apply startsWith_app.
    by rewrite drop_app_length.
  - change ((c :: pre) ++ pat ++ post) with (c :: (pre ++ pat ++ post)).
    rewrite replace_cons_miss.
    + rewrite IH; [done |]. intros i Hi. apply (Hmiss (S i)). simpl. lia.
    + apply (Hmiss 0%nat). simpl. lia.
Qed.

Lemma replace_none (s : jsstring) :
  (∀ i, Str.startsWith (drop i s) pat = false) →
  Str.replace s pat by_ = s.
Proof.
  induction s as [|c s IH]; intros Hmiss.
  - pose proof (Hmiss 0%nat) as E.
    change (Str.replace [] pat by_)
      with (if Str.startsWith [] pat then by_ ++ drop (length pat) []
            else @nil N).
    change (drop 0 (@nil N)) with (@nil N) in E. by rewrite E.
  - rewrite replace_cons_miss; [| apply (Hmiss 0%nat)].
    rewrite IH; [done |]. intros i. apply (Hmiss (S i)).
Qed.

End first_occurrence.

(** X20. The identifier the proxy handlers compute is the lower-cased
    parameter with its first [.xml] taken out, wherever that stands, and
    the lower-cased parameter itself when it holds no [.xml]. *)
Theorem market_id_takes_out_the_first_xml h (m : jsstring) :
  (∀ pre post,
     toLowerCase h m = pre ++ js ".xml" ++ post →
     (∀ i, (i < length pre)%nat →
           Str.startsWith (drop i (toLowerCase h m)) (js ".xml") = false) →
     market_id h m = pre ++ post)
  ∧ ((∀ i, Str.startsWith (drop i (toLowerCase h m)) (js ".xml") = false) →
     market_id h m = toLowerCase h m).
Proof.
  unfold market_id. split.
  - intros pre post E Hmiss. rewrite E in *.
    by rewrite replace_first.
  - apply replace_none.
Qed.

Lemma market_id_takes_out_the_first_xml_witness :
  toLowerCase host0 (js "aus.xmltria") = js "aus" ++ js ".xml" ++ js "tria"
  ∧ market_id host0 (js "aus.xmltria") = js "aus" ++ js "tria"
  ∧ market_id host0 (js "Austria") = toLowerCase host0 (js "Austria").
Proof.
  destruct (market_id_takes_out_the_first_xml host0 (js "aus.xmltria"))
    as [Hfirst _].
  destruct (market_id_takes_out_the_first_xml host0 (js "Austria"))
    as [_ Hnone].
  split; [reflexivity |]. split.
  - apply Hfirst; [reflexivity |].
    intros i Hi. destruct i as [|[|[|i]]]; [reflexivity .. |].
    vm_compute in Hi. lia.
  - apply Hnone. intros i.
    do 8 (destruct i as [|i]; [reflexivity |]). reflexivity.
Defined.
